(** * Flight price prediction service: the regression engine

    A shallow embedding of the pure-Python trainers and of the serving path
    of [ml-service]:

    - [simple_train.py]: [SimpleDecisionTree], [SimpleRandomForest],
      [extract_hour], [encode_categorical] and the artifact written by
      [train_model];
    - [train_simple.py]: [LinearRegression], [extract_hour] and the artifact
      written by [train_model];
    - [api.py] and [api_simple.py]: [extract_hour], [encode_category] and
      [predict_price] (the two files define these three functions with the
      same text), and [parse_query] of [api_simple.py].

    Conventions of the embedding.

    - Python [float] and [int] values that take part in arithmetic are exact
      rationals [Q]: rounding, overflow and NaN of binary64 are outside this
      model, which serves for what does not depend on them.  Feature values
      that the forest trainer builds with [int(...)] are integers [Z].
    - The module [binary64] embeds the decision tree and the random forest a
      second time over IEEE 754 binary64 numbers (the primitive floats),
      where [x ** 2] raises [OverflowError] and a mean is rounded: the
      statements on the range of the predictions and on the failures of
      [fit] are made there.
    - [LinearRegression] is embedded over [Q] only, where a power raises
      nothing, and [print] is left out, with the [mse] that [fit] computes
      every 20th iteration to print it: the statements on it are on the
      model that [fit] returns when it returns one, on the rows it reads,
      and on the calls that return no model.
    - A Python exception is a value of [exn]; a computation that may raise
      has type [result A].  [try ... except] is a [match] on the result.
    - A [dict] with string keys is a [gmap string _]; a list is a [list];
      [l[i]] is [getitem], which raises [IndexError] out of range.
    - The builtins [float(s)], [int(s)], [datetime.fromisoformat(s).hour]
      and [math.sqrt(v)] are the fields of the class [PyBuiltins]: general
      statements hold for every behaviour of the four, and
      [decimal_builtins] is a concrete instance used to run the code on
      examples.
    - [random.randint] reads an explicit stream of draws. *)

From Stdlib Require Import ZArith QArith Qabs Lqa Lia String Ascii List Floats.
From stdpp Require Import base option list gmap strings.
Import ListNotations.

Open Scope string_scope.
Open Scope Z_scope.

(** ** Exceptions and the result monad *)

Inductive exn : Type :=
  | ZeroDivisionError
  | IndexError
  | TypeError
  | KeyError (key : string)
  | ValueError (msg : string)
  | OverflowError.

Inductive result (A : Type) : Type :=
  | Ok (a : A)
  | Raise (e : exn).
Arguments Ok {A} a.
Arguments Raise {A} e.

#[global] Instance result_ret : MRet result := fun _ a => Ok a.
#[global] Instance result_bind : MBind result := fun _ _ f m =>
  match m with
  | Ok a => f a
  | Raise e => Raise e
  end.

Definition is_ok {A} (r : result A) : bool :=
  match r with Ok _ => true | Raise _ => false end.

(** [str(e)] as CPython prints the exceptions met here. *)
Definition str_exn (e : exn) : string :=
  match e with
  | ZeroDivisionError => "float division by zero"
  | IndexError => "list index out of range"
  | TypeError => "'NoneType' object is not subscriptable"
  | KeyError k => "'" ++ k ++ "'"
  | ValueError m => m
  | OverflowError => "(34, 'Numerical result out of range')"
  end.

(** ** Python lists and numbers *)

(** [l[i]] for [i] produced by [range]. *)
Definition getitem {A} (l : list A) (i : nat) : result A :=
  match l !! i with
  | Some a => Ok a
  | None => Raise IndexError
  end.

(** [[f(a) for a in l]], left to right, stopping at the first exception. *)
Fixpoint mapM_r {A B} (f : A → result B) (l : list A) : result (list B) :=
  match l with
  | [] => Ok []
  | a :: l' => b ← f a; bs ← mapM_r f l'; Ok (b :: bs)
  end.

(** [[elt(i) for i in idxs if cond(i)]]: the condition is evaluated first,
    the element only when it holds. *)
Fixpoint list_comp {A} (cond : nat → result bool) (elt : nat → result A)
    (idxs : list nat) : result (list A) :=
  match idxs with
  | [] => Ok []
  | i :: rest =>
      c ← cond i;
      if c : bool then a ← elt i; r ← list_comp cond elt rest; Ok (a :: r)
      else list_comp cond elt rest
  end.

(** A [for] loop that updates a state and may raise. *)
Fixpoint foldM_r {A B} (f : B → A → result B) (b : B) (l : list A) : result B :=
  match l with
  | [] => Ok b
  | a :: l' => b' ← f b a; foldM_r f b' l'
  end.

(** [range(n)] for a Python integer [n]. *)
Definition range (n : Z) : list nat := seq 0 (Z.to_nat n).

(** [len(l)] as a number. *)
Definition len {A} (l : list A) : Q := inject_Z (Z.of_nat (length l)).

(** [sum(l)]: additions from the left, starting at 0. *)
Definition sum (l : list Q) : Q := fold_left Qplus l 0%Q.

(** [a / b] on numbers. *)
Definition truediv (a b : Q) : result Q :=
  if Qeq_bool b 0 then Raise ZeroDivisionError else Ok (a / b)%Q.

Definition Qlt_bool (a b : Q) : bool := negb (Qle_bool b a).

(** [max(0, p)]: the second argument wins only when it is greater. *)
Definition max0 (p : Q) : Q := if Qlt_bool 0 p then p else 0%Q.

(** [min(l)] and [max(l)]: the first element, replaced by each later
    element that is smaller (greater). *)
Definition py_min (l : list Q) : result Q :=
  match l with
  | [] => Raise (ValueError "min() arg is an empty sequence")
  | a :: l' => Ok (fold_left (fun m x => if Qlt_bool x m then x else m) l' a)
  end.

Definition py_max (l : list Q) : result Q :=
  match l with
  | [] => Raise (ValueError "max() arg is an empty sequence")
  | a :: l' => Ok (fold_left (fun m x => if Qlt_bool m x then x else m) l' a)
  end.

(** [sorted(set(l))] on integers: ascending, without repeats. *)
Fixpoint insert_uniq (v : Z) (l : list Z) : list Z :=
  match l with
  | [] => [v]
  | h :: t =>
      if v <? h then v :: l
      else if v =? h then l
      else h :: insert_uniq v t
  end.

Definition sorted_set (l : list Z) : list Z := foldr insert_uniq [] l.

(** ** Python strings *)

(** [s.split(c)] for a one-character separator. *)
Fixpoint split_on (c : ascii) (s : string) : list string :=
  match s with
  | EmptyString => [EmptyString]
  | String a s' =>
      if Ascii.eqb a c then EmptyString :: split_on c s'
      else match split_on c s' with
           | [] => [String a EmptyString]
           | w :: ws => String a w :: ws
           end
  end.

(** [s.replace(c, by)] for a one-character pattern. *)
Fixpoint replace_char (c : ascii) (by_ : string) (s : string) : string :=
  match s with
  | EmptyString => EmptyString
  | String a s' =>
      if Ascii.eqb a c then by_ ++ replace_char c by_ s'
      else String a (replace_char c by_ s')
  end.

(** [c in s] for a one-character [c]. *)
Fixpoint contains_char (c : ascii) (s : string) : bool :=
  match s with
  | EmptyString => false
  | String a s' => Ascii.eqb a c || contains_char c s'
  end.

(** ** Builtin parsers *)

Class PyBuiltins : Type := {
  (** [float(s)] *)
  py_float : string → result Q;
  (** [int(s)] *)
  py_int : string → result Z;
  (** [datetime.fromisoformat(s).hour] *)
  fromisoformat_hour : string → result Z;
  (** [math.sqrt(v)] *)
  math_sqrt : Q → result Q
}.

(** ** JSON documents

    The value that [json.dump] writes and [json.load] reads back: [None],
    numbers, strings, lists and dicts (the trainers write no booleans).  The
    text of the file is the [json] module's and is not modelled: an artifact
    is the document itself. *)

#[warnings="-register-all"]
Inductive json : Type :=
  | JNull
  | JNum (q : Q)
  | JStr (s : string)
  | JArr (l : list json)
  | JObj (o : gmap string json).

Definition as_num (j : json) : option Q :=
  match j with JNum q => Some q | _ => None end.

(** A JSON list of numbers as a Python list of numbers. *)
Definition as_num_list (j : json) : option (list Q) :=
  match j with JArr l => mapM as_num l | _ => None end.

(** A JSON object whose values are numbers as a [dict] from strings to
    numbers. *)
Definition as_num_map (j : json) : option (gmap string Q) :=
  match j with
  | JObj o =>
      if decide (map_Forall (fun _ v => is_Some (as_num v)) o)
      then Some (omap as_num o) else None
  | _ => None
  end.

(** [d[k]] on a loaded document. *)
Definition subscript (d : json) (k : string) : result json :=
  match d with
  | JObj o => match o !! k with Some v => Ok v | None => Raise (KeyError k) end
  | _ => Raise TypeError
  end.

(** A record of a CSV file as [csv.DictReader] yields it, and the parsed
    query of a request: a [dict] from field names to strings. *)
Abbreviation record := (gmap string string).

(** [record[k]] *)
Definition field (r : record) (k : string) : result string :=
  match r !! k with Some v => Ok v | None => Raise (KeyError k) end.

(** ** simple_train.py: decision tree and random forest *)

Module simple_train.

(** A tree node: the dict [{'value': v}] or the dict
    [{'feature': f, 'split': s, 'left': l, 'right': r}]. *)
Inductive node : Type :=
  | Leaf (value : Q)
  | Split (feature : nat) (split : Z) (left right : node).

Module SimpleDecisionTree.

Record t : Type := {
  max_depth : Z;
  min_samples_split : Z;
  tree : option node
}.

(** [SimpleDecisionTree(max_depth=10, min_samples_split=2)] *)
Definition __init__ (max_depth min_samples_split : Z) : t :=
  {| max_depth := max_depth; min_samples_split := min_samples_split;
     tree := None |}.

(** The local function [variance] of [_calculate_gain]. *)
Definition variance (values : list Q) : result Q :=
  match values with
  | [] => Ok 0%Q
  | _ =>
      mean ← truediv (sum values) (len values);
      truediv (sum (map (fun x => (x - mean) ^ 2)%Q values)) (len values)
  end.

Definition _calculate_gain (y left_y right_y : list Q) : result Q :=
  parent_var ← variance y;
  left_var ← variance left_y;
  right_var ← variance right_y;
  w ← truediv (len left_y * left_var + len right_y * right_var)%Q (len y);
  Ok (parent_var - w)%Q.

(** [[y[i] for i in range(len(X)) if keep(X[i][feature_idx])]] *)
Definition select_y (X : list (list Z)) (y : list Q) (feature_idx : nat)
    (keep : Z → bool) : result (list Q) :=
  list_comp (fun i => row ← getitem X i; v ← getitem row feature_idx; Ok (keep v))
            (getitem y) (seq 0 (length X)).

(** [[i for i in range(len(X)) if keep(X[i][best_feature])]] *)
Definition select_indices (X : list (list Z)) (best_feature : nat)
    (keep : Z → bool) : result (list nat) :=
  list_comp (fun i => row ← getitem X i; v ← getitem row best_feature; Ok (keep v))
            (fun i => Ok i) (seq 0 (length X)).

(** The loop variables [best_gain], [best_feature], [best_split];
    [best_feature is None] is [None] in the second component. *)
Definition best : Type := (Q * option (nat * Z))%type.

(** One pass of the inner loop [for split in values]. *)
Definition try_split (X : list (list Z)) (y : list Q) (feature_idx : nat)
    (b : best) (split : Z) : result best :=
  left_y ← select_y X y feature_idx (fun v => v <=? split);
  right_y ← select_y X y feature_idx (fun v => v >? split);
  match left_y, right_y with
  | [], _ | _, [] => Ok b
  | _, _ =>
      gain ← _calculate_gain y left_y right_y;
      if Qlt_bool (fst b) gain then Ok (gain, Some (feature_idx, split))
      else Ok b
  end.

(** One pass of the outer loop [for feature_idx in range(len(X[0]))]. *)
Definition scan_feature (X : list (list Z)) (y : list Q)
    (b : best) (feature_idx : nat) : result best :=
  column ← mapM_r (fun x => getitem x feature_idx) X;
  foldM_r (try_split X y feature_idx) b (sorted_set column).

(** The leaf [{'value': sum(y) / len(y)}]. *)
Definition mean_leaf (y : list Q) : result node :=
  value ← truediv (sum y) (len y); Ok (Leaf value).

(** [_build_tree(X, y, depth)], by recursion on [remaining], the number
    of levels left: [remaining = max_depth - depth], so that
    [depth >= self.max_depth] is [remaining = 0] and [depth + 1] is the
    predecessor of [remaining]. *)
Fixpoint _build_tree_at (remaining : nat) (min_samples_split : Z)
    (X : list (list Z)) (y : list Q) : result node :=
  match remaining with
  | O => mean_leaf y
  | S remaining' =>
      if Z.of_nat (length y) <? min_samples_split then mean_leaf y
      else
        x0 ← getitem X 0;
        found ← foldM_r (scan_feature X y) (0%Q, None) (seq 0 (length x0));
        match snd found with
        | None => mean_leaf y
        | Some (best_feature, best_split) =>
            left_indices ← select_indices X best_feature (fun v => v <=? best_split);
            right_indices ← select_indices X best_feature (fun v => v >? best_split);
            left_X ← mapM_r (getitem X) left_indices;
            left_y ← mapM_r (getitem y) left_indices;
            right_X ← mapM_r (getitem X) right_indices;
            right_y ← mapM_r (getitem y) right_indices;
            left_node ← _build_tree_at remaining' min_samples_split left_X left_y;
            right_node ← _build_tree_at remaining' min_samples_split right_X right_y;
            Ok (Split best_feature best_split left_node right_node)
        end
  end.

Definition _build_tree (self : t) (X : list (list Z)) (y : list Q)
    (depth : Z) : result node :=
  _build_tree_at (Z.to_nat (max_depth self - depth)) (min_samples_split self) X y.

Definition fit (self : t) (X : list (list Z)) (y : list Q) : result t :=
  root ← _build_tree self X y 0;
  Ok {| max_depth := max_depth self;
        min_samples_split := min_samples_split self;
        tree := Some root |}.

Fixpoint _traverse_tree (x : list Z) (n : node) : result Q :=
  match n with
  | Leaf value => Ok value
  | Split feature split left_node right_node =>
      v ← getitem x feature;
      if v <=? split then _traverse_tree x left_node
      else _traverse_tree x right_node
  end.

(** [[self._traverse_tree(x, self.tree) for x in X]]: before [fit],
    [self.tree] is [None] and the test ['value' in node] raises [TypeError]
    at the first row. *)
Definition predict (self : t) (X : list (list Z)) : result (list Q) :=
  mapM_r (fun x => match tree self with
                   | None => Raise TypeError
                   | Some root => _traverse_tree x root
                   end) X.

End SimpleDecisionTree.

Module SimpleRandomForest.

Record t : Type := {
  n_trees : Z;
  max_depth : Z;
  trees : list SimpleDecisionTree.t
}.

(** [SimpleRandomForest(n_trees=10, max_depth=10)] *)
Definition __init__ (n_trees max_depth : Z) : t :=
  {| n_trees := n_trees; max_depth := max_depth; trees := [] |}.

(** [random.randint(a, b)], reading draw number [k] of the stream [raw]. *)
Definition randint (raw : nat → Z) (k : nat) (a b : Z) : result Z :=
  if b <? a then Raise (ValueError "empty range for randrange()")
  else Ok (a + raw k mod (b - a + 1)).

(** [[random.randint(0, len(X) - 1) for _ in range(len(X))]] for the tree
    number [tree_no]: it reads the draws
    [tree_no * len(X) .. tree_no * len(X) + len(X) - 1]. *)
Definition bootstrap_indices (raw : nat → Z) (tree_no : nat)
    (X : list (list Z)) : result (list nat) :=
  mapM_r (fun j => i ← randint raw (tree_no * length X + j) 0 (Z.of_nat (length X) - 1);
                   Ok (Z.to_nat i))
         (seq 0 (length X)).

(** The body of the loop [for _ in range(self.n_trees)]. *)
Definition fit_one (raw : nat → Z) (X : list (list Z)) (y : list Q)
    (self : t) (tree_no : nat) : result t :=
  indices ← bootstrap_indices raw tree_no X;
  X_sample ← mapM_r (getitem X) indices;
  y_sample ← mapM_r (getitem y) indices;
  tree ← SimpleDecisionTree.fit (SimpleDecisionTree.__init__ (max_depth self) 2)
                                X_sample y_sample;
  Ok {| n_trees := n_trees self; max_depth := max_depth self;
        trees := trees self ++ [tree] |}.

Definition fit (raw : nat → Z) (self : t) (X : list (list Z)) (y : list Q)
    : result t :=
  foldM_r (fit_one raw X y) self (range (n_trees self)).

(** [[tree.predict([x])[0] for tree in self.trees]] *)
Definition tree_predictions (self : t) (x : list Z) : result (list Q) :=
  mapM_r (fun tree => p ← SimpleDecisionTree.predict tree [x]; getitem p 0)
         (trees self).

Definition predict (self : t) (X : list (list Z)) : result (list Q) :=
  predictions ← mapM_r (tree_predictions self) X;
  mapM_r (fun p => truediv (sum p) (len p)) predictions.

End SimpleRandomForest.

Definition extract_hour `{PyBuiltins} (time_str : string) : result Z :=
  match fromisoformat_hour (replace_char "Z" "+00:00" time_str) with
  | Ok hour => Ok hour
  | Raise _ =>
      if contains_char ":" time_str
      then s ← getitem (split_on ":" time_str) 0; py_int s
      else Ok 12
  end.

(** [encode_categorical(value, categories)]: the code returned and the
    dict after the call. *)
Definition encode_categorical (value : string) (categories : gmap string Z)
    : Z * gmap string Z :=
  match categories !! value with
  | Some code => (code, categories)
  | None =>
      let code := Z.of_nat (size categories) in
      (code, <[value := code]> categories)
  end.

(** The four category encoders of [train_model]. *)
Record encoders : Type := {
  airline_map : gmap string Z;
  source_map : gmap string Z;
  dest_map : gmap string Z;
  class_map : gmap string Z
}.

(** The body of the [try] of [train_model] for one record: the four dicts
    are updated as the list is built, also when a later entry raises. *)
Definition encode_record `{PyBuiltins} (r : record) (m : encoders)
    : encoders * result (list Z * Q) :=
  match field r "airline" with Raise e => (m, Raise e) | Ok airline =>
  let '(f0, am) := encode_categorical airline (airline_map m) in
  let m := {| airline_map := am; source_map := source_map m;
              dest_map := dest_map m; class_map := class_map m |} in
  match field r "source_city" with Raise e => (m, Raise e) | Ok source_city =>
  let '(f1, sm) := encode_categorical source_city (source_map m) in
  let m := {| airline_map := airline_map m; source_map := sm;
              dest_map := dest_map m; class_map := class_map m |} in
  match (s ← field r "stops"; py_int s) with Raise e => (m, Raise e) | Ok f2 =>
  match (s ← field r "departure_time"; extract_hour s) with Raise e => (m, Raise e) | Ok f3 =>
  match (s ← field r "arrival_time"; extract_hour s) with Raise e => (m, Raise e) | Ok f4 =>
  match field r "destinatin" with Raise e => (m, Raise e) | Ok destinatin =>
  let '(f5, dm) := encode_categorical destinatin (dest_map m) in
  let m := {| airline_map := airline_map m; source_map := source_map m;
              dest_map := dm; class_map := class_map m |} in
  match field r "class" with Raise e => (m, Raise e) | Ok class =>
  let '(f6, cm) := encode_categorical class (class_map m) in
  let m := {| airline_map := airline_map m; source_map := source_map m;
              dest_map := dest_map m; class_map := cm |} in
  match (s ← field r "duratin"; py_int s) with Raise e => (m, Raise e) | Ok f7 =>
  match (s ← field r "days_left"; py_int s) with Raise e => (m, Raise e) | Ok f8 =>
  match (s ← field r "price"; py_float s) with Raise e => (m, Raise e) | Ok price =>
  (m, Ok ([f0; f1; f2; f3; f4; f5; f6; f7; f8], price))
  end end end end end end end end end end.

(** The loop [for record in data]: a [ValueError] or a [KeyError] skips the
    record, any other exception leaves [train_model]. *)
Fixpoint prepare `{PyBuiltins} (data : list record)
    (X : list (list Z)) (y : list Q) (m : encoders)
    : result (list (list Z) * list Q * encoders) :=
  match data with
  | [] => Ok (X, y, m)
  | r :: data' =>
      match encode_record r m with
      | (m', Ok (features, price)) => prepare data' (X ++ [features]) (y ++ [price]) m'
      | (m', Raise (ValueError _)) | (m', Raise (KeyError _)) => prepare data' X y m'
      | (_, Raise e) => Raise e
      end
  end.

Definition json_of_map (m : gmap string Z) : json :=
  JObj ((fun code => JNum (inject_Z code)) <$> m).

(** The dict [model_data] that [train_model] writes. *)
Definition model_data (model : SimpleRandomForest.t) (m : encoders)
    (mae avg_price : Q) : json :=
  JObj (<["trees_count" := JNum (len (SimpleRandomForest.trees model))]>
       (<["airline_map" := json_of_map (airline_map m)]>
       (<["source_map" := json_of_map (source_map m)]>
       (<["dest_map" := json_of_map (dest_map m)]>
       (<["class_map" := json_of_map (class_map m)]>
       (<["mae" := JNum mae]>
       (<["avg_price" := JNum avg_price]> ∅))))))).

(** [sum(abs(predictions[i] - y[i]) for i in range(len(y))) / len(y)] *)
Definition mean_abs_error (predictions y : list Q) : result Q :=
  errors ← mapM_r (fun i => p ← getitem predictions i; t ← getitem y i;
                            Ok (Qabs (p - t))) (seq 0 (length y));
  truediv (sum errors) (len y).

(** The fitted forest, the encoders and the metrics that [train_model]
    computes from the records of the CSV file. *)
Definition train `{PyBuiltins} (raw : nat → Z) (data : list record)
    : result (SimpleRandomForest.t * encoders * Q * Q) :=
  '(X, y, m) ← prepare data [] []
      {| airline_map := ∅; source_map := ∅; dest_map := ∅; class_map := ∅ |};
  lowest ← py_min y;
  highest ← py_max y;
  avg_price ← truediv (sum y) (len y);
  model ← SimpleRandomForest.fit raw (SimpleRandomForest.__init__ 10 8) X y;
  predictions ← SimpleRandomForest.predict model X;
  mae ← mean_abs_error predictions y;
  avg_price ← truediv (sum y) (len y);
  Ok (model, m, mae, avg_price).

(** [train_model(csv_path)]: the document written to [price_model.json]. *)
Definition train_model `{PyBuiltins} (raw : nat → Z) (data : list record)
    : result json :=
  '(model, m, mae, avg_price) ← train raw data;
  Ok (model_data model m mae avg_price).

End simple_train.

(** ** simple_train.py over binary64

    The decision tree and the random forest once more, with the targets as
    IEEE 754 binary64 numbers, which CPython's [float] is: the primitive
    floats with their operations rounded to nearest, ties to even.  What
    depends on rounding or on overflow is stated on this embedding.  The
    feature values are integers as before; the functions that read no
    target ([select_indices], [bootstrap_indices]) are those of
    [simple_train]. *)

Module binary64.

(** [len(l)] as the float that [/] and [*] convert it to. *)
Definition len {A} (l : list A) : float :=
  PrimFloat.of_uint63 (Uint63.of_Z (Z.of_nat (length l))).

(** [sum(l)]: from the integer 0, additions from the left, each rounded
    (CPython up to 3.11; later versions carry a correction term, with the
    same results on the examples of this file). *)
Definition sum (l : list float) : float := fold_left PrimFloat.add l 0%float.

(** [a / b]: a zero divisor, of either sign, raises. *)
Definition truediv (a b : float) : result float :=
  if PrimFloat.eqb b 0 then Raise ZeroDivisionError else Ok (PrimFloat.div a b).

(** [x ** 2]: [float.__pow__] raises [OverflowError] when the result of
    a finite [x] is beyond the largest float, and returns the square
    otherwise, taken here as correctly rounded (the [pow] of the C library
    may differ in the last place, on which no statement below depends). *)
Definition pow2 (x : float) : result float :=
  let r := PrimFloat.mul x x in
  if PrimFloat.is_infinity r && negb (PrimFloat.is_infinity x)
  then Raise OverflowError
  else Ok r.

Inductive node : Type :=
  | Leaf (value : float)
  | Split (feature : nat) (split : Z) (left_node right_node : node).

Module SimpleDecisionTree.

Record t : Type := {
  max_depth : Z;
  min_samples_split : Z;
  tree : option node
}.

Definition __init__ (max_depth min_samples_split : Z) : t :=
  {| max_depth := max_depth; min_samples_split := min_samples_split;
     tree := None |}.

(** The local function [variance] of [_calculate_gain]. *)
Definition variance (values : list float) : result float :=
  match values with
  | [] => Ok 0%float
  | _ =>
      mean ← truediv (sum values) (len values);
      squares ← mapM_r (fun x => pow2 (PrimFloat.sub x mean)) values;
      truediv (sum squares) (len values)
  end.

Definition _calculate_gain (y left_y right_y : list float) : result float :=
  parent_var ← variance y;
  left_var ← variance left_y;
  right_var ← variance right_y;
  w ← truediv (PrimFloat.add (PrimFloat.mul (len left_y) left_var)
                             (PrimFloat.mul (len right_y) right_var))
              (len y);
  Ok (PrimFloat.sub parent_var w).

(** [[y[i] for i in range(len(X)) if keep(X[i][feature_idx])]] *)
Definition select_y (X : list (list Z)) (y : list float) (feature_idx : nat)
    (keep : Z → bool) : result (list float) :=
  list_comp (fun i => row ← getitem X i; v ← getitem row feature_idx; Ok (keep v))
            (getitem y) (seq 0 (length X)).

(** The loop variables [best_gain], [best_feature], [best_split]. *)
Definition best : Type := (float * option (nat * Z))%type.

(** One pass of the inner loop [for split in values]; [gain > best_gain]
    is false when either is not a number. *)
Definition try_split (X : list (list Z)) (y : list float) (feature_idx : nat)
    (b : best) (split : Z) : result best :=
  left_y ← select_y X y feature_idx (fun v => v <=? split);
  right_y ← select_y X y feature_idx (fun v => v >? split);
  match left_y, right_y with
  | [], _ | _, [] => Ok b
  | _, _ =>
      gain ← _calculate_gain y left_y right_y;
      if PrimFloat.ltb (fst b) gain then Ok (gain, Some (feature_idx, split))
      else Ok b
  end.

(** One pass of the outer loop [for feature_idx in range(len(X[0]))]. *)
Definition scan_feature (X : list (list Z)) (y : list float)
    (b : best) (feature_idx : nat) : result best :=
  column ← mapM_r (fun x => getitem x feature_idx) X;
  foldM_r (try_split X y feature_idx) b (sorted_set column).

(** The leaf [{'value': sum(y) / len(y)}]. *)
Definition mean_leaf (y : list float) : result node :=
  value ← truediv (sum y) (len y); Ok (Leaf value).

(** [_build_tree(X, y, depth)] with [remaining = max_depth - depth]. *)
Fixpoint _build_tree_at (remaining : nat) (min_samples_split : Z)
    (X : list (list Z)) (y : list float) : result node :=
  match remaining with
  | O => mean_leaf y
  | S remaining' =>
      if Z.of_nat (length y) <? min_samples_split then mean_leaf y
      else
        x0 ← getitem X 0;
        found ← foldM_r (scan_feature X y) (0%float, None) (seq 0 (length x0));
        match snd found with
        | None => mean_leaf y
        | Some (best_feature, best_split) =>
            left_indices ← simple_train.SimpleDecisionTree.select_indices
                              X best_feature (fun v => v <=? best_split);
            right_indices ← simple_train.SimpleDecisionTree.select_indices
                               X best_feature (fun v => v >? best_split);
            left_X ← mapM_r (getitem X) left_indices;
            left_y ← mapM_r (getitem y) left_indices;
            right_X ← mapM_r (getitem X) right_indices;
            right_y ← mapM_r (getitem y) right_indices;
            left_node ← _build_tree_at remaining' min_samples_split left_X left_y;
            right_node ← _build_tree_at remaining' min_samples_split right_X right_y;
            Ok (Split best_feature best_split left_node right_node)
        end
  end.

Definition _build_tree (self : t) (X : list (list Z)) (y : list float)
    (depth : Z) : result node :=
  _build_tree_at (Z.to_nat (max_depth self - depth)) (min_samples_split self) X y.

Definition fit (self : t) (X : list (list Z)) (y : list float) : result t :=
  root ← _build_tree self X y 0;
  Ok {| max_depth := max_depth self;
        min_samples_split := min_samples_split self;
        tree := Some root |}.

Fixpoint _traverse_tree (x : list Z) (n : node) : result float :=
  match n with
  | Leaf value => Ok value
  | Split feature split left_node right_node =>
      v ← getitem x feature;
      if v <=? split then _traverse_tree x left_node
      else _traverse_tree x right_node
  end.

Definition predict (self : t) (X : list (list Z)) : result (list float) :=
  mapM_r (fun x => match tree self with
                   | None => Raise TypeError
                   | Some root => _traverse_tree x root
                   end) X.

End SimpleDecisionTree.

Module SimpleRandomForest.

Record t : Type := {
  n_trees : Z;
  max_depth : Z;
  trees : list SimpleDecisionTree.t
}.

Definition __init__ (n_trees max_depth : Z) : t :=
  {| n_trees := n_trees; max_depth := max_depth; trees := [] |}.

(** The body of the loop [for _ in range(self.n_trees)]. *)
Definition fit_one (raw : nat → Z) (X : list (list Z)) (y : list float)
    (self : t) (tree_no : nat) : result t :=
  indices ← simple_train.SimpleRandomForest.bootstrap_indices raw tree_no X;
  X_sample ← mapM_r (getitem X) indices;
  y_sample ← mapM_r (getitem y) indices;
  tree ← SimpleDecisionTree.fit (SimpleDecisionTree.__init__ (max_depth self) 2)
                                X_sample y_sample;
  Ok {| n_trees := n_trees self; max_depth := max_depth self;
        trees := trees self ++ [tree] |}.

Definition fit (raw : nat → Z) (self : t) (X : list (list Z)) (y : list float)
    : result t :=
  foldM_r (fit_one raw X y) self (range (n_trees self)).

(** [[tree.predict([x])[0] for tree in self.trees]] *)
Definition tree_predictions (self : t) (x : list Z) : result (list float) :=
  mapM_r (fun tree => p ← SimpleDecisionTree.predict tree [x]; getitem p 0)
         (trees self).

Definition predict (self : t) (X : list (list Z)) : result (list float) :=
  predictions ← mapM_r (tree_predictions self) X;
  mapM_r (fun p => truediv (sum p) (len p)) predictions.

End SimpleRandomForest.

End binary64.

(** ** train_simple.py: linear regression by batch gradient descent *)

Module train_simple.

Definition extract_hour `{PyBuiltins} (time_str : string) : Z :=
  match fromisoformat_hour (replace_char "Z" "+00:00" time_str) with
  | Ok hour => hour
  | Raise _ =>
      match (part ← getitem (split_on " " time_str) 1;
             s ← getitem (split_on ":" part) 0;
             py_int s) with
      | Ok hour => hour
      | Raise _ => 12
      end
  end.

Definition encode_categorical (value : string) (categories : gmap string Z)
    : Z * gmap string Z :=
  match categories !! value with
  | Some code => (code, categories)
  | None =>
      let code := Z.of_nat (size categories) in
      (code, <[value := code]> categories)
  end.

Module LinearRegression.

Record t : Type := {
  weights : option (list Q);
  bias : Q;
  mean_x : option (list Q);
  std_x : option (list Q)
}.

Definition __init__ : t :=
  {| weights := None; bias := 0; mean_x := None; std_x := None |}.

(** [[X[i][j] for i in range(len(X))]] with [g] applied to each entry. *)
Definition column (X : list (list Q)) (j : nat) (g : Q → result Q)
    : result (list Q) :=
  mapM_r (fun i => row ← getitem X i; v ← getitem row j; g v) (seq 0 (length X)).

(** [self.mean_x] *)
Definition fit_mean (X : list (list Q)) (n_features : nat) : result (list Q) :=
  mapM_r (fun j => c ← column X j Ok; truediv (sum c) (len X)) (seq 0 n_features).

(** The loop that fills [self.std_x]. *)
Definition fit_std `{PyBuiltins} (X : list (list Q)) (mean_x : list Q)
    (n_features : nat) : result (list Q) :=
  mapM_r (fun j =>
            m ← getitem mean_x j;
            c ← column X j (fun v => Ok ((v - m) ^ 2)%Q);
            variance ← truediv (sum c) (len X);
            if Qlt_bool 0 variance then math_sqrt variance else Ok 1%Q)
         (seq 0 n_features).

(** [(row[j] - mean_x[j]) / std_x[j]] for [j] in [idxs]. *)
Definition normalize_row (mean_x std_x : list Q) (row : list Q)
    (idxs : list nat) : result (list Q) :=
  mapM_r (fun j => v ← getitem row j; m ← getitem mean_x j; s ← getitem std_x j;
                   truediv (v - m)%Q s) idxs.

(** [bias + sum(weights[j] * row[j] for j in idxs)] *)
Definition linear (weights : list Q) (bias : Q) (row : list Q)
    (idxs : list nat) : result Q :=
  terms ← mapM_r (fun j => w ← getitem weights j; v ← getitem row j; Ok (w * v)%Q) idxs;
  Ok (bias + sum terms)%Q.

(** One iteration of the gradient descent loop on [(weights, bias)]. *)
Definition descent_step (X_norm : list (list Q)) (y : list Q)
    (learning_rate : Q) (n_features : nat) (wb : list Q * Q) (iteration : nat)
    : result (list Q * Q) :=
  let '(weights, bias) := wb in
  predictions ← mapM_r (fun i => row ← getitem X_norm i;
                                 linear weights bias row (seq 0 n_features))
                       (seq 0 (length X_norm));
  errors ← mapM_r (fun i => t ← getitem y i; p ← getitem predictions i; Ok (t - p)%Q)
                  (seq 0 (length y));
  weights' ← mapM_r (fun j =>
                terms ← mapM_r (fun i => e ← getitem errors i; row ← getitem X_norm i;
                                         v ← getitem row j; Ok (e * v)%Q)
                               (seq 0 (length X_norm));
                gradient ← truediv (-2 * sum terms)%Q (len X_norm);
                w ← getitem weights j;
                Ok (w - learning_rate * gradient)%Q)
             (seq 0 n_features);
  bias_gradient ← truediv (-2 * sum errors)%Q (len errors);
  Ok (weights', (bias - learning_rate * bias_gradient)%Q).

Definition fit `{PyBuiltins} (self : t) (X : list (list Q)) (y : list Q)
    (learning_rate : Q) (iterations : Z) : result t :=
  x0 ← getitem X 0;
  let n_features := length x0 in
  mean_x ← fit_mean X n_features;
  std_x ← fit_std X mean_x n_features;
  X_norm ← mapM_r (fun i => row ← getitem X i;
                            normalize_row mean_x std_x row (seq 0 n_features))
                  (seq 0 (length X));
  '(weights, bias) ← foldM_r (descent_step X_norm y learning_rate n_features)
                             (replicate n_features 0%Q, 0%Q) (range iterations);
  Ok {| weights := Some weights; bias := bias;
        mean_x := Some mean_x; std_x := Some std_x |}.

(** [None[j]] raises [TypeError]. *)
Definition attr (a : option (list Q)) : result (list Q) :=
  match a with Some l => Ok l | None => Raise TypeError end.

(** The body of the loop of [predict] for the row [row]. *)
Definition predict_row (self : t) (row : list Q) : result Q :=
  normalized ← mapM_r (fun j => v ← getitem row j;
                                m ← (l ← attr (mean_x self); getitem l j);
                                s ← (l ← attr (std_x self); getitem l j);
                                truediv (v - m)%Q s)
                      (seq 0 (length row));
  terms ← mapM_r (fun j => w ← (l ← attr (weights self); getitem l j);
                           v ← getitem normalized j; Ok (w * v)%Q)
                 (seq 0 (length normalized));
  Ok (max0 (bias self + sum terms)).

Definition predict (self : t) (X : list (list Q)) : result (list Q) :=
  mapM_r (predict_row self) X.

End LinearRegression.

Record encoders : Type := {
  airline_map : gmap string Z;
  source_map : gmap string Z;
  dest_map : gmap string Z;
  class_map : gmap string Z
}.

(** The body of the [try] of [train_model] for one record. *)
Definition encode_record `{PyBuiltins} (r : record) (m : encoders)
    : encoders * result (list Q * Q) :=
  match field r "airline" with Raise e => (m, Raise e) | Ok airline =>
  let '(f0, am) := encode_categorical airline (airline_map m) in
  let m := {| airline_map := am; source_map := source_map m;
              dest_map := dest_map m; class_map := class_map m |} in
  match field r "source_city" with Raise e => (m, Raise e) | Ok source_city =>
  let '(f1, sm) := encode_categorical source_city (source_map m) in
  let m := {| airline_map := airline_map m; source_map := sm;
              dest_map := dest_map m; class_map := class_map m |} in
  match (s ← field r "stops"; py_float s) with Raise e => (m, Raise e) | Ok f2 =>
  match (s ← field r "departure_time"; Ok (extract_hour s)) with Raise e => (m, Raise e) | Ok f3 =>
  match (s ← field r "arrival_time"; Ok (extract_hour s)) with Raise e => (m, Raise e) | Ok f4 =>
  match field r "destination_city" with Raise e => (m, Raise e) | Ok destination_city =>
  let '(f5, dm) := encode_categorical destination_city (dest_map m) in
  let m := {| airline_map := airline_map m; source_map := source_map m;
              dest_map := dm; class_map := class_map m |} in
  match field r "class" with Raise e => (m, Raise e) | Ok class =>
  let '(f6, cm) := encode_categorical class (class_map m) in
  let m := {| airline_map := airline_map m; source_map := source_map m;
              dest_map := dest_map m; class_map := cm |} in
  match (s ← field r "duration"; py_float s) with Raise e => (m, Raise e) | Ok f7 =>
  match (s ← field r "days_left"; py_float s) with Raise e => (m, Raise e) | Ok f8 =>
  match (s ← field r "price"; py_float s) with Raise e => (m, Raise e) | Ok price =>
  (m, Ok ([inject_Z f0; inject_Z f1; f2; inject_Z f3; inject_Z f4;
           inject_Z f5; inject_Z f6; f7; f8], price))
  end end end end end end end end end end.

Fixpoint prepare `{PyBuiltins} (data : list record)
    (X : list (list Q)) (y : list Q) (m : encoders)
    : result (list (list Q) * list Q * encoders) :=
  match data with
  | [] => Ok (X, y, m)
  | r :: data' =>
      match encode_record r m with
      | (m', Ok (features, price)) => prepare data' (X ++ [features]) (y ++ [price]) m'
      | (m', Raise (ValueError _)) | (m', Raise (KeyError _)) => prepare data' X y m'
      | (_, Raise e) => Raise e
      end
  end.

Definition json_of_map (m : gmap string Z) : json :=
  JObj ((fun code => JNum (inject_Z code)) <$> m).

(** An attribute of the model: [None] before [fit], a list after it. *)
Definition json_of_attr (l : option (list Q)) : json :=
  match l with
  | Some l => JArr (JNum <$> l)
  | None => JNull
  end.

Definition feature_names : list string :=
  ["airline"; "source_city"; "stops"; "departure_hour"; "arrival_hour";
   "destination"; "class"; "duration"; "days_left"].

(** The dict [model_data] that [train_model] writes. *)
Definition model_data (model : LinearRegression.t) (m : encoders)
    (mae rmse avg_price : Q) : json :=
  JObj (<["weights" := json_of_attr (LinearRegression.weights model)]>
       (<["bias" := JNum (LinearRegression.bias model)]>
       (<["mean_x" := json_of_attr (LinearRegression.mean_x model)]>
       (<["std_x" := json_of_attr (LinearRegression.std_x model)]>
       (<["airline_map" := json_of_map (airline_map m)]>
       (<["source_map" := json_of_map (source_map m)]>
       (<["dest_map" := json_of_map (dest_map m)]>
       (<["class_map" := json_of_map (class_map m)]>
       (<["mae" := JNum mae]>
       (<["rmse" := JNum rmse]>
       (<["avg_price" := JNum avg_price]>
       (<["feature_names" := JArr (JStr <$> feature_names)]> ∅)))))))))))).

(** The fitted model, the encoders and the metrics of [train_model]. *)
Definition train `{PyBuiltins} (data : list record)
    : result (LinearRegression.t * encoders * Q * Q * Q) :=
  '(X, y, m) ← prepare data [] []
      {| airline_map := ∅; source_map := ∅; dest_map := ∅; class_map := ∅ |};
  lowest ← py_min y;
  highest ← py_max y;
  avg_price ← truediv (sum y) (len y);
  model ← LinearRegression.fit LinearRegression.__init__ X y (1 # 100) 100;
  predictions ← LinearRegression.predict model X;
  errors ← mapM_r (fun i => p ← getitem predictions i; t ← getitem y i;
                            Ok (Qabs (p - t))) (seq 0 (length y));
  mae ← truediv (sum errors) (len errors);
  mse ← truediv (sum (map (fun e => e ^ 2)%Q errors)) (len errors);
  rmse ← math_sqrt mse;
  avg_price ← truediv (sum y) (len y);
  Ok (model, m, mae, rmse, avg_price).

Definition train_model `{PyBuiltins} (data : list record) : result json :=
  '(model, m, mae, rmse, avg_price) ← train data;
  Ok (model_data model m mae rmse avg_price).

End train_simple.

(** ** api_simple.py and api.py: the serving path *)

Module api_simple.

(** The keys of the loaded document that the module reads. *)
Record model : Type := {
  airline_map : gmap string Q;
  source_map : gmap string Q;
  dest_map : gmap string Q;
  class_map : gmap string Q;
  mean_x : list Q;
  std_x : list Q;
  weights : list Q;
  bias : Q;
  mae : Q;
  rmse : Q
}.

(** [MODEL_DATA = json.load(f)], read through the keys that the module
    subscripts: a missing key raises the [KeyError] of [MODEL_DATA[key]],
    a value of another type the [TypeError] of its first use. *)
Definition load (doc : json) : result model :=
  let typed {A} (o : option A) : result A :=
    match o with Some a => Ok a | None => Raise TypeError end in
  mae ← (v ← subscript doc "mae"; typed (as_num v));
  rmse ← (v ← subscript doc "rmse"; typed (as_num v));
  airline_map ← (v ← subscript doc "airline_map"; typed (as_num_map v));
  source_map ← (v ← subscript doc "source_map"; typed (as_num_map v));
  dest_map ← (v ← subscript doc "dest_map"; typed (as_num_map v));
  class_map ← (v ← subscript doc "class_map"; typed (as_num_map v));
  mean_x ← (v ← subscript doc "mean_x"; typed (as_num_list v));
  std_x ← (v ← subscript doc "std_x"; typed (as_num_list v));
  bias ← (v ← subscript doc "bias"; typed (as_num v));
  weights ← (v ← subscript doc "weights"; typed (as_num_list v));
  Ok {| airline_map := airline_map; source_map := source_map;
        dest_map := dest_map; class_map := class_map;
        mean_x := mean_x; std_x := std_x; weights := weights; bias := bias;
        mae := mae; rmse := rmse |}.

Definition extract_hour `{PyBuiltins} (time_str : string) : Z :=
  match fromisoformat_hour (replace_char "Z" "+00:00" time_str) with
  | Ok hour => hour
  | Raise _ =>
      match (part ← getitem (split_on " " time_str) 1;
             s ← getitem (split_on ":" part) 0;
             py_int s) with
      | Ok hour => hour
      | Raise _ => 12
      end
  end.

(** [mapping.get(value, -1)] *)
Definition encode_category (value : string) (mapping : gmap string Q) : Q :=
  default (-1)%Q (mapping !! value).

(** [flight_data.get(key, dflt)] for a string default. *)
Definition get (flight_data : record) (key dflt : string) : string :=
  default dflt (flight_data !! key).

(** [float(flight_data.get(key, 0))] *)
Definition get_float `{PyBuiltins} (flight_data : record) (key : string) : result Q :=
  match flight_data !! key with
  | Some s => py_float s
  | None => Ok 0%Q
  end.

(** The list [features] of [predict_price]. *)
Definition encode `{PyBuiltins} (MODEL_DATA : model) (flight_data : record)
    : result (list Q) :=
  let f0 := encode_category (get flight_data "airline" "") (airline_map MODEL_DATA) in
  let f1 := encode_category (get flight_data "source_city" "") (source_map MODEL_DATA) in
  f2 ← get_float flight_data "stops";
  let f3 := inject_Z (extract_hour (get flight_data "departure_time" "")) in
  let f4 := inject_Z (extract_hour (get flight_data "arrival_time" "")) in
  let f5 := encode_category (get flight_data "destinatin" "") (dest_map MODEL_DATA) in
  let f6 := encode_category (get flight_data "class" "Economy") (class_map MODEL_DATA) in
  f7 ← get_float flight_data "duratin";
  f8 ← get_float flight_data "days_left";
  Ok [f0; f1; f2; f3; f4; f5; f6; f7; f8].

(** [any(f == -1 for f in features)] *)
Definition any_missing (features : list Q) : bool :=
  existsb (fun f => Qeq_bool f (-1)) features.

(** The statements of [predict_price] after the check for missing
    categories. *)
Definition infer (MODEL_DATA : model) (features : list Q) : result Q :=
  normalized ← mapM_r (fun i => feature ← getitem features i;
                                m ← getitem (mean_x MODEL_DATA) i;
                                s ← getitem (std_x MODEL_DATA) i;
                                truediv (feature - m)%Q s)
                      (seq 0 (length features));
  terms ← mapM_r (fun i => w ← getitem (weights MODEL_DATA) i;
                           v ← getitem normalized i; Ok (w * v)%Q)
                 (seq 0 (length normalized));
  Ok (max0 (bias MODEL_DATA + sum terms)).

(** [predict_price(flight_data)]: the pair [(prediction, error)], where
    [None] is [None]. *)
Definition predict_price `{PyBuiltins} (MODEL_DATA : model) (flight_data : record)
    : option Q * option string :=
  match (features ← encode MODEL_DATA flight_data;
         if any_missing features
         then Ok (None, Some "Unknown airline, city, or class")
         else prediction ← infer MODEL_DATA features;
              Ok (Some prediction, None)) with
  | Ok r => r
  | Raise e => (None, Some (str_exn e))
  end.

End api_simple.

(** [api.py] defines [extract_hour], [encode_category] and [predict_price]
    with the text of [api_simple.py]. *)
Module api := api_simple.

(** ** The builtin parsers on decimal text

    An instance of [PyBuiltins] that runs: [float] and [int] on an optional
    sign followed by decimal digits (and a fraction for [float]),
    [fromisoformat] on [YYYY-MM-DD], optionally followed by one separator
    character and [HH], [HH:MM] or [HH:MM:SS] and by an offset [+HH:MM] or
    [-HH:MM], and [math.sqrt] rounded down to a multiple of the inverse of
    the denominator. *)

Definition digit_of (a : ascii) : option Z :=
  let n := Z.of_nat (nat_of_ascii a) in
  if (48 <=? n) && (n <=? 57) then Some (n - 48) else None.

(** The value of a non-empty string of digits. *)
Fixpoint digits_from (acc : Z) (s : string) : option Z :=
  match s with
  | EmptyString => Some acc
  | String a s' => d ← digit_of a; digits_from (10 * acc + d) s'
  end.

Definition natural (s : string) : option Z :=
  match s with
  | EmptyString => None
  | _ => digits_from 0 s
  end.

Definition signed {A} (parse : string → option A) (neg : A → A) (s : string)
    : option A :=
  match s with
  | String "-" s' => neg <$> parse s'
  | String "+" s' => parse s'
  | _ => parse s
  end.

Definition decimal_int (s : string) : result Z :=
  match signed natural Z.opp s with
  | Some n => Ok n
  | None => Raise (ValueError ("invalid literal for int() with base 10: '" ++ s ++ "'"))
  end.

Definition unsigned_decimal (s : string) : option Q :=
  match split_on "." s with
  | [whole] => inject_Z <$> natural whole
  | [whole; frac] =>
      match whole, frac with
      | EmptyString, EmptyString => None
      | _, _ =>
          w ← digits_from 0 whole; f ← digits_from 0 frac;
          Some (inject_Z w + (f # Pos.pow 10%positive (Pos.of_nat (String.length frac))))%Q
      end
  | _ => None
  end.

Definition decimal_float (s : string) : result Q :=
  match signed unsigned_decimal Qopp s with
  | Some q => Ok q
  | None => Raise (ValueError ("could not convert string to float: '" ++ s ++ "'"))
  end.

(** Two digits at the head of [s] and the rest of [s]. *)
Definition two_digits (s : string) : option (Z * string) :=
  match s with
  | String a (String b rest) =>
      x ← digit_of a; y ← digit_of b; Some (10 * x + y, rest)
  | _ => None
  end.

Definition iso_offset (s : string) : bool :=
  match s with
  | EmptyString => true
  | String sign rest =>
      (Ascii.eqb sign "+" || Ascii.eqb sign "-") &&
      match two_digits rest with
      | Some (h, String ":" rest') =>
          match two_digits rest' with
          | Some (m, EmptyString) => (h <? 24) && (m <? 60)
          | _ => false
          end
      | _ => false
      end
  end.

(** The hour of [HH[:MM[:SS]]] followed by an offset. *)
Definition iso_time (s : string) : option Z :=
  '(h, rest) ← two_digits s;
  if negb (h <? 24) then None else
  match rest with
  | String ":" rest1 =>
      '(m, rest2) ← two_digits rest1;
      if negb (m <? 60) then None else
      match rest2 with
      | String ":" rest3 =>
          '(sec, rest4) ← two_digits rest3;
          if (sec <? 60) && iso_offset rest4 then Some h else None
      | _ => if iso_offset rest2 then Some h else None
      end
  | _ => if iso_offset rest then Some h else None
  end.

Definition iso_date (s : string) : option string :=
  match s with
  | String y1 (String y2 (String y3 (String y4 (String "-" rest)))) =>
      _ ← digit_of y1; _ ← digit_of y2; _ ← digit_of y3; _ ← digit_of y4;
      '(month, rest1) ← two_digits rest;
      match rest1 with
      | String "-" rest2 =>
          '(day, rest3) ← two_digits rest2;
          if (1 <=? month) && (month <=? 12) && (1 <=? day) && (day <=? 31)
          then Some rest3 else None
      | _ => None
      end
  | _ => None
  end.

Definition iso_hour (s : string) : result Z :=
  match (rest ← iso_date s;
         match rest with
         | EmptyString => Some 0
         | String _ time => iso_time time
         end) with
  | Some h => Ok h
  | None => Raise (ValueError ("Invalid isoformat string: '" ++ s ++ "'"))
  end.

(** The square root of [num / den] as [floor (sqrt (num * den)) / den]. *)
Definition floor_sqrt (v : Q) : result Q :=
  if Qlt_bool v 0 then Raise (ValueError "math domain error")
  else Ok (Z.sqrt (Qnum v * Z.pos (Qden v)) # Qden v).

#[global] Instance decimal_builtins : PyBuiltins := {
  py_float := decimal_float;
  py_int := decimal_int;
  fromisoformat_hour := iso_hour;
  math_sqrt := floor_sqrt
}.

(** ** Notions used in the statements *)

(** The elements of [l], with their indices from [k], that satisfy [P]. *)
Fixpoint ifilter {A B} (P : B → bool) (g : nat → B → A) (k : nat) (l : list B)
    : list A :=
  match l with
  | [] => []
  | b :: l' => if P b then g k b :: ifilter P g (S k) l' else ifilter P g (S k) l'
  end.

(** A training sample: the feature row and its target. *)
Abbreviation sample := (list Z * Q)%type.

(** The test of a node on a row: [keep] applied to [x[f]]. *)
Definition row_test (f : nat) (keep : Z → bool) (x : list Z) : bool :=
  match x !! f with Some v => keep v | None => false end.

(** Every row has [nf] entries. *)
Definition rectangular (nf : nat) (X : list (list Z)) : Prop :=
  Forall (fun x => length x = nf) X.

(** A direction at an internal node and a path from the root. *)
Inductive dir : Type := Left | Right.

(** The value of the leaf at the end of the path [p], when [p] ends at a
    leaf. *)
Fixpoint leaf_at (n : simple_train.node) (p : list dir) : option Q :=
  match n, p with
  | simple_train.Leaf value, [] => Some value
  | simple_train.Split _ _ left_node _, Left :: p' => leaf_at left_node p'
  | simple_train.Split _ _ _ right_node, Right :: p' => leaf_at right_node p'
  | _, _ => None
  end.

(** [_traverse_tree(x, n)] follows the path [p] and ends at its leaf. *)
Fixpoint reaches (x : list Z) (n : simple_train.node) (p : list dir) : bool :=
  match n, p with
  | simple_train.Leaf _, [] => true
  | simple_train.Split feature split left_node right_node, d :: p' =>
      match x !! feature with
      | Some v =>
          if v <=? split
          then match d with Left => reaches x left_node p' | Right => false end
          else match d with Left => false | Right => reaches x right_node p' end
      | None => false
      end
  | _, _ => false
  end.

(** The targets of the training samples that the tree sends to the leaf at
    the end of [p]. *)
Definition assigned (n : simple_train.node) (p : list dir)
    (X : list (list Z)) (y : list Q) : list Q :=
  map snd (List.filter (fun s : sample => reaches (fst s) n p) (zip X y)).

(** The leaf values of a tree. *)
Fixpoint leaves (n : simple_train.node) : list Q :=
  match n with
  | simple_train.Leaf value => [value]
  | simple_train.Split _ _ left_node right_node => leaves left_node ++ leaves right_node
  end.

(** Every test of the tree reads a feature below [nf]. *)
Fixpoint features_below (nf : nat) (n : simple_train.node) : Prop :=
  match n with
  | simple_train.Leaf _ => True
  | simple_train.Split feature _ left_node right_node =>
      (feature < nf)%nat ∧ features_below nf left_node ∧ features_below nf right_node
  end.

(** The targets of the bootstrap sample drawn for the tree number
    [tree_no]: the list [y_sample] of [SimpleRandomForest.fit]. *)
Definition bootstrap_targets (raw : nat → Z) (X : list (list Z)) (y : list Q)
    (tree_no : nat) : result (list Q) :=
  indices ← simple_train.SimpleRandomForest.bootstrap_indices raw tree_no X;
  mapM_r (getitem y) indices.

(** The targets seen across the bootstrap samples of [n] trees. *)
Definition seen_targets (raw : nat → Z) (X : list (list Z)) (y : list Q)
    (n : Z) : result (list Q) :=
  samples ← mapM_r (bootstrap_targets raw X y) (range n);
  Ok (concat samples).

(** The samples that the test [x[f] <= s] sends to the left child, and
    those that [x[f] > s] sends to the right child. *)
Definition left_of (f : nat) (s : Z) (S : list sample) : list sample :=
  List.filter (fun smp : sample => row_test f (fun v => v <=? s) (fst smp)) S.

Definition right_of (f : nat) (s : Z) (S : list sample) : list sample :=
  List.filter (fun smp : sample => row_test f (fun v => v >? s) (fst smp)) S.

(** The loop invariant of the search of [_build_tree]: the best split
    found so far reads a feature of the rows and leaves samples on both
    sides. *)
Definition good (nf : nat) (S : list sample)
    (b : simple_train.SimpleDecisionTree.best) : Prop :=
  match snd b with
  | None => True
  | Some (f, s) => (f < nf)%nat ∧ left_of f s S ≠ [] ∧ right_of f s S ≠ []
  end.

(** The tree [tree] is the one fitted in the pass number [tree_no] of the
    loop of [SimpleRandomForest.fit]. *)
Definition bootstrap_tree (raw : nat → Z) (X : list (list Z)) (y : list Q)
    (d : Z) (tree_no : nat) (tree : simple_train.SimpleDecisionTree.t) : Prop :=
  ∃ idxs Xs ys,
    simple_train.SimpleRandomForest.bootstrap_indices raw tree_no X = Ok idxs ∧
    mapM_r (getitem X) idxs = Ok Xs ∧
    mapM_r (getitem y) idxs = Ok ys ∧
    simple_train.SimpleDecisionTree.fit
      (simple_train.SimpleDecisionTree.__init__ d 2) Xs ys = Ok tree.

(** [math.sqrt] of a positive number is a number other than zero. *)
Definition sqrt_positive `{PyBuiltins} : Prop :=
  ∀ v : Q, (0 < v)%Q → ∃ r, math_sqrt v = Ok r ∧ ¬ (r == 0)%Q.

(** The keys at which [predict_price] reads the request. *)
Definition read_keys : list string :=
  ["airline"; "source_city"; "stops"; "departure_time"; "arrival_time";
   "destinatin"; "class"; "duratin"; "days_left"].

(** ** Example data *)

Module example.

(** Four flights with two integer features, and their prices. *)
Definition X : list (list Z) := [[0; 5]; [1; 5]; [2; 7]; [3; 7]].
Definition y : list Q := [1; 2; 10; 12]%Q.

Definition tree : simple_train.SimpleDecisionTree.t :=
  {| simple_train.SimpleDecisionTree.max_depth := 10;
     simple_train.SimpleDecisionTree.min_samples_split := 2;
     simple_train.SimpleDecisionTree.tree :=
       Some (simple_train.Split 0 1
               (simple_train.Split 0 0 (simple_train.Leaf 1) (simple_train.Leaf 2))
               (simple_train.Split 0 2 (simple_train.Leaf 10) (simple_train.Leaf 12))) |}.

(** A stream of draws for [random.randint]. *)
Definition raw (k : nat) : Z := Z.of_nat k * 7 + 3.

Definition forest : simple_train.SimpleRandomForest.t :=
  {| simple_train.SimpleRandomForest.n_trees := 3;
     simple_train.SimpleRandomForest.max_depth := 8;
     simple_train.SimpleRandomForest.trees :=
       replicate 3
         {| simple_train.SimpleDecisionTree.max_depth := 8;
            simple_train.SimpleDecisionTree.min_samples_split := 2;
            simple_train.SimpleDecisionTree.tree :=
              simple_train.SimpleDecisionTree.tree tree |} |}.

(** A linear artifact as the serving module holds it. *)
Definition model : api_simple.model :=
  {| api_simple.airline_map := list_to_map [("IndiGo", 0%Q); ("Air India", 1%Q)];
     api_simple.source_map := list_to_map [("Mumbai", 0%Q); ("Delhi", 1%Q)];
     api_simple.dest_map := list_to_map [("Delhi", 0%Q); ("Mumbai", 1%Q)];
     api_simple.class_map := list_to_map [("Business", 0%Q); ("Economy", 1%Q)];
     api_simple.mean_x := [0; 0; 0; 0; 0; 0; 0; 0; 0]%Q;
     api_simple.std_x := [1; 1; 1; 1; 1; 1; 1; 1; 1]%Q;
     api_simple.weights := [100; 50; 200; 10; 10; 30; 500; 20; -40]%Q;
     api_simple.bias := 3000%Q;
     api_simple.mae := 0%Q;
     api_simple.rmse := 0%Q |}.

(** The same parameters as a [LinearRegression] object. *)
Definition linear : train_simple.LinearRegression.t :=
  {| train_simple.LinearRegression.weights := Some (api_simple.weights model);
     train_simple.LinearRegression.bias := api_simple.bias model;
     train_simple.LinearRegression.mean_x := Some (api_simple.mean_x model);
     train_simple.LinearRegression.std_x := Some (api_simple.std_x model) |}.

(** A request with the field names of the training input. *)
Definition request : record :=
  list_to_map
    [("airline", "IndiGo"); ("source_city", "Mumbai"); ("stops", "0");
     ("departure_time", "2026-02-20 10:00"); ("arrival_time", "2026-02-20 12:30");
     ("destination_city", "Delhi"); ("class", "Business");
     ("duration", "150"); ("days_left", "5")].

(** The request of the usage example of [run_server], with the keys that
    [predict_price] reads. *)
Definition request_misspelled : record :=
  list_to_map
    [("airline", "IndiGo"); ("source_city", "Mumbai"); ("stops", "0");
     ("departure_time", "2026-02-20 10:00"); ("arrival_time", "2026-02-20 12:30");
     ("destinatin", "Delhi"); ("class", "Business");
     ("duratin", "150"); ("days_left", "5")].

Definition request_minus_one_day : record :=
  <["days_left" := "-1"]> request_misspelled.

(** A record of the training file, with the price column. *)
Definition csv_record : record := <["price" := "9000"]> request.

(** Two records of a training file for the forest trainer, with the
    column names that [simple_train.py] reads. *)
Definition forest_data : list record :=
  [<["price" := "1000"]> request_misspelled;
   <["price" := "3000"]> (<["airline" := "Air India"]> request_misspelled)].

(** Two streams of draws: every bootstrap sample repeats the first
    record, or the second. *)
Definition raw_first (k : nat) : Z := 0.
Definition raw_second (k : nat) : Z := 1.

(** The model that one iteration of [LinearRegression.fit] returns on
    the rows [[0, 1]] and [[2, 1]] with the targets 1 and 3. *)
Definition fitted_linear : train_simple.LinearRegression.t :=
  {| train_simple.LinearRegression.weights :=
       Some [268435456 # 13421772800; 0 # 13107200]%Q;
     train_simple.LinearRegression.bias := (131072 # 3276800)%Q;
     train_simple.LinearRegression.mean_x := Some [2 # 2; 2 # 2]%Q;
     train_simple.LinearRegression.std_x := Some [32 # 32; 1]%Q |}.

Definition no_encoders : train_simple.encoders :=
  {| train_simple.airline_map := ∅; train_simple.source_map := ∅;
     train_simple.dest_map := ∅; train_simple.class_map := ∅ |}.

End example.

(** ** api_simple.py: the query string of a request *)

(** [s.startswith(old)] *)
Fixpoint startswith (s old : string) {struct old} : bool :=
  match old with
  | EmptyString => true
  | String b old' =>
      match s with
      | EmptyString => false
      | String a s' => Ascii.eqb a b && startswith s' old'
      end
  end.

(** [s.replace(old, new)] for a non-empty [old]: the occurrences of [old]
    are taken from the left and do not overlap; [skip] counts the characters
    of the occurrence found that are still to be passed. *)
Fixpoint replace_from (skip : nat) (old new : string) (s : string) : string :=
  match s with
  | EmptyString => EmptyString
  | String a s' =>
      match skip with
      | S skip' => replace_from skip' old new s'
      | O =>
          if startswith s old
          then new ++ replace_from (String.length old - 1) old new s'
          else String a (replace_from 0 old new s')
      end
  end.

Definition replace (old new : string) (s : string) : string :=
  replace_from 0 old new s.

(** [s.split(c, 1)]: at most one cut, at the first [c]. *)
Fixpoint split_first (c : ascii) (s : string) : list string :=
  match s with
  | EmptyString => [EmptyString]
  | String a s' =>
      if Ascii.eqb a c then [EmptyString; s']
      else match split_first c s' with
           | [] => [String a EmptyString]
           | w :: ws => String a w :: ws
           end
  end.

(** The body of the loop [for pair in query_string.split('&')]: the
    assignment [key, value = ...] raises [ValueError] unless the list has
    two elements. *)
Definition parse_pair (params : record) (pair : string) : result record :=
  if contains_char "=" pair then
    match split_first "=" pair with
    | [key; value] =>
        let value := replace "%2C" "," (replace "%20" " " value) in
        Ok (<[key := value]> params)
    | [] | [_] => Raise (ValueError "not enough values to unpack (expected 2, got 1)")
    | _ => Raise (ValueError "too many values to unpack (expected 2)")
    end
  else Ok params.

(** [parse_query(query_string)] *)
Definition parse_query (query_string : string) : result record :=
  if String.eqb query_string "" then Ok ∅
  else foldM_r parse_pair ∅ (split_on "&" query_string).

(** ** Notions used in the further properties *)

(** A category map is dense: its codes are the integers from 0 below its
    size, each issued to one value. *)
Definition dense (m : gmap string Z) : Prop :=
  (∀ k c, m !! k = Some c → 0 <= c < Z.of_nat (size m)) ∧
  (∀ k1 k2 c, m !! k1 = Some c → m !! k2 = Some c → k1 = k2) ∧
  (∀ c, 0 <= c < Z.of_nat (size m) → ∃ k, m !! k = Some c).

(** The four maps of the linear trainer are dense. *)
Definition dense_encoders (m : train_simple.encoders) : Prop :=
  dense (train_simple.airline_map m) ∧ dense (train_simple.source_map m) ∧
  dense (train_simple.dest_map m) ∧ dense (train_simple.class_map m).

(** Every entry of [m1] is an entry of [m2], map by map. *)
Definition encoders_le (m1 m2 : train_simple.encoders) : Prop :=
  train_simple.airline_map m1 ⊆ train_simple.airline_map m2 ∧
  train_simple.source_map m1 ⊆ train_simple.source_map m2 ∧
  train_simple.dest_map m1 ⊆ train_simple.dest_map m2 ∧
  train_simple.class_map m1 ⊆ train_simple.class_map m2.

(** The category maps of the serving module loaded from the encoders of the
    trainer. *)
Definition serves (MODEL_DATA : api_simple.model) (m : train_simple.encoders) : Prop :=
  api_simple.airline_map MODEL_DATA = inject_Z <$> train_simple.airline_map m ∧
  api_simple.source_map MODEL_DATA = inject_Z <$> train_simple.source_map m ∧
  api_simple.dest_map MODEL_DATA = inject_Z <$> train_simple.dest_map m ∧
  api_simple.class_map MODEL_DATA = inject_Z <$> train_simple.class_map m.

(** The request that carries the fields of the training record [r] under
    the keys that [predict_price] reads. *)
Definition as_request (r : record) (flight_data : record) : Prop :=
  flight_data !! "airline" = r !! "airline" ∧
  flight_data !! "source_city" = r !! "source_city" ∧
  flight_data !! "stops" = r !! "stops" ∧
  flight_data !! "departure_time" = r !! "departure_time" ∧
  flight_data !! "arrival_time" = r !! "arrival_time" ∧
  flight_data !! "destinatin" = r !! "destination_city" ∧
  flight_data !! "class" = r !! "class" ∧
  flight_data !! "duratin" = r !! "duration" ∧
  flight_data !! "days_left" = r !! "days_left".

(** The number of tests on the longest path from the root to a leaf. *)
Fixpoint height (n : simple_train.node) : nat :=
  match n with
  | simple_train.Leaf _ => 0%nat
  | simple_train.Split _ _ left_node right_node =>
      S (Nat.max (height left_node) (height right_node))
  end.

(** A value written into a query string: spaces as [%20], commas as
    [%2C]. *)
Definition quote (value : string) : string :=
  replace_char "," "%2C" (replace_char " " "%20" value).

(** The query string [k1=v1&k2=v2&...] of a list of keys and values. *)
Fixpoint query_of (l : list (string * string)) : string :=
  match l with
  | [] => ""
  | (key, value) :: rest =>
      match rest with
      | [] => key ++ "=" ++ quote value
      | _ => (key ++ "=" ++ quote value) ++ "&" ++ query_of rest
      end
  end.

(** The defaults of [flight_data.get] in [predict_price] for the keys read
    as text, and the keys read as numbers, whose default is 0. *)
Definition text_defaults : list (string * string) :=
  [("airline", ""); ("source_city", ""); ("departure_time", "");
   ("arrival_time", ""); ("destinatin", ""); ("class", "Economy")].

Definition numeric_keys : list string := ["stops"; "duratin"; "days_left"].

(** ** Example data of the further properties *)

Module sample.

(** A training file of two records: the second lacks its price and is
    skipped. *)
Definition data : list record := [example.csv_record; example.request].

(** What [train_model] of [train_simple.py] prepares from [data]. *)
Definition encoders : train_simple.encoders :=
  {| train_simple.airline_map := {[ "IndiGo" := 0 ]};
     train_simple.source_map := {[ "Mumbai" := 0 ]};
     train_simple.dest_map := {[ "Delhi" := 0 ]};
     train_simple.class_map := {[ "Business" := 0 ]} |}.

Definition row : list Q := [0; 0; 0; 10; 12; 0; 0; 150; 5]%Q.

(** An artifact with the category maps of [encoders]. *)
Definition model : api_simple.model :=
  {| api_simple.airline_map := {[ "IndiGo" := 0%Q ]};
     api_simple.source_map := {[ "Mumbai" := 0%Q ]};
     api_simple.dest_map := {[ "Delhi" := 0%Q ]};
     api_simple.class_map := {[ "Business" := 0%Q ]};
     api_simple.mean_x := [0; 0; 0; 0; 0; 0; 0; 0; 0]%Q;
     api_simple.std_x := [1; 1; 1; 1; 1; 1; 1; 1; 1]%Q;
     api_simple.weights := [100; 50; 200; 10; 10; 30; 500; 20; -40]%Q;
     api_simple.bias := 3000%Q;
     api_simple.mae := 0%Q;
     api_simple.rmse := 0%Q |}.

(** The model that one iteration of [LinearRegression.fit] returns on the
    row [row] with the target 9000. *)
Definition fitted : train_simple.LinearRegression.t :=
  {| train_simple.LinearRegression.weights :=
       Some [0 # 100; 0 # 100; 0 # 100; 0 # 100; 0 # 100; 0 # 100; 0 # 100;
             0 # 100; 0 # 100]%Q;
     train_simple.LinearRegression.bias := (18000 # 100)%Q;
     train_simple.LinearRegression.mean_x := Some row;
     train_simple.LinearRegression.std_x :=
       Some [1; 1; 1; 1; 1; 1; 1; 1; 1]%Q |}.

(** A record without a price, which [train_model] skips, that names an
    airline of no other record; the training file with it, and the
    encoders that [train_model] of [train_simple.py] is left with. *)
Definition skipped : record := <["airline" := "Vistara"]> example.request.

Definition data_with_skipped : list record := [example.csv_record; skipped].

Definition encoders_with_skipped : train_simple.encoders :=
  {| train_simple.airline_map := {[ "IndiGo" := 0; "Vistara" := 1 ]};
     train_simple.source_map := {[ "Mumbai" := 0 ]};
     train_simple.dest_map := {[ "Delhi" := 0 ]};
     train_simple.class_map := {[ "Business" := 0 ]} |}.

End sample.

(** ** Notions and example data of the binary64 embedding *)

(** The values of the leaves of a binary64 tree, from left to right. *)
Fixpoint leaves64 (n : binary64.node) : list float :=
  match n with
  | binary64.Leaf value => [value]
  | binary64.Split _ _ left_node right_node =>
      (leaves64 left_node ++ leaves64 right_node)%list
  end.

(** [v] is [sum(ys) / len(ys)] as binary64 computes it, and [ys] is not
    empty. *)
Definition mean_of (ys : list float) (v : float) : Prop :=
  ys ≠ [] ∧ binary64.truediv (binary64.sum ys) (binary64.len ys) = Ok v.

Module example64.

(** The floats that Python reads from [0.1] and from [1e200]: the nearest
    binary64 numbers. *)
#[warnings="-inexact-float"]
Definition tenth : float := 0.1%float.

#[warnings="-inexact-float"]
Definition huge : float := 1e200%float.

(** Three flights with the same feature value and the same price 0.1. *)
Definition X_same : list (list Z) := [[0]; [0]; [0]].
Definition y_tenths : list float := [tenth; tenth; tenth].

(** Two flights with the prices 0.0 and 1e200. *)
Definition X_two : list (list Z) := [[0]; [1]].
Definition y_huge : list float := [0%float; huge].

(** The prices of [example.y] as floats, and the tree and the forest that
    [fit] returns for them on [example.X]. *)
Definition y : list float := [1; 2; 10; 12]%float.

Definition tree : binary64.SimpleDecisionTree.t :=
  {| binary64.SimpleDecisionTree.max_depth := 10;
     binary64.SimpleDecisionTree.min_samples_split := 2;
     binary64.SimpleDecisionTree.tree :=
       Some (binary64.Split 0 1
               (binary64.Split 0 0 (binary64.Leaf 1) (binary64.Leaf 2))
               (binary64.Split 0 2 (binary64.Leaf 10) (binary64.Leaf 12))) |}.

Definition forest : binary64.SimpleRandomForest.t :=
  {| binary64.SimpleRandomForest.n_trees := 3;
     binary64.SimpleRandomForest.max_depth := 8;
     binary64.SimpleRandomForest.trees :=
       replicate 3
         {| binary64.SimpleDecisionTree.max_depth := 8;
            binary64.SimpleDecisionTree.min_samples_split := 2;
            binary64.SimpleDecisionTree.tree :=
              binary64.SimpleDecisionTree.tree tree |} |}.

End example64.

(** * Properties *)

Open Scope list_scope.

(** ** The result monad and the list combinators *)

Lemma bind_Ok {A B} (f : A → result B) (a : A) : (Ok a ≫= f) = f a.
Proof. reflexivity. Qed.

Lemma bind_inv {A B} (f : A → result B) (m : result A) (b : B) :
  (m ≫= f) = Ok b → ∃ a, m = Ok a ∧ f a = Ok b.
Proof. destruct m as [a|e]; [exists a; auto | discriminate]. Qed.

Ltac inv_bind H :=
  let a := fresh "a" in
  let Ha := fresh "Ha" in
  apply bind_inv in H; destruct H as (a & Ha & H).

Lemma getitem_lookup {A} (l : list A) (i : nat) (a : A) :
  l !! i = Some a → getitem l i = Ok a.
Proof. unfold getitem. now intros ->. Qed.

Lemma getitem_inv {A} (l : list A) (i : nat) (a : A) :
  getitem l i = Ok a → l !! i = Some a.
Proof. unfold getitem. destruct (l !! i); congruence. Qed.

Lemma mapM_r_map {A B} (f : A → result B) (g : A → B) (l : list A) :
  Forall (fun a => f a = Ok (g a)) l → mapM_r f l = Ok (map g l).
Proof.
  induction 1 as [|a l Ha _ IH]; simpl; [reflexivity|].
  now rewrite Ha, bind_Ok, IH.
Qed.

Lemma mapM_r_inv {A B} (f : A → result B) (l : list A) (bs : list B) :
  mapM_r f l = Ok bs → Forall2 (fun a b => f a = Ok b) l bs.
Proof.
  revert bs. induction l as [|a l IH]; simpl; intros bs H.
  - injection H as <-. constructor.
  - inv_bind H. inv_bind H. injection H as <-. constructor; auto.
Qed.

Lemma mapM_r_length {A B} (f : A → result B) (l : list A) (bs : list B) :
  mapM_r f l = Ok bs → length bs = length l.
Proof. intros H. apply mapM_r_inv in H. symmetry. eapply Forall2_length, H. Qed.

Lemma list_comp_seq {A B} (cond : nat → result bool) (elt : nat → result A)
    (P : B → bool) (g : nat → B → A) (l : list B) (k : nat) :
  (∀ i b, l !! i = Some b →
     cond (k + i)%nat = Ok (P b) ∧ (P b = true → elt (k + i)%nat = Ok (g (k + i)%nat b))) →
  list_comp cond elt (seq k (length l)) = Ok (ifilter P g k l).
Proof.
  revert k. induction l as [|b l IH]; intros k H; simpl; [reflexivity|].
  destruct (H 0%nat b eq_refl) as [Hc He]. rewrite Nat.add_0_r in Hc, He.
  rewrite Hc, bind_Ok.
  assert (IH' : list_comp cond elt (seq (S k) (length l)) = Ok (ifilter P g (S k) l)).
  { apply IH. intros i c Hi. replace (S k + i)%nat with (k + S i)%nat by lia.
    now apply H. }
  destruct (P b).
  - rewrite (He eq_refl), bind_Ok, IH'. reflexivity.
  - exact IH'.
Qed.

Lemma ifilter_const {A B} (P : B → bool) (g : B → A) (k : nat) (l : list B) :
  ifilter P (fun _ => g) k l = map g (List.filter P l).
Proof.
  revert k. induction l as [|b l IH]; intros k; simpl; [reflexivity|].
  destruct (P b); simpl; now rewrite IH.
Qed.

(** Reading a list at the indices kept by [ifilter] filters the list. *)
Lemma mapM_r_getitem_ifilter {A B} (P : B → bool) (g : B → A)
    (pre : list A) (l : list B) :
  mapM_r (getitem (pre ++ map g l)) (ifilter P (fun i _ => i) (length pre) l)
  = Ok (map g (List.filter P l)).
Proof.
  revert pre. induction l as [|b l IH]; intros pre; simpl; [reflexivity|].
  assert (IH' : mapM_r (getitem (pre ++ g b :: map g l))
                  (ifilter P (fun i _ => i) (S (length pre)) l)
                = Ok (map g (List.filter P l))).
  { specialize (IH (pre ++ [g b])%list). rewrite length_app, Nat.add_1_r in IH.
    now rewrite <- app_assoc in IH. }
  destruct (P b); simpl; [|exact IH'].
  rewrite IH'. unfold getitem at 1.
  rewrite list_lookup_middle by reflexivity. reflexivity.
Qed.

Lemma foldM_r_invariant {A B} (f : B → A → result B) (I : B → Prop) (l : list A) (b : B) :
  I b → (∀ b a, a ∈ l → I b → ∃ b', f b a = Ok b' ∧ I b') →
  ∃ b', foldM_r f b l = Ok b' ∧ I b'.
Proof.
  revert b. induction l as [|a l IH]; intros b Hb Hf; simpl.
  - eauto.
  - destruct (Hf b a) as (b' & Hb' & HI); [left | assumption |].
    rewrite Hb', bind_Ok. apply IH; [assumption|].
    intros b0 a0 Ha0. apply Hf. now right.
Qed.

(** ** Numbers *)

Lemma len_nonzero {A} (l : list A) : l ≠ [] → Qeq_bool (len l) 0 = false.
Proof.
  intros Hl. destruct l as [|a l]; [congruence|].
  apply not_true_is_false. intros H. apply Qeq_bool_iff in H.
  unfold len, Qeq in H. simpl in H. lia.
Qed.

Lemma len_pos {A} (l : list A) : l ≠ [] → (0 < len l)%Q.
Proof.
  intros Hl. destruct l as [|a l]; [congruence|].
  unfold len, Qlt. simpl. lia.
Qed.

Lemma truediv_len {A} (a : Q) (l : list A) :
  l ≠ [] → truediv a (len l) = Ok (a / len l)%Q.
Proof. intros Hl. unfold truediv. now rewrite len_nonzero. Qed.

Lemma truediv_nonzero (a b : Q) : ¬ (b == 0)%Q → truediv a b = Ok (a / b)%Q.
Proof.
  intros Hb. unfold truediv. destruct (Qeq_bool b 0) eqn:E; [|reflexivity].
  apply Qeq_bool_iff in E. contradiction.
Qed.

Lemma Qlt_bool_iff (a b : Q) : Qlt_bool a b = true ↔ (a < b)%Q.
Proof.
  unfold Qlt_bool. rewrite negb_true_iff. split.
  - intros H. apply Qnot_le_lt. intros Hle. apply Qle_bool_iff in Hle. congruence.
  - intros H. apply not_true_is_false. intros Hle. apply Qle_bool_iff in Hle.
    apply (Qlt_not_le _ _ H Hle).
Qed.

Lemma max0_nonneg (p : Q) : (0 <= max0 p)%Q.
Proof.
  unfold max0. destruct (Qlt_bool 0 p) eqn:E.
  - apply Qlt_bool_iff in E. now apply Qlt_le_weak.
  - apply Qle_refl.
Qed.

(** ** The decision tree on a rectangular training set *)

Import simple_train.

Section tree.

Variable nf : nat.

Implicit Types (S : list sample) (b : SimpleDecisionTree.best).

Lemma row_cond S f keep i (smp : sample) :
  rectangular nf (map fst S) → (f < nf)%nat → S !! i = Some smp →
  (row ← getitem (map fst S) i; v ← getitem row f; Ok (keep v))
  = Ok (row_test f keep (fst smp)).
Proof.
  intros Hrect Hf Hi.
  rewrite (getitem_lookup _ _ (fst smp)), bind_Ok
    by (rewrite list_lookup_fmap, Hi; reflexivity).
  assert (Hlen : length (fst smp) = nf).
  { apply (Forall_lookup_1 _ _ i _ Hrect). rewrite list_lookup_fmap, Hi.
    reflexivity. }
  destruct (lookup_lt_is_Some_2 (fst smp) f) as [v Hv]; [lia|].
  rewrite (getitem_lookup _ _ v Hv), bind_Ok. unfold row_test. now rewrite Hv.
Qed.

Lemma select_y_samples S f keep :
  rectangular nf (map fst S) → (f < nf)%nat →
  SimpleDecisionTree.select_y (map fst S) (map snd S) f keep
  = Ok (map snd (List.filter (fun smp : sample => row_test f keep (fst smp)) S)).
Proof.
  intros Hrect Hf. unfold SimpleDecisionTree.select_y.
  rewrite length_map, <- (ifilter_const _ snd 0%nat).
  apply list_comp_seq. intros i smp Hi. simpl. split.
  - now apply row_cond.
  - intros _. apply getitem_lookup. rewrite list_lookup_fmap, Hi. reflexivity.
Qed.

Lemma select_rows S f keep :
  rectangular nf (map fst S) → (f < nf)%nat →
  ∃ idxs,
    SimpleDecisionTree.select_indices (map fst S) f keep = Ok idxs ∧
    mapM_r (getitem (map fst S)) idxs
      = Ok (map fst (List.filter (fun smp : sample => row_test f keep (fst smp)) S)) ∧
    mapM_r (getitem (map snd S)) idxs
      = Ok (map snd (List.filter (fun smp : sample => row_test f keep (fst smp)) S)).
Proof.
  intros Hrect Hf.
  exists (ifilter (fun smp : sample => row_test f keep (fst smp)) (fun i _ => i) 0 S).
  split; [|split].
  - unfold SimpleDecisionTree.select_indices. rewrite length_map.
    apply list_comp_seq. intros i smp Hi. simpl. split; [|reflexivity].
    now apply row_cond.
  - apply (mapM_r_getitem_ifilter _ fst []).
  - apply (mapM_r_getitem_ifilter _ snd []).
Qed.

Lemma variance_ok (values : list Q) : ∃ v, SimpleDecisionTree.variance values = Ok v.
Proof.
  destruct values as [|a l]; [eexists; reflexivity|].
  unfold SimpleDecisionTree.variance.
  rewrite truediv_len, bind_Ok by discriminate.
  rewrite truediv_len by discriminate. eauto.
Qed.

Lemma gain_ok (y left_y right_y : list Q) :
  y ≠ [] → ∃ g, SimpleDecisionTree._calculate_gain y left_y right_y = Ok g.
Proof.
  intros Hy. unfold SimpleDecisionTree._calculate_gain.
  destruct (variance_ok y) as [v ->], (variance_ok left_y) as [vl ->],
    (variance_ok right_y) as [vr ->].
  rewrite !bind_Ok, truediv_len, bind_Ok by assumption. eauto.
Qed.

Lemma try_split_good S f b split :
  rectangular nf (map fst S) → (f < nf)%nat → good nf S b →
  ∃ b', SimpleDecisionTree.try_split (map fst S) (map snd S) f b split = Ok b'
        ∧ good nf S b'.
Proof.
  intros Hrect Hf Hb. unfold SimpleDecisionTree.try_split.
  rewrite !select_y_samples, !bind_Ok by assumption.
  fold (left_of f split S). fold (right_of f split S).
  destruct (left_of f split S) as [|l ls] eqn:El; simpl; [eauto|].
  destruct (right_of f split S) as [|r rs] eqn:Er; simpl; [eauto|].
  destruct (gain_ok (map snd S) (snd l :: map snd ls) (snd r :: map snd rs))
    as [g ->].
  { intros HS. apply map_eq_nil in HS. subst S. discriminate. }
  rewrite bind_Ok. destruct (Qlt_bool (fst b) g); [|eauto].
  eexists; split; [reflexivity|]. unfold good; simpl.
  rewrite El, Er. repeat split; [assumption|discriminate|discriminate].
Qed.

Lemma scan_feature_good S b f :
  rectangular nf (map fst S) → (f < nf)%nat → good nf S b →
  ∃ b', SimpleDecisionTree.scan_feature (map fst S) (map snd S) b f = Ok b'
        ∧ good nf S b'.
Proof.
  intros Hrect Hf Hb. unfold SimpleDecisionTree.scan_feature.
  assert (Hcol : ∃ column, mapM_r (fun x => getitem x f) (map fst S) = Ok column).
  { exists (map (fun x => default 0 (x !! f)) (map fst S)). apply mapM_r_map.
    unfold rectangular in Hrect. eapply Forall_impl; [exact Hrect|].
    intros x Hx. simpl in Hx.
    destruct (lookup_lt_is_Some_2 x f) as [v Hv]; [lia|].
    rewrite Hv. now apply getitem_lookup. }
  destruct Hcol as [column ->]. rewrite bind_Ok.
  apply foldM_r_invariant; [assumption|].
  intros b0 split _ Hb0. now apply try_split_good.
Qed.

Lemma search_good S :
  rectangular nf (map fst S) →
  ∃ b', foldM_r (SimpleDecisionTree.scan_feature (map fst S) (map snd S))
                (0%Q, None) (seq 0 nf) = Ok b' ∧ good nf S b'.
Proof.
  intros Hrect. apply foldM_r_invariant; [exact I|].
  intros b f Hf Hb. apply scan_feature_good; try assumption.
  apply list_elem_of_In, in_seq in Hf. lia.
Qed.

Lemma mean_leaf_ok (y : list Q) :
  y ≠ [] → SimpleDecisionTree.mean_leaf y = Ok (Leaf (sum y / len y)).
Proof.
  intros Hy. unfold SimpleDecisionTree.mean_leaf. now rewrite truediv_len.
Qed.

Lemma rectangular_filter (P : sample → bool) S :
  rectangular nf (map fst S) → rectangular nf (map fst (List.filter P S)).
Proof.
  unfold rectangular. rewrite !List.Forall_forall. intros H x Hx.
  apply in_map_iff in Hx. destruct Hx as (smp & <- & Hin).
  apply filter_In in Hin. apply H. apply in_map. tauto.
Qed.

(** One level of [_build_tree]: a leaf holding the mean of the targets,
    or a split on a feature of the rows with samples on both sides. *)
Lemma build_step rem mss S :
  rectangular nf (map fst S) → S ≠ [] →
  SimpleDecisionTree._build_tree_at (Datatypes.S rem) mss (map fst S) (map snd S)
    = Ok (Leaf (sum (map snd S) / len (map snd S)))
  ∨ ∃ f s, (f < nf)%nat ∧ left_of f s S ≠ [] ∧ right_of f s S ≠ [] ∧
      SimpleDecisionTree._build_tree_at (Datatypes.S rem) mss (map fst S) (map snd S)
      = (left_node ← SimpleDecisionTree._build_tree_at rem mss
                        (map fst (left_of f s S)) (map snd (left_of f s S));
         right_node ← SimpleDecisionTree._build_tree_at rem mss
                        (map fst (right_of f s S)) (map snd (right_of f s S));
         Ok (Split f s left_node right_node)).
Proof.
  intros Hrect HS.
  assert (Hy : map snd S ≠ []).
  { intros H. apply map_eq_nil in H. contradiction. }
  simpl. destruct (Z.of_nat (length (map snd S)) <? mss).
  { left. now apply mean_leaf_ok. }
  destruct S as [|smp0 S']; [contradiction|].
  set (S0 := smp0 :: S') in *.
  assert (Hx0 : getitem (map fst S0) 0 = Ok (fst smp0)) by reflexivity.
  rewrite Hx0, bind_Ok.
  assert (Hnf : length (fst smp0) = nf).
  { unfold rectangular in Hrect. now inversion Hrect. }
  rewrite Hnf.
  destruct (search_good S0 Hrect) as (b & -> & Hb). rewrite bind_Ok.
  unfold good in Hb. destruct (snd b) as [[f s]|].
  - right. exists f, s. destruct Hb as (Hf & Hl & Hr).
    repeat split; try assumption.
    destruct (select_rows S0 f (fun v => v <=? s) Hrect Hf) as (li & Hli & HlX & Hly).
    destruct (select_rows S0 f (fun v => v >? s) Hrect Hf) as (ri & Hri & HrX & Hry).
    rewrite Hli, bind_Ok, Hri, bind_Ok, HlX, bind_Ok, Hly, bind_Ok,
      HrX, bind_Ok, Hry, bind_Ok.
    reflexivity.
  - left. now apply mean_leaf_ok.
Qed.

End tree.

(** ** Sums and means *)

Lemma len_cons {A} (a : A) (l : list A) : (len (a :: l) == len l + 1)%Q.
Proof.
  unfold len. simpl length. rewrite Nat2Z.inj_succ. unfold Z.succ.
  now rewrite inject_Z_plus.
Qed.

Lemma fold_sum_bounds (lo hi : Q) (l : list Q) (a : Q) :
  Forall (fun v => lo <= v ∧ v <= hi)%Q l →
  (a + lo * len l <= fold_left Qplus l a ∧ fold_left Qplus l a <= a + hi * len l)%Q.
Proof.
  intros H. revert a. induction H as [|v l [Hlo Hhi] _ IH]; intros a.
  - simpl. unfold len. simpl. split; ring_simplify; apply Qle_refl.
  - simpl fold_left. destruct (IH (a + v)%Q) as [IH1 IH2].
    rewrite len_cons. split.
    + eapply Qle_trans; [|exact IH1]. lra.
    + eapply Qle_trans; [exact IH2|]. lra.
Qed.

(** The mean of a non-empty list lies between any two bounds of its
    elements. *)
Lemma mean_bounds (lo hi : Q) (l : list Q) :
  l ≠ [] → Forall (fun v => lo <= v ∧ v <= hi)%Q l →
  (lo <= sum l / len l ∧ sum l / len l <= hi)%Q.
Proof.
  intros Hl H. pose proof (len_pos l Hl) as Hpos.
  destruct (fold_sum_bounds lo hi l 0 H) as [H1 H2]. fold (sum l) in H1, H2.
  split.
  - apply Qle_shift_div_l; [assumption|]. lra.
  - apply Qle_shift_div_r; [assumption|]. lra.
Qed.

(** ** Trees built by [_build_tree] *)

Section built.

Variable nf : nat.
Variable mss : Z.

Implicit Types (S : list sample).

Lemma targets_nonempty S : S ≠ [] → map snd S ≠ [].
Proof. intros H E. apply map_eq_nil in E. contradiction. Qed.

(** An induction principle for the trees that [_build_tree] returns. *)
Lemma build_ind (Inv : list sample → node → Prop) :
  (∀ S, S ≠ [] → Inv S (Leaf (sum (map snd S) / len (map snd S)))) →
  (∀ S f s tl tr, (f < nf)%nat → left_of f s S ≠ [] → right_of f s S ≠ [] →
     Inv (left_of f s S) tl → Inv (right_of f s S) tr → Inv S (Split f s tl tr)) →
  ∀ rem S t, rectangular nf (map fst S) → S ≠ [] →
    SimpleDecisionTree._build_tree_at rem mss (map fst S) (map snd S) = Ok t →
    Inv S t.
Proof.
  intros Hleaf Hsplit. induction rem as [|rem IH]; intros S t Hrect HS Ht.
  - simpl in Ht. rewrite mean_leaf_ok in Ht by now apply targets_nonempty.
    injection Ht as <-. now apply Hleaf.
  - destruct (build_step nf rem mss S Hrect HS) as [E|(f & s & Hf & Hl & Hr & E)];
      rewrite E in Ht.
    + injection Ht as <-. now apply Hleaf.
    + inv_bind Ht. inv_bind Ht. injection Ht as <-.
      apply Hsplit; try assumption.
      * eapply IH; [now apply rectangular_filter | assumption | eassumption].
      * eapply IH; [now apply rectangular_filter | assumption | eassumption].
Qed.

End built.

(** ** Leaves, paths and traversal *)

Lemma leaf_at_leaves (t : node) (p : list dir) (v : Q) :
  leaf_at t p = Some v → In v (leaves t).
Proof.
  revert p. induction t as [value|f s tl IHl tr IHr]; intros p H.
  - destruct p; [|discriminate]. injection H as <-. now left.
  - destruct p as [|[|] p']; [discriminate| |]; simpl; apply in_or_app.
    + left. eapply IHl, H.
    + right. eapply IHr, H.
Qed.

(** [_traverse_tree] ends at the leaf of the path that [reaches] follows. *)
Lemma traverse_reaches (nf : nat) (x : list Z) (t : node) :
  features_below nf t → (nf <= length x)%nat →
  ∃ p v, SimpleDecisionTree._traverse_tree x t = Ok v
         ∧ reaches x t p = true ∧ leaf_at t p = Some v.
Proof.
  intros Ht Hx. induction t as [value|f s tl IHl tr IHr].
  - exists [], value. auto.
  - destruct Ht as (Hf & Hl & Hr).
    destruct (lookup_lt_is_Some_2 x f) as [v Hv]; [lia|].
    simpl. rewrite (getitem_lookup _ _ _ Hv), bind_Ok, Hv.
    destruct (v <=? s).
    + destruct (IHl Hl) as (p & w & H1 & H2 & H3). exists (Left :: p), w. auto.
    + destruct (IHr Hr) as (p & w & H1 & H2 & H3). exists (Right :: p), w. auto.
Qed.

Lemma reaches_unique (x : list Z) (t : node) (p q : list dir) :
  reaches x t p = true → reaches x t q = true → p = q.
Proof.
  revert p q. induction t as [value|f s tl IHl tr IHr]; intros p q Hp Hq.
  - destruct p, q; try discriminate. reflexivity.
  - destruct p as [|d p], q as [|e q]; try discriminate. simpl in Hp, Hq.
    destruct (x !! f) as [v|]; [|discriminate].
    destruct (v <=? s), d, e; try discriminate; f_equal; eauto.
Qed.

Lemma filter_filter_bool {A} (P R : A → bool) (l : list A) :
  List.filter P (List.filter R l) = List.filter (fun a => R a && P a) l.
Proof.
  induction l as [|a l IH]; simpl; [reflexivity|].
  destruct (R a); simpl; [destruct (P a)|]; now rewrite IH.
Qed.

Section built_properties.

Variable nf : nat.
Variable mss : Z.

Implicit Types (S : list sample).

Lemma built_features rem S t :
  rectangular nf (map fst S) → S ≠ [] →
  SimpleDecisionTree._build_tree_at rem mss (map fst S) (map snd S) = Ok t →
  features_below nf t.
Proof.
  apply (build_ind nf mss (fun _ t => features_below nf t)); simpl; auto.
Qed.

Lemma built_bounds (lo hi : Q) rem S t :
  rectangular nf (map fst S) → S ≠ [] →
  SimpleDecisionTree._build_tree_at rem mss (map fst S) (map snd S) = Ok t →
  Forall (fun v => lo <= v ∧ v <= hi)%Q (map snd S) →
  Forall (fun v => lo <= v ∧ v <= hi)%Q (leaves t).
Proof.
  apply (build_ind nf mss (fun S t =>
    Forall (fun v => lo <= v ∧ v <= hi)%Q (map snd S) →
    Forall (fun v => lo <= v ∧ v <= hi)%Q (leaves t))).
  - intros S0 HS0 Hb. simpl. constructor; [|constructor].
    apply mean_bounds; [now apply targets_nonempty | assumption].
  - intros S0 f s tl tr _ _ _ IHl IHr Hb. simpl.
    assert (Hsub : ∀ P : sample → bool,
              Forall (fun v => lo <= v ∧ v <= hi)%Q (map snd (List.filter P S0))).
    { intros P. rewrite List.Forall_forall in *. intros v Hv.
      apply in_map_iff in Hv. destruct Hv as (smp & <- & Hin).
      apply filter_In in Hin. apply Hb, in_map. tauto. }
    apply Forall_app. split; [apply IHl | apply IHr]; apply Hsub.
Qed.

Lemma reaches_left S f s tl tr p :
  rectangular nf (map fst S) → (f < nf)%nat →
  List.filter (fun smp : sample => reaches (fst smp) (Split f s tl tr) (Left :: p)) S
  = List.filter (fun smp : sample => reaches (fst smp) tl p) (left_of f s S).
Proof.
  intros Hrect Hf. unfold left_of. rewrite filter_filter_bool.
  apply List.filter_ext_in. intros smp Hin. simpl. unfold row_test.
  destruct (fst smp !! f) as [v|] eqn:Hv; [now destruct (v <=? s)|].
  exfalso. apply lookup_ge_None in Hv.
  unfold rectangular in Hrect. rewrite List.Forall_forall in Hrect.
  specialize (Hrect (fst smp) (in_map fst _ _ Hin)). lia.
Qed.

Lemma reaches_right S f s tl tr p :
  rectangular nf (map fst S) → (f < nf)%nat →
  List.filter (fun smp : sample => reaches (fst smp) (Split f s tl tr) (Right :: p)) S
  = List.filter (fun smp : sample => reaches (fst smp) tr p) (right_of f s S).
Proof.
  intros Hrect Hf. unfold right_of. rewrite filter_filter_bool.
  apply List.filter_ext_in. intros smp Hin. simpl. unfold row_test.
  destruct (fst smp !! f) as [v|] eqn:Hv.
  - rewrite Z.gtb_ltb, Z.leb_antisym. now destruct (s <? v).
  - exfalso. apply lookup_ge_None in Hv.
    unfold rectangular in Hrect. rewrite List.Forall_forall in Hrect.
    specialize (Hrect (fst smp) (in_map fst _ _ Hin)). lia.
Qed.

(** Every leaf holds the mean of the targets of the samples that the
    tree sends to it, and some sample is sent to it. *)
Lemma built_leaf_mean rem S t :
  rectangular nf (map fst S) → S ≠ [] →
  SimpleDecisionTree._build_tree_at rem mss (map fst S) (map snd S) = Ok t →
  ∀ p v, leaf_at t p = Some v →
    let ys := map snd (List.filter (fun smp : sample => reaches (fst smp) t p) S) in
    ys ≠ [] ∧ v = (sum ys / len ys)%Q.
Proof.
  intros Hrect HS Ht. generalize Hrect.
  apply (build_ind nf mss (fun S t => rectangular nf (map fst S) →
    ∀ p v, leaf_at t p = Some v →
      let ys := map snd (List.filter (fun smp : sample => reaches (fst smp) t p) S) in
      ys ≠ [] ∧ v = (sum ys / len ys)%Q)) with (rem := rem); try assumption.
  - intros S0 HS0 _ p v Hp. destruct p; [|discriminate]. injection Hp as <-.
    simpl. rewrite List.filter_true. split; [now apply targets_nonempty | reflexivity].
  - intros S0 f s tl tr Hf Hl Hr IHl IHr Hrect0 p v Hp.
    destruct p as [|[|] p']; [discriminate| |]; simpl in Hp.
    + rewrite reaches_left by assumption.
      apply IHl; [now apply rectangular_filter | assumption].
    + rewrite reaches_right by assumption.
      apply IHr; [now apply rectangular_filter | assumption].
Qed.

End built_properties.

(** ** Fitting and predicting with one tree *)

Lemma zip_fst_snd (X : list (list Z)) (y : list Q) :
  length X = length y → map fst (zip X y) = X ∧ map snd (zip X y) = y.
Proof. intros H. split; [apply fst_zip | apply snd_zip]; lia. Qed.

Lemma build_empty (rem : nat) (mss : Z) :
  ∃ e, SimpleDecisionTree._build_tree_at rem mss [] [] = Raise e.
Proof.
  destruct rem as [|rem]; [eexists; reflexivity|].
  cbn [SimpleDecisionTree._build_tree_at length].
  destruct (Z.of_nat 0 <? mss); eexists; reflexivity.
Qed.

Section tree_facts.

Variables (self fitted : SimpleDecisionTree.t) (root : node).
Variables (X : list (list Z)) (y : list Q) (nf : nat).
Hypothesis Hlen : length X = length y.
Hypothesis Hrect : rectangular nf X.
Hypothesis Hfit : SimpleDecisionTree.fit self X y = Ok fitted.
Hypothesis Hroot : SimpleDecisionTree.tree fitted = Some root.

Lemma fitted_build :
  SimpleDecisionTree._build_tree_at
    (Z.to_nat (SimpleDecisionTree.max_depth self - 0))
    (SimpleDecisionTree.min_samples_split self)
    (map fst (zip X y)) (map snd (zip X y)) = Ok root.
Proof.
  destruct (zip_fst_snd X y Hlen) as [-> ->].
  unfold SimpleDecisionTree.fit, SimpleDecisionTree._build_tree in Hfit.
  inv_bind Hfit. injection Hfit as <-. simpl in Hroot. congruence.
Qed.

Lemma fitted_nonempty : zip X y ≠ [].
Proof.
  intros E. pose proof fitted_build as H.
  destruct (zip_fst_snd X y Hlen) as [HX Hy]. rewrite E in HX, Hy.
  rewrite E in H. simpl in H.
  destruct (build_empty (Z.to_nat (SimpleDecisionTree.max_depth self - 0))
              (SimpleDecisionTree.min_samples_split self)) as [e He].
  congruence.
Qed.

Lemma fitted_rect : rectangular nf (map fst (zip X y)).
Proof. now destruct (zip_fst_snd X y Hlen) as [-> _]. Qed.

Lemma fitted_features : features_below nf root.
Proof.
  eapply built_features; [apply fitted_rect | apply fitted_nonempty | apply fitted_build].
Qed.

Lemma fitted_leaf_mean (p : list dir) (v : Q) :
  leaf_at root p = Some v →
  assigned root p X y ≠ [] ∧
  v = (sum (assigned root p X y) / len (assigned root p X y))%Q.
Proof.
  intros Hp. unfold assigned.
  eapply built_leaf_mean;
    [apply fitted_rect | apply fitted_nonempty | apply fitted_build | exact Hp].
Qed.

Lemma fitted_leaves_bounds (lo hi : Q) :
  Forall (fun v => lo <= v ∧ v <= hi)%Q y →
  Forall (fun v => lo <= v ∧ v <= hi)%Q (leaves root).
Proof.
  intros Hb.
  eapply built_bounds;
    [apply fitted_rect | apply fitted_nonempty | apply fitted_build |].
  now destruct (zip_fst_snd X y Hlen) as [_ ->].
Qed.

Lemma fitted_predict (x : list Z) :
  length x = nf →
  ∃ v p, SimpleDecisionTree.predict fitted [x] = Ok [v]
         ∧ reaches x root p = true ∧ leaf_at root p = Some v.
Proof.
  intros Hx. destruct (traverse_reaches nf x root fitted_features) as (p & v & H1 & H2 & H3);
    [lia|].
  exists v, p. unfold SimpleDecisionTree.predict. rewrite Hroot. simpl.
  rewrite H1. auto.
Qed.

End tree_facts.

(** ** The random forest *)

Section forest.

Variables (raw : nat → Z) (X : list (list Z)) (y : list Q) (nf : nat).
Hypothesis Hlen : length X = length y.
Hypothesis Hrect : rectangular nf X.

Lemma fit_loop_trees (l : list nat) (self forest : SimpleRandomForest.t) :
  foldM_r (SimpleRandomForest.fit_one raw X y) self l = Ok forest →
  ∃ ts, SimpleRandomForest.trees forest = SimpleRandomForest.trees self ++ ts
        ∧ Forall2 (bootstrap_tree raw X y (SimpleRandomForest.max_depth self)) l ts.
Proof.
  revert self. induction l as [|tree_no l IH]; intros self H; simpl in H.
  - injection H as <-. exists []. rewrite app_nil_r. split; [reflexivity|constructor].
  - inv_bind H. unfold SimpleRandomForest.fit_one in Ha.
    inv_bind Ha. inv_bind Ha. inv_bind Ha. inv_bind Ha. injection Ha as <-.
    destruct (IH _ H) as (ts & Hts & Hall). simpl in Hts, Hall.
    exists (a3 :: ts). split.
    + rewrite Hts, <- app_assoc. reflexivity.
    + constructor; [|assumption]. exists a0, a1, a2. auto.
Qed.

Lemma getitems_from {A} (l : list A) (idxs : list nat) (out : list A) :
  mapM_r (getitem l) idxs = Ok out →
  length out = length idxs ∧ Forall (fun a => In a l) out.
Proof.
  intros H. split; [eapply mapM_r_length, H|].
  apply mapM_r_inv in H. induction H as [|i a idxs out Hi _ IH]; constructor.
  - apply getitem_inv in Hi. apply list_elem_of_In. eapply list_elem_of_lookup_2, Hi.
  - assumption.
Qed.

(** What one tree of the forest predicts, and where it comes from. *)
Lemma bootstrap_tree_predicts (d : Z) (tree_no : nat)
    (tree : SimpleDecisionTree.t) (x : list Z) :
  bootstrap_tree raw X y d tree_no tree → length x = nf →
  ∃ ys v,
    bootstrap_targets raw X y tree_no = Ok ys ∧ ys ≠ [] ∧
    Forall (fun t => In t y) ys ∧
    (p ← SimpleDecisionTree.predict tree [x]; getitem p 0) = Ok v ∧
    ∀ lo hi, Forall (fun t => lo <= t ∧ t <= hi)%Q ys → (lo <= v ∧ v <= hi)%Q.
Proof.
  intros (idxs & Xs & ys & Hidx & HXs & Hys & Hfit) Hx.
  destruct (getitems_from X idxs Xs HXs) as [HlX HinX].
  destruct (getitems_from y idxs ys Hys) as [Hly Hiny].
  assert (Hlen' : length Xs = length ys) by congruence.
  assert (Hrect' : rectangular nf Xs).
  { unfold rectangular in *. rewrite List.Forall_forall in *. auto. }
  assert (Hroot : ∃ root, SimpleDecisionTree.tree tree = Some root).
  { unfold SimpleDecisionTree.fit in Hfit. inv_bind Hfit. injection Hfit as <-.
    simpl. eauto. }
  destruct Hroot as [root Hroot].
  pose proof (fitted_nonempty _ _ _ Xs ys Hlen' Hfit Hroot) as Hne.
  destruct (fitted_predict _ _ _ Xs ys nf Hlen' Hrect' Hfit Hroot x Hx)
    as (v & p & Hpred & _ & Hleaf).
  exists ys, v.
  split; [unfold bootstrap_targets; now rewrite Hidx, bind_Ok|].
  split; [intros E; subst ys; apply Hne; destruct Xs; [reflexivity|discriminate]|].
  split; [assumption|]. split; [now rewrite Hpred|].
  intros lo hi Hb.
  pose proof (fitted_leaves_bounds _ _ _ Xs ys nf Hlen' Hrect' Hfit Hroot lo hi Hb)
    as Hleaves.
  rewrite List.Forall_forall in Hleaves. apply Hleaves. eapply leaf_at_leaves, Hleaf.
Qed.

(** The predictions of the trees of a forest, with the bootstrap samples
    of the trees. *)
Lemma forest_trees_predict (d : Z) (l : list nat)
    (ts : list SimpleDecisionTree.t) (x : list Z) :
  Forall2 (bootstrap_tree raw X y d) l ts → length x = nf →
  ∃ samples ps,
    mapM_r (bootstrap_targets raw X y) l = Ok samples ∧
    mapM_r (fun tree => p ← SimpleDecisionTree.predict tree [x]; getitem p 0) ts = Ok ps ∧
    length ps = length ts ∧
    Forall (fun ys => ys ≠ []) samples ∧ length samples = length l ∧
    Forall (fun t => In t y) (concat samples) ∧
    ∀ lo hi, Forall (fun t => lo <= t ∧ t <= hi)%Q (concat samples) →
             Forall (fun v => lo <= v ∧ v <= hi)%Q ps.
Proof.
  intros Hall Hx. induction Hall as [|tree_no tree l ts Htree _ IH].
  - exists [], []. simpl. repeat (split; [first [reflexivity|constructor]|]).
    intros lo hi _. constructor.
  - destruct IH as (samples & ps & H1 & H2 & H3 & H4 & H5 & H6 & H7).
    destruct (bootstrap_tree_predicts d tree_no tree x Htree Hx)
      as (ys & v & Hys & Hne & Hin & Hv & Hb).
    exists (ys :: samples), (v :: ps). simpl.
    rewrite Hys, H1, Hv, H2. simpl.
    split; [reflexivity|]. split; [reflexivity|]. split; [congruence|].
    split; [constructor; assumption|]. split; [congruence|].
    split; [apply Forall_app; split; assumption|].
    intros lo hi Hall'. apply Forall_app in Hall'. destruct Hall' as [Ha Hb'].
    constructor; [now apply Hb | now apply H7].
Qed.

End forest.

Lemma predict_single (tree : SimpleDecisionTree.t) (x : list Z) (v : Q) :
  (p ← SimpleDecisionTree.predict tree [x]; getitem p 0) = Ok v →
  SimpleDecisionTree.predict tree [x] = Ok [v].
Proof.
  intros H. inv_bind H. rewrite Ha.
  pose proof (mapM_r_length (fun x => SimpleDecisionTree._traverse_tree x
                (default (Leaf 0) (SimpleDecisionTree.tree tree))) [x] a) as Hl.
  unfold SimpleDecisionTree.predict in Ha.
  destruct (SimpleDecisionTree.tree tree); [|discriminate].
  specialize (Hl Ha). destruct a as [|q [|q' a]]; try discriminate.
  now injection H as <-.
Qed.

(** What a fitted forest predicts for one row. *)
Lemma forest_predicts (raw : nat → Z) (n d : Z) (X : list (list Z)) (y : list Q)
    (nf : nat) (forest : SimpleRandomForest.t) (x : list Z) :
  length X = length y → rectangular nf X → 0 < n →
  SimpleRandomForest.fit raw (SimpleRandomForest.__init__ n d) X y = Ok forest →
  length x = nf →
  ∃ ps seen,
    SimpleRandomForest.tree_predictions forest x = Ok ps ∧
    Z.of_nat (length ps) = n ∧
    Forall2 (fun tree p => SimpleDecisionTree.predict tree [x] = Ok [p])
            (SimpleRandomForest.trees forest) ps ∧
    SimpleRandomForest.predict forest [x] = Ok [(sum ps / len ps)%Q] ∧
    seen_targets raw X y n = Ok seen ∧ seen ≠ [] ∧
    Forall (fun t => In t y) seen ∧
    ∀ lo hi, Forall (fun t => lo <= t ∧ t <= hi)%Q seen →
             (lo <= sum ps / len ps ∧ sum ps / len ps <= hi)%Q.
Proof.
  intros Hlen Hrect Hn Hfit Hx. unfold SimpleRandomForest.fit in Hfit.
  destruct (fit_loop_trees raw X y _ _ _ Hfit) as (ts & Hts & Hall).
  simpl in Hts, Hall.
  destruct (forest_trees_predict raw X y nf Hrect d _ ts x Hall Hx)
    as (samples & ps & H1 & H2 & H3 & H4 & H5 & H6 & H7).
  assert (Hlts : length ts = Z.to_nat n).
  { apply Forall2_length in Hall. unfold range in Hall.
    now rewrite length_seq in Hall. }
  assert (Hps : ps ≠ []).
  { intros E. subst ps. simpl in H3. lia. }
  assert (Hsamples : concat samples ≠ []).
  { destruct samples as [|ys samples]; [simpl in H5; unfold range in H5;
      rewrite length_seq in H5; lia|].
    inversion H4; subst. simpl. destruct ys; [congruence|discriminate]. }
  exists ps, (concat samples).
  split; [unfold SimpleRandomForest.tree_predictions; now rewrite Hts|].
  split; [lia|].
  split.
  { rewrite Hts. clear -H2. apply mapM_r_inv in H2.
    induction H2 as [|tree p ts ps Hp _ IH]; constructor; [|assumption].
    now apply predict_single. }
  split.
  { unfold SimpleRandomForest.predict, SimpleRandomForest.tree_predictions.
    rewrite Hts. simpl. rewrite H2. simpl. now rewrite truediv_len. }
  split; [unfold seen_targets; now rewrite H1|].
  split; [assumption|]. split; [assumption|].
  intros lo hi Hb. apply mean_bounds; auto.
Qed.

(** ** The claims on the decision tree and on the random forest *)





(** ** The decision tree and the forest over binary64 *)

Lemma list_comp_sublist (cond : nat → result bool) (idxs out : list nat) :
  list_comp cond (fun i => Ok i) idxs = Ok out → sublist out idxs.
Proof.
  revert out. induction idxs as [|i idxs IH]; simpl; intros out H.
  - injection H as <-. constructor.
  - inv_bind H. destruct a.
    + inv_bind H. injection H as <-. constructor. now apply IH.
    + constructor. now apply IH.
Qed.

(** Reading a list at increasing indices gives a sublist of it. *)
Lemma getitems_sublist {A} (l : list A) (n : nat) :
  ∀ (k : nat) (idxs : list nat) (out : list A),
    sublist idxs (seq k n) → mapM_r (getitem l) idxs = Ok out →
    sublist out (drop k l).
Proof.
  induction n as [|n IH]; intros k idxs out Hsub Hout.
  - apply sublist_nil_r in Hsub. subst idxs. injection Hout as <-.
    apply sublist_nil_l.
  - simpl in Hsub. apply sublist_cons_r in Hsub.
    assert (Htail : sublist (drop (S k) l) (drop k l)).
    { replace (S k) with (k + 1)%nat by lia.
      rewrite <- (drop_drop l 1 k). apply sublist_drop. }
    destruct Hsub as [Hsub | (idxs' & -> & Hsub)].
    + etransitivity; [eapply IH; eassumption | exact Htail].
    + simpl in Hout. inv_bind Hout. inv_bind Hout. injection Hout as <-.
      apply getitem_inv in Ha.
      rewrite (drop_S l a k Ha). constructor. eapply IH; eassumption.
Qed.

Lemma selected_sublist {A} (X : list (list Z)) (y : list A) (f : nat)
    (keep : Z → bool) (idxs : list nat) (out : list A) :
  SimpleDecisionTree.select_indices X f keep = Ok idxs →
  mapM_r (getitem y) idxs = Ok out → sublist out y.
Proof.
  unfold SimpleDecisionTree.select_indices. intros Hidx Hout.
  apply list_comp_sublist in Hidx.
  apply (getitems_sublist y _ 0 idxs out Hidx Hout).
Qed.

Lemma truediv64_len_nil (a : float) :
  binary64.truediv a (binary64.len (@nil float)) = Raise ZeroDivisionError.
Proof. reflexivity. Qed.

Lemma mean_leaf64_inv (y : list float) (t : binary64.node) :
  binary64.SimpleDecisionTree.mean_leaf y = Ok t →
  ∃ v, t = binary64.Leaf v ∧ mean_of y v.
Proof.
  unfold binary64.SimpleDecisionTree.mean_leaf. intros H. inv_bind H.
  injection H as <-. exists a. split; [reflexivity|]. split; [|assumption].
  intros ->. rewrite truediv64_len_nil in Ha. discriminate.
Qed.

(** Every leaf of a tree that [_build_tree] returns holds the mean of a
    non-empty sublist of the targets. *)
Lemma build64_leaves (mss : Z) (rem : nat) :
  ∀ X y t,
    binary64.SimpleDecisionTree._build_tree_at rem mss X y = Ok t →
    Forall (fun v => ∃ ys, sublist ys y ∧ mean_of ys v) (leaves64 t).
Proof.
  induction rem as [|rem IH]; intros X y t Ht; simpl in Ht.
  - destruct (mean_leaf64_inv y t Ht) as (v & -> & Hv).
    constructor; [|constructor]. exists y. split; [reflexivity|assumption].
  - assert (Hleaf : binary64.SimpleDecisionTree.mean_leaf y = Ok t →
              Forall (fun v => ∃ ys, sublist ys y ∧ mean_of ys v) (leaves64 t)).
    { intros Hl. destruct (mean_leaf64_inv y t Hl) as (v & -> & Hv).
      constructor; [|constructor]. exists y. split; [reflexivity|assumption]. }
    destruct (Z.of_nat (length y) <? mss); [now apply Hleaf|].
    inv_bind Ht. inv_bind Ht. destruct (snd a0) as [[bf bs]|]; [|now apply Hleaf].
    inv_bind Ht. inv_bind Ht. inv_bind Ht. inv_bind Ht. inv_bind Ht. inv_bind Ht.
    inv_bind Ht. inv_bind Ht. injection Ht as <-.
    pose proof (selected_sublist X y bf _ a1 a4 Ha1 Ha4) as Hl.
    pose proof (selected_sublist X y bf _ a2 a6 Ha2 Ha6) as Hr.
    apply IH in Ha7, Ha8. simpl. apply Forall_app. split.
    + eapply Forall_impl; [exact Ha7|]. intros v (ys & Hys & Hv).
      exists ys. split; [etransitivity; eassumption | assumption].
    + eapply Forall_impl; [exact Ha8|]. intros v (ys & Hys & Hv).
      exists ys. split; [etransitivity; eassumption | assumption].
Qed.

Lemma traverse64_leaf (x : list Z) (t : binary64.node) (v : float) :
  binary64.SimpleDecisionTree._traverse_tree x t = Ok v → In v (leaves64 t).
Proof.
  induction t as [value|f s tl IHl tr IHr]; simpl; intros H.
  - injection H as <-. now left.
  - inv_bind H. apply in_or_app. destruct (a <=? s); [left|right]; auto.
Qed.

Lemma fit64_root (self fitted : binary64.SimpleDecisionTree.t)
    (X : list (list Z)) (y : list float) :
  binary64.SimpleDecisionTree.fit self X y = Ok fitted →
  ∃ root, binary64.SimpleDecisionTree.tree fitted = Some root ∧
          Forall (fun v => ∃ ys, sublist ys y ∧ mean_of ys v) (leaves64 root).
Proof.
  unfold binary64.SimpleDecisionTree.fit, binary64.SimpleDecisionTree._build_tree.
  intros H. inv_bind H. injection H as <-. exists a. split; [reflexivity|].
  eapply build64_leaves, Ha.
Qed.

Lemma predict64_leaf (fitted : binary64.SimpleDecisionTree.t) (root : binary64.node)
    (x : list Z) (v : float) :
  binary64.SimpleDecisionTree.tree fitted = Some root →
  binary64.SimpleDecisionTree.predict fitted [x] = Ok [v] →
  In v (leaves64 root).
Proof.
  unfold binary64.SimpleDecisionTree.predict. intros -> H. simpl in H.
  inv_bind H. injection H as <-. eapply traverse64_leaf, Ha.
Qed.

Lemma predict64_single (tree : binary64.SimpleDecisionTree.t) (x : list Z) (p : float) :
  (ps ← binary64.SimpleDecisionTree.predict tree [x]; getitem ps 0) = Ok p →
  binary64.SimpleDecisionTree.predict tree [x] = Ok [p].
Proof.
  intros H. inv_bind H. rewrite Ha.
  unfold binary64.SimpleDecisionTree.predict in Ha. simpl in Ha.
  inv_bind Ha. injection Ha as <-. now injection H as <-.
Qed.

(** The trees that the loop of [SimpleRandomForest.fit] adds: each is
    fitted on rows and targets read from the training set. *)
Lemma fit64_loop_trees (raw : nat → Z) (X : list (list Z)) (y : list float)
    (l : list nat) (self forest : binary64.SimpleRandomForest.t) :
  foldM_r (binary64.SimpleRandomForest.fit_one raw X y) self l = Ok forest →
  ∃ ts,
    binary64.SimpleRandomForest.trees forest
      = binary64.SimpleRandomForest.trees self ++ ts ∧
    length ts = length l ∧
    Forall (fun tree => ∃ Xs ys,
              Forall (fun t => In t y) ys ∧
              binary64.SimpleDecisionTree.fit
                (binary64.SimpleDecisionTree.__init__
                   (binary64.SimpleRandomForest.max_depth self) 2) Xs ys
              = Ok tree) ts.
Proof.
  revert self. induction l as [|tree_no l IH]; intros self H; simpl in H.
  - injection H as <-. exists []. rewrite app_nil_r. repeat split. constructor.
  - inv_bind H. unfold binary64.SimpleRandomForest.fit_one in Ha.
    inv_bind Ha. inv_bind Ha. inv_bind Ha. inv_bind Ha. injection Ha as <-.
    destruct (IH _ H) as (ts & Hts & Hl & Hall). simpl in Hts, Hall.
    exists (a3 :: ts). split; [|split].
    + rewrite Hts, <- app_assoc. reflexivity.
    + simpl. now rewrite Hl.
    + constructor; [|assumption]. exists a1, a2. split; [|assumption].
      eapply getitems_from, Ha2.
Qed.

(** What a fitted forest returns for one row. *)
Lemma forest64_predicts (raw : nat → Z) (n d : Z) (X : list (list Z)) (y : list float)
    (forest : binary64.SimpleRandomForest.t) (x : list Z) (w : float) :
  binary64.SimpleRandomForest.fit raw (binary64.SimpleRandomForest.__init__ n d) X y
    = Ok forest →
  binary64.SimpleRandomForest.predict forest [x] = Ok [w] →
  ∃ ps,
    Forall2 (fun tree p =>
               binary64.SimpleDecisionTree.predict tree [x] = Ok [p] ∧
               ∃ ys, Forall (fun t => In t y) ys ∧ mean_of ys p)
            (binary64.SimpleRandomForest.trees forest) ps ∧
    length ps = Z.to_nat n ∧
    mean_of ps w.
Proof.
  intros Hfit Hpred. unfold binary64.SimpleRandomForest.fit in Hfit.
  destruct (fit64_loop_trees raw X y _ _ _ Hfit) as (ts & Hts & Hl & Hall).
  simpl in Hts, Hl, Hall. unfold range in Hl. rewrite length_seq in Hl.
  unfold binary64.SimpleRandomForest.predict in Hpred. simpl in Hpred.
  inv_bind Hpred. inv_bind Ha. injection Ha as <-. simpl in Hpred.
  inv_bind Hpred. injection Hpred as <-.
  unfold binary64.SimpleRandomForest.tree_predictions in Ha0.
  rewrite Hts in *. clear Hts.
  pose proof (mapM_r_length _ _ _ Ha0) as Hlen.
  exists a0. split; [|split].
  - apply mapM_r_inv in Ha0. clear -Ha0 Hall.
    induction Ha0 as [|tree p ts ps Hp _ IH]; [constructor|].
    inversion Hall as [|? ? (Xs & ys & Hys & Hfit) Hall']; subst.
    constructor; [|now apply IH].
    apply predict64_single in Hp. split; [assumption|].
    destruct (fit64_root _ _ _ _ Hfit) as (root & Hroot & Hleaves).
    pose proof (predict64_leaf tree root x p Hroot Hp) as Hin.
    rewrite List.Forall_forall in Hleaves.
    destruct (Hleaves p Hin) as (ys' & Hsub & Hmean).
    exists ys'. split; [|assumption].
    rewrite List.Forall_forall in *. intros t Ht. apply Hys.
    apply list_elem_of_In. eapply elem_of_sublist; [|exact Hsub].
    now apply list_elem_of_In.
  - congruence.
  - split; [|assumption]. intros ->. rewrite truediv64_len_nil in Ha. discriminate.
Qed.

(** C10, as amended.  For every tree that [SimpleDecisionTree.fit] returns,
    every leaf value is the mean [sum(ys) / len(ys)], as binary64 computes
    it, of a non-empty sublist [ys] of [y], and every prediction is the
    value of a leaf; every prediction of a forest that
    [SimpleRandomForest.fit] returns is the mean, computed in the same way,
    of the predictions of its [n] trees, each of which is the mean of a
    non-empty list of targets of [y]. *)
Theorem predictions_are_means_of_targets
    (X : list (list Z)) (y : list float) (x : list Z) :
  (∀ (self fitted : binary64.SimpleDecisionTree.t) (v : float),
     binary64.SimpleDecisionTree.fit self X y = Ok fitted →
     binary64.SimpleDecisionTree.predict fitted [x] = Ok [v] →
     ∃ root,
       binary64.SimpleDecisionTree.tree fitted = Some root ∧
       Forall (fun u => ∃ ys, sublist ys y ∧ mean_of ys u) (leaves64 root) ∧
       In v (leaves64 root)) ∧
  (∀ (raw : nat → Z) (n d : Z) (forest : binary64.SimpleRandomForest.t) (w : float),
     binary64.SimpleRandomForest.fit raw (binary64.SimpleRandomForest.__init__ n d) X y
       = Ok forest →
     binary64.SimpleRandomForest.predict forest [x] = Ok [w] →
     ∃ ps,
       Forall2 (fun tree p =>
                  binary64.SimpleDecisionTree.predict tree [x] = Ok [p] ∧
                  ∃ ys, Forall (fun t => In t y) ys ∧ mean_of ys p)
               (binary64.SimpleRandomForest.trees forest) ps ∧
       length ps = Z.to_nat n ∧
       mean_of ps w).
Proof.
  split.
  - intros self fitted v Hfit Hpred.
    destruct (fit64_root _ _ _ _ Hfit) as (root & Hroot & Hleaves).
    exists root. split; [assumption|]. split; [assumption|].
    eapply predict64_leaf; eassumption.
  - intros raw n d forest w Hforest Hw.
    eapply forest64_predicts; eassumption.
Qed.

(** The tree and the forest of three trees fitted on the example set, at
    the row [[3; 7]]. *)
Lemma predictions_are_means_of_targets_witness :
  (∃ root,
     binary64.SimpleDecisionTree.tree example64.tree = Some root ∧
     Forall (fun u => ∃ ys, sublist ys example64.y ∧ mean_of ys u) (leaves64 root) ∧
     In 12%float (leaves64 root)) ∧
  (∃ ps,
     Forall2 (fun tree p =>
                binary64.SimpleDecisionTree.predict tree [[3; 7]] = Ok [p] ∧
                ∃ ys, Forall (fun t => In t example64.y) ys ∧ mean_of ys p)
             (binary64.SimpleRandomForest.trees example64.forest) ps ∧
     length ps = Z.to_nat 3 ∧
     mean_of ps 12%float).
Proof.
  destruct (predictions_are_means_of_targets example.X example64.y [3; 7])
    as [Htree Hforest].
  split.
  - apply (Htree (binary64.SimpleDecisionTree.__init__ 10 2) example64.tree).
    + vm_compute. reflexivity.
    + vm_compute. reflexivity.
  - apply (Hforest example.raw 3 8 example64.forest).
    + vm_compute. reflexivity.
    + vm_compute. reflexivity.
Defined.

(** C10 as stated fails in binary64: on three flights with the price 0.1,
    the tree is one leaf that holds [(0.1 + 0.1 + 0.1) / 3], the next float
    above 0.1, so that the prediction of the tree, and that of a forest of
    one such tree, is greater than every target, and so than [max(y)]. *)
Lemma rounded_mean_exceeds_max_target :
  ∃ fitted forest v w,
    binary64.SimpleDecisionTree.fit (binary64.SimpleDecisionTree.__init__ 10 2)
      example64.X_same example64.y_tenths = Ok fitted ∧
    binary64.SimpleDecisionTree.tree fitted = Some (binary64.Leaf v) ∧
    binary64.SimpleDecisionTree.predict fitted [[0]] = Ok [v] ∧
    binary64.SimpleRandomForest.fit example.raw
      (binary64.SimpleRandomForest.__init__ 1 10)
      example64.X_same example64.y_tenths = Ok forest ∧
    binary64.SimpleRandomForest.predict forest [[0]] = Ok [w] ∧
    Forall (fun t => PrimFloat.ltb t v = true ∧ PrimFloat.ltb t w = true)
           example64.y_tenths.
Proof.
  do 4 eexists.
  split; [vm_compute; reflexivity|]. split; [reflexivity|].
  split; [vm_compute; reflexivity|]. split; [vm_compute; reflexivity|].
  split; [vm_compute; reflexivity|].
  repeat constructor.
Qed.

(** ** Linear regression: reading the rows *)

Lemma mapM_r_total {A B} (f : A → result B) (P : B → Prop) (l : list A) :
  (∀ a, In a l → ∃ b, f a = Ok b ∧ P b) →
  ∃ bs, mapM_r f l = Ok bs ∧ length bs = length l ∧ Forall P bs.
Proof.
  induction l as [|a l IH]; intros H; simpl.
  - exists []. auto.
  - destruct (H a) as (b & Hb & HP); [now left|].
    destruct IH as (bs & Hbs & Hl & HF); [intros a' Ha'; apply H; now right|].
    exists (b :: bs). rewrite Hb, Hbs. simpl. auto.
Qed.

Lemma mapM_r_range {B} (f : nat → result B) (P : B → Prop) (n : nat) :
  (∀ i, (i < n)%nat → ∃ b, f i = Ok b ∧ P b) →
  ∃ bs, mapM_r f (seq 0 n) = Ok bs ∧ length bs = n ∧ Forall P bs.
Proof.
  intros H. destruct (mapM_r_total f P (seq 0 n)) as (bs & H1 & H2 & H3).
  - intros i Hi. apply in_seq in Hi. apply H. lia.
  - exists bs. rewrite length_seq in H2. auto.
Qed.

Lemma getitem_lt {A} (l : list A) (i : nat) :
  (i < length l)%nat → ∃ a, getitem l i = Ok a ∧ In a l.
Proof.
  intros Hi. destruct (lookup_lt_is_Some_2 l i Hi) as [a Ha].
  exists a. split; [now apply getitem_lookup|].
  apply list_elem_of_In. eapply list_elem_of_lookup_2, Ha.
Qed.

Import train_simple.

Section linear_fit.

Variable nf : nat.

Lemma entry_ok (rows : list (list Q)) (i j : nat) :
  Forall (fun row => length row = nf) rows →
  (i < length rows)%nat → (j < nf)%nat →
  ∃ row v, getitem rows i = Ok row ∧ getitem row j = Ok v.
Proof.
  intros Hrows Hi Hj. destruct (getitem_lt rows i Hi) as (row & Hrow & Hin).
  rewrite List.Forall_forall in Hrows. specialize (Hrows row Hin).
  destruct (getitem_lt row j) as (v & Hv & _); [lia|]. eauto.
Qed.

Lemma linear_ok (weights row : list Q) (bias : Q) :
  length weights = nf → length row = nf →
  ∃ p, LinearRegression.linear weights bias row (seq 0 nf) = Ok p.
Proof.
  intros Hw Hr. unfold LinearRegression.linear.
  destruct (mapM_r_range
    (fun j => w ← getitem weights j; v ← getitem row j; Ok (w * v)%Q)
    (fun _ => True) nf) as (t & -> & _); [|eauto].
  intros j Hj.
  destruct (getitem_lt weights j) as (w & -> & _); [lia|].
  destruct (getitem_lt row j) as (v & -> & _); [lia|].
  rewrite !bind_Ok. eauto.
Qed.

End linear_fit.

Lemma floor_sqrt_positive : @sqrt_positive decimal_builtins.
Proof.
  intros v Hv. simpl. unfold floor_sqrt.
  assert (E : Qlt_bool v 0 = false).
  { apply not_true_is_false. intros E. apply Qlt_bool_iff in E. lra. }
  rewrite E. eexists. split; [reflexivity|].
  unfold Qeq. simpl. destruct v as [num den]. unfold Qlt in Hv. simpl in *.
  assert (0 < Z.sqrt (num * Z.pos den)); [apply Z.sqrt_pos|]; nia.
Qed.

(** ** [fit] on the empty sample set *)



(** ** The serving path *)

Section serving.

Context `{PyBuiltins}.

Implicit Types (MODEL_DATA : api_simple.model) (flight_data : record).

Lemma encode_inv MODEL_DATA flight_data (features : list Q) :
  api_simple.encode MODEL_DATA flight_data = Ok features →
  ∃ f2 f7 f8,
    features =
      [api_simple.encode_category (api_simple.get flight_data "airline" "")
         (api_simple.airline_map MODEL_DATA);
       api_simple.encode_category (api_simple.get flight_data "source_city" "")
         (api_simple.source_map MODEL_DATA);
       f2;
       inject_Z (api_simple.extract_hour (api_simple.get flight_data "departure_time" ""));
       inject_Z (api_simple.extract_hour (api_simple.get flight_data "arrival_time" ""));
       api_simple.encode_category (api_simple.get flight_data "destinatin" "")
         (api_simple.dest_map MODEL_DATA);
       api_simple.encode_category (api_simple.get flight_data "class" "Economy")
         (api_simple.class_map MODEL_DATA);
       f7; f8].
Proof.
  unfold api_simple.encode. intros Henc.
  inv_bind Henc. inv_bind Henc. inv_bind Henc. injection Henc as <-. eauto.
Qed.

Lemma encode_category_unknown (value : string) (mapping : gmap string Q) :
  mapping !! value = None → api_simple.encode_category value mapping = (-1)%Q.
Proof. unfold api_simple.encode_category. now intros ->. Qed.

Lemma any_missing_In (features : list Q) (f : Q) :
  In f features → (f == -1)%Q → api_simple.any_missing features = true.
Proof.
  intros Hin Hf. unfold api_simple.any_missing. apply existsb_exists.
  exists f. split; [assumption|]. now apply Qeq_bool_iff.
Qed.

Lemma predict_price_missing MODEL_DATA flight_data (features : list Q) :
  api_simple.encode MODEL_DATA flight_data = Ok features →
  api_simple.any_missing features = true →
  api_simple.predict_price MODEL_DATA flight_data
  = (None, Some "Unknown airline, city, or class").
Proof.
  intros Henc Hany. unfold api_simple.predict_price.
  now rewrite Henc, bind_Ok, Hany.
Qed.

Lemma predict_price_raise MODEL_DATA flight_data (e : exn) :
  api_simple.encode MODEL_DATA flight_data = Raise e →
  api_simple.predict_price MODEL_DATA flight_data = (None, Some (str_exn e)).
Proof. intros Henc. unfold api_simple.predict_price. now rewrite Henc. Qed.

Lemma infer_nonneg MODEL_DATA (features : list Q) (p : Q) :
  api_simple.infer MODEL_DATA features = Ok p → (0 <= p)%Q.
Proof.
  unfold api_simple.infer. intros Hp. inv_bind Hp. inv_bind Hp.
  injection Hp as <-. apply max0_nonneg.
Qed.

Lemma predict_price_nonneg MODEL_DATA flight_data (price : Q) :
  fst (api_simple.predict_price MODEL_DATA flight_data) = Some price →
  (0 <= price)%Q.
Proof.
  unfold api_simple.predict_price.
  destruct (api_simple.encode MODEL_DATA flight_data) as [features|e];
    [|discriminate]. rewrite bind_Ok.
  destruct (api_simple.any_missing features); [discriminate|].
  destruct (api_simple.infer MODEL_DATA features) as [p|e] eqn:Hp; [|discriminate].
  simpl. intros [= <-]. eapply infer_nonneg, Hp.
Qed.

Lemma predict_row_nonneg (model : LinearRegression.t) (row : list Q) (p : Q) :
  LinearRegression.predict_row model row = Ok p → (0 <= p)%Q.
Proof.
  unfold LinearRegression.predict_row. intros Hp. inv_bind Hp. inv_bind Hp.
  injection Hp as <-. apply max0_nonneg.
Qed.

End serving.

(** C2 (the code differs).  [predict_price] returns the error variant and
    no price when the value of the request under [airline], [source_city]
    or [class] is not a key of its category map.  For the destination it
    looks up the entry under [destinatin] and never the field
    [destination_city]: on the example artifact, whose destination map
    has no key [Atlantis], the request that names [Atlantis] under
    [destination_city] (and [Delhi] under [destinatin]) is priced 6020 by
    both serving modules, and the error variant is returned for an unknown
    value under [destinatin] instead. *)
Theorem unknown_destination_city_is_priced :
  (∀ (B : PyBuiltins) MODEL_DATA flight_data,
     api_simple.airline_map MODEL_DATA !! api_simple.get flight_data "airline" "" = None ∨
     api_simple.source_map MODEL_DATA !! api_simple.get flight_data "source_city" "" = None ∨
     api_simple.class_map MODEL_DATA !! api_simple.get flight_data "class" "Economy" = None ∨
     api_simple.dest_map MODEL_DATA !! api_simple.get flight_data "destinatin" "" = None →
     ∃ msg,
       api_simple.predict_price MODEL_DATA flight_data = (None, Some msg) ∧
       api.predict_price MODEL_DATA flight_data = (None, Some msg) ∧
       (is_ok (api_simple.encode MODEL_DATA flight_data) = true →
        msg = "Unknown airline, city, or class")) ∧
  api_simple.dest_map example.model !! "Atlantis" = None ∧
  (<["destination_city" := "Atlantis"]> example.request_misspelled : record)
    !! "destination_city" = Some "Atlantis" ∧
  api_simple.predict_price example.model
    (<["destination_city" := "Atlantis"]> example.request_misspelled)
    = (Some 6020%Q, None) ∧
  api.predict_price example.model
    (<["destination_city" := "Atlantis"]> example.request_misspelled)
    = (Some 6020%Q, None) ∧
  api_simple.predict_price example.model
    (<["destinatin" := "Atlantis"]> example.request_misspelled)
    = (None, Some "Unknown airline, city, or class").
Proof.
  split; [|split; [|split; [|split; [|split]]]]; try (vm_compute; reflexivity).
  intros B MODEL_DATA flight_data Hmiss.
  destruct (api_simple.encode MODEL_DATA flight_data) as [features|e] eqn:Henc.
  - exists "Unknown airline, city, or class".
    assert (Hany : api_simple.any_missing features = true).
    { destruct (encode_inv _ _ _ Henc) as (f2 & f7 & f8 & ->).
      destruct Hmiss as [Hm|[Hm|[Hm|Hm]]];
        apply encode_category_unknown in Hm;
        apply (any_missing_In _ (-1)%Q); try reflexivity;
        rewrite Hm; simpl; tauto. }
    split; [|split]; [now apply (predict_price_missing _ _ features)..|reflexivity].
  - exists (str_exn e).
    split; [|split]; [now apply predict_price_raise..|discriminate].
Qed.

(** C8. Every price that [predict_price] returns and every price that
    [LinearRegression.predict] returns is at least zero. *)
Theorem predicted_price_is_nonnegative `{PyBuiltins}
    (MODEL_DATA : api_simple.model) (flight_data : record) (price : Q)
    (model : LinearRegression.t) (X : list (list Q)) (prices : list Q) :
  fst (api_simple.predict_price MODEL_DATA flight_data) = Some price →
  LinearRegression.predict model X = Ok prices →
  (0 <= price)%Q ∧ Forall (fun p => 0 <= p)%Q prices ∧ length prices = length X.
Proof.
  intros Hprice Hprices. split; [eapply predict_price_nonneg, Hprice|].
  split; [|eapply mapM_r_length, Hprices].
  unfold LinearRegression.predict in Hprices. apply mapM_r_inv in Hprices.
  induction Hprices as [|row p X' ps Hp _ IH]; constructor; [|assumption].
  eapply predict_row_nonneg, Hp.
Qed.

Lemma predicted_price_is_nonnegative_witness :
  (0 <= 6020)%Q ∧ Forall (fun p => 0 <= p)%Q [6020; 0]%Q ∧
  length [6020; 0]%Q = length [[0; 0; 0; 10; 12; 0; 0; 150; 5]; [0; 0; 0; 0; 0; 0; 0; 0; 100]]%Q.
Proof.
  apply (@predicted_price_is_nonnegative decimal_builtins
           example.model example.request_misspelled 6020%Q example.linear
           [[0; 0; 0; 10; 12; 0; 0; 150; 5]; [0; 0; 0; 0; 0; 0; 0; 0; 100]]%Q
           [6020; 0]%Q).
  - vm_compute. reflexivity.
  - vm_compute. reflexivity.
Defined.

(** C9. When the feature list of a request is built and one of its nine
    entries equals -1, whatever the entry (a category code, the stops, an
    hour, the duration or the days left), [predict_price] returns the error
    variant with the message "Unknown airline, city, or class" and no
    price. *)
Theorem sentinel_in_any_feature_is_rejected `{PyBuiltins}
    (MODEL_DATA : api_simple.model) (flight_data : record)
    (features : list Q) (f : Q) :
  api_simple.encode MODEL_DATA flight_data = Ok features →
  In f features → (f == -1)%Q →
  length features = 9%nat ∧
  api_simple.predict_price MODEL_DATA flight_data
    = (None, Some "Unknown airline, city, or class") ∧
  api.predict_price MODEL_DATA flight_data
    = (None, Some "Unknown airline, city, or class").
Proof.
  intros Henc Hin Hf.
  assert (Hany : api_simple.any_missing features = true)
    by now apply (any_missing_In features f).
  split; [|split]; [|now apply (predict_price_missing _ _ features)..].
  destruct (encode_inv _ _ _ Henc) as (f2 & f7 & f8 & ->). reflexivity.
Qed.

(** The request has a known airline, source, destination and class, and
    [days_left = -1]. *)
Lemma sentinel_in_any_feature_is_rejected_witness :
  length [0; 0; 0; 10; 12; 0; 0; 150; -1]%Q = 9%nat ∧
  api_simple.predict_price example.model example.request_minus_one_day
    = (None, Some "Unknown airline, city, or class") ∧
  api.predict_price example.model example.request_minus_one_day
    = (None, Some "Unknown airline, city, or class").
Proof.
  apply (@sentinel_in_any_feature_is_rejected decimal_builtins
           example.model example.request_minus_one_day
           [0; 0; 0; 10; 12; 0; 0; 150; -1]%Q (-1)%Q).
  - vm_compute. reflexivity.
  - simpl. tauto.
  - reflexivity.
Defined.

(** ** The field names that the serving path reads *)

Section field_names.

Context `{PyBuiltins}.

Lemma encode_other_key (MODEL_DATA : api_simple.model) (flight_data : record)
    (key value : string) :
  ¬ In key read_keys →
  api_simple.encode MODEL_DATA (<[key := value]> flight_data)
  = api_simple.encode MODEL_DATA flight_data.
Proof.
  intros Hkey. unfold api_simple.encode, api_simple.get, api_simple.get_float.
  assert (Hne : ∀ k, In k read_keys →
            (<[key := value]> flight_data : record) !! k = flight_data !! k).
  { intros k Hk. apply lookup_insert_ne. intros ->. contradiction. }
  rewrite !Hne by (simpl; tauto). reflexivity.
Qed.

Lemma predict_price_other_key (MODEL_DATA : api_simple.model) (flight_data : record)
    (key value : string) :
  ¬ In key read_keys →
  api_simple.predict_price MODEL_DATA (<[key := value]> flight_data)
  = api_simple.predict_price MODEL_DATA flight_data.
Proof.
  intros Hkey. unfold api_simple.predict_price. now rewrite encode_other_key.
Qed.

End field_names.

(** C1 (the code differs).  [predict_price] never reads the request under
    [destination_city] or [duration]: the price and the error are the same
    whatever the request holds under these two names.  On the example
    artifact, the request that names its fields as the training input does
    is rejected as an unknown category, the request that spells the two
    keys [destinatin] and [duratin] is priced; and of the two trainers,
    [simple_train.py] asks a record of the training file for [destinatin]
    and raises [KeyError], where [train_simple.py] reads
    [destination_city] and [duration]. *)
Theorem predict_price_ignores_training_field_names :
  (∀ (B : PyBuiltins) MODEL_DATA flight_data value,
     api_simple.predict_price MODEL_DATA (<["destination_city" := value]> flight_data)
     = api_simple.predict_price MODEL_DATA flight_data) ∧
  (∀ (B : PyBuiltins) MODEL_DATA flight_data value,
     api_simple.predict_price MODEL_DATA (<["duration" := value]> flight_data)
     = api_simple.predict_price MODEL_DATA flight_data) ∧
  api_simple.predict_price example.model example.request
    = (None, Some "Unknown airline, city, or class") ∧
  api_simple.predict_price example.model example.request_misspelled
    = (Some 6020%Q, None) ∧
  snd (simple_train.encode_record example.csv_record
         {| simple_train.airline_map := ∅; simple_train.source_map := ∅;
            simple_train.dest_map := ∅; simple_train.class_map := ∅ |})
    = Raise (KeyError "destinatin") ∧
  snd (train_simple.encode_record example.csv_record
         {| train_simple.airline_map := ∅; train_simple.source_map := ∅;
            train_simple.dest_map := ∅; train_simple.class_map := ∅ |})
    = Ok ([0; 0; 0; 10; 12; 0; 0; 150; 5]%Q, 9000%Q).
Proof.
  split; [|split; [|split; [|split; [|split]]]].
  - intros B MODEL_DATA flight_data value. apply predict_price_other_key.
    simpl. intros Hin. repeat destruct Hin as [Hin|Hin]; try discriminate; assumption.
  - intros B MODEL_DATA flight_data value. apply predict_price_other_key.
    simpl. intros Hin. repeat destruct Hin as [Hin|Hin]; try discriminate; assumption.
  - vm_compute. reflexivity.
  - vm_compute. reflexivity.
  - vm_compute. reflexivity.
  - vm_compute. reflexivity.
Qed.

(** ** Hour extraction *)

(** C4 (the code differs).  On the bare fragment ["10:00"], which
    [fromisoformat] rejects, [extract_hour] of [train_simple.py] and of the
    two serving modules returns 12 and not the hour 10, which
    [extract_hour] of [simple_train.py] returns; on ["a:b"], where [int]
    rejects ["a"], [extract_hour] of [simple_train.py] raises the exception
    of [int] and does not return 12, which the other three return. *)
Theorem extract_hour_misses_bare_time_or_raises `{PyBuiltins} (e1 e2 e3 : exn) :
  fromisoformat_hour "10:00" = Raise e1 →
  py_int "10" = Ok 10 →
  fromisoformat_hour "a:b" = Raise e2 →
  py_int "a" = Raise e3 →
  train_simple.extract_hour "10:00" = 12 ∧
  api_simple.extract_hour "10:00" = 12 ∧
  api.extract_hour "10:00" = 12 ∧
  simple_train.extract_hour "10:00" = Ok 10 ∧
  simple_train.extract_hour "a:b" = Raise e3 ∧
  train_simple.extract_hour "a:b" = 12.
Proof.
  intros H1 H2 H3 H4.
  unfold train_simple.extract_hour, api.extract_hour, api_simple.extract_hour,
    simple_train.extract_hour.
  cbn [replace_char Ascii.eqb Bool.eqb].
  rewrite H1, H3. cbn. rewrite H2, H4. auto 10.
Qed.

Lemma extract_hour_misses_bare_time_or_raises_witness :
  train_simple.extract_hour "10:00" = 12 ∧
  api_simple.extract_hour "10:00" = 12 ∧
  api.extract_hour "10:00" = 12 ∧
  simple_train.extract_hour "10:00" = Ok 10 ∧
  simple_train.extract_hour "a:b"
    = Raise (ValueError "invalid literal for int() with base 10: 'a'") ∧
  train_simple.extract_hour "a:b" = 12.
Proof.
  apply (@extract_hour_misses_bare_time_or_raises decimal_builtins
           (ValueError "Invalid isoformat string: '10:00'")
           (ValueError "Invalid isoformat string: 'a:b'")
           (ValueError "invalid literal for int() with base 10: 'a'"));
    reflexivity.
Defined.

(** What holds of the hour extraction for every string: a timestamp that
    [fromisoformat] accepts gives its hour in the four modules;
    [extract_hour] of [train_simple.py] and of the serving modules always
    returns; a string without colon that [fromisoformat] rejects gives 12
    in the four modules. *)
Lemma extract_hour_general `{PyBuiltins} (time_str : string) :
  (∀ hour, fromisoformat_hour (replace_char "Z" "+00:00" time_str) = Ok hour →
     train_simple.extract_hour time_str = hour ∧
     api_simple.extract_hour time_str = hour ∧
     simple_train.extract_hour time_str = Ok hour) ∧
  (∀ e, fromisoformat_hour (replace_char "Z" "+00:00" time_str) = Raise e →
     contains_char ":" time_str = false →
     simple_train.extract_hour time_str = Ok 12).
Proof.
  unfold train_simple.extract_hour, api_simple.extract_hour, simple_train.extract_hour.
  split.
  - intros hour ->. auto.
  - intros e -> ->. reflexivity.
Qed.

(** ** The persisted artifact *)

Lemma as_num_list_nums (l : list Q) : as_num_list (JArr (JNum <$> l)) = Some l.
Proof.
  unfold as_num_list. induction l as [|q l IH]; [reflexivity|].
  cbn. cbn in IH. now rewrite IH.
Qed.

Lemma as_num_map_codes (m : gmap string Z) :
  as_num_map (train_simple.json_of_map m) = Some (inject_Z <$> m).
Proof.
  unfold as_num_map, train_simple.json_of_map.
  destruct (decide _) as [_|Hno].
  - f_equal. apply map_eq. intros k.
    rewrite lookup_omap, !lookup_fmap. now destruct (m !! k).
  - exfalso. apply Hno. intros k v Hv.
    rewrite lookup_fmap in Hv. destruct (m !! k); [|discriminate].
    injection Hv as <-. simpl. eauto.
Qed.

Section artifact.

Variables (model : LinearRegression.t) (m : train_simple.encoders)
          (mae rmse avg_price : Q).

Let doc := train_simple.model_data model m mae rmse avg_price.

Lemma doc_weights : subscript doc "weights"
  = Ok (train_simple.json_of_attr (LinearRegression.weights model)).
Proof. reflexivity. Qed.

Lemma doc_bias : subscript doc "bias" = Ok (JNum (LinearRegression.bias model)).
Proof. reflexivity. Qed.

Lemma doc_mean_x : subscript doc "mean_x"
  = Ok (train_simple.json_of_attr (LinearRegression.mean_x model)).
Proof. reflexivity. Qed.

Lemma doc_std_x : subscript doc "std_x"
  = Ok (train_simple.json_of_attr (LinearRegression.std_x model)).
Proof. reflexivity. Qed.

Lemma doc_airline_map : subscript doc "airline_map"
  = Ok (train_simple.json_of_map (train_simple.airline_map m)).
Proof. reflexivity. Qed.

Lemma doc_source_map : subscript doc "source_map"
  = Ok (train_simple.json_of_map (train_simple.source_map m)).
Proof. reflexivity. Qed.

Lemma doc_dest_map : subscript doc "dest_map"
  = Ok (train_simple.json_of_map (train_simple.dest_map m)).
Proof. reflexivity. Qed.

Lemma doc_class_map : subscript doc "class_map"
  = Ok (train_simple.json_of_map (train_simple.class_map m)).
Proof. reflexivity. Qed.

Lemma doc_mae : subscript doc "mae" = Ok (JNum mae).
Proof. reflexivity. Qed.

Lemma doc_rmse : subscript doc "rmse" = Ok (JNum rmse).
Proof. reflexivity. Qed.

(** The serving module reads back what the trainer wrote. *)
Lemma load_model_data (w mx sx : list Q) :
  LinearRegression.weights model = Some w →
  LinearRegression.mean_x model = Some mx →
  LinearRegression.std_x model = Some sx →
  api_simple.load doc
  = Ok {| api_simple.airline_map := inject_Z <$> train_simple.airline_map m;
          api_simple.source_map := inject_Z <$> train_simple.source_map m;
          api_simple.dest_map := inject_Z <$> train_simple.dest_map m;
          api_simple.class_map := inject_Z <$> train_simple.class_map m;
          api_simple.mean_x := mx; api_simple.std_x := sx;
          api_simple.weights := w; api_simple.bias := LinearRegression.bias model;
          api_simple.mae := mae; api_simple.rmse := rmse |}.
Proof.
  intros Hw Hmx Hsx. unfold api_simple.load.
  rewrite doc_mae, doc_rmse, doc_airline_map, doc_source_map, doc_dest_map,
    doc_class_map, doc_mean_x, doc_std_x, doc_bias, doc_weights.
  rewrite Hw, Hmx, Hsx. cbn [train_simple.json_of_attr].
  rewrite !bind_Ok, !as_num_map_codes, !as_num_list_nums. reflexivity.
Qed.

End artifact.

Lemma mapM_r_ext {A B} (f g : A → result B) (l : list A) :
  (∀ a, f a = g a) → mapM_r f l = mapM_r g l.
Proof.
  intros Hfg. induction l as [|a l IH]; simpl; [reflexivity|].
  now rewrite Hfg, IH.
Qed.

(** The inference of the serving module is the one of the trained model. *)
Lemma infer_predict_row (MODEL_DATA : api_simple.model) (model : LinearRegression.t)
    (features : list Q) :
  LinearRegression.weights model = Some (api_simple.weights MODEL_DATA) →
  LinearRegression.mean_x model = Some (api_simple.mean_x MODEL_DATA) →
  LinearRegression.std_x model = Some (api_simple.std_x MODEL_DATA) →
  LinearRegression.bias model = api_simple.bias MODEL_DATA →
  api_simple.infer MODEL_DATA features = LinearRegression.predict_row model features.
Proof.
  intros Hw Hm Hs Hb. unfold api_simple.infer, LinearRegression.predict_row.
  rewrite Hw, Hm, Hs, Hb. reflexivity.
Qed.

Lemma fit_attributes `{PyBuiltins} (self model : LinearRegression.t)
    (X : list (list Q)) (y : list Q) (learning_rate : Q) (iterations : Z) :
  LinearRegression.fit self X y learning_rate iterations = Ok model →
  ∃ w mx sx, LinearRegression.weights model = Some w ∧
             LinearRegression.mean_x model = Some mx ∧
             LinearRegression.std_x model = Some sx.
Proof.
  unfold LinearRegression.fit. intros Hfit.
  inv_bind Hfit. inv_bind Hfit. inv_bind Hfit. inv_bind Hfit. inv_bind Hfit.
  destruct a3 as [weights bias]. injection Hfit as <-. simpl.
  do 3 eexists. repeat split; reflexivity.
Qed.

(** C5, as amended.  For every model that [LinearRegression.fit] returns,
    the document that [train_model] of [train_simple.py] writes holds the
    weights, the bias, the means and the standard deviations of the model
    and the four category maps; the serving module loads them back
    unchanged, and its inference on the loaded document returns, for every
    feature list, what [predict] of the trained model returns. *)
Theorem linear_artifact_round_trip `{PyBuiltins}
    (self model : LinearRegression.t) (X : list (list Q)) (y : list Q)
    (learning_rate : Q) (iterations : Z)
    (m : train_simple.encoders) (mae rmse avg_price : Q) :
  LinearRegression.fit self X y learning_rate iterations = Ok model →
  ∃ MODEL_DATA,
    api_simple.load (train_simple.model_data model m mae rmse avg_price)
      = Ok MODEL_DATA ∧
    LinearRegression.weights model = Some (api_simple.weights MODEL_DATA) ∧
    LinearRegression.mean_x model = Some (api_simple.mean_x MODEL_DATA) ∧
    LinearRegression.std_x model = Some (api_simple.std_x MODEL_DATA) ∧
    LinearRegression.bias model = api_simple.bias MODEL_DATA ∧
    api_simple.airline_map MODEL_DATA = inject_Z <$> train_simple.airline_map m ∧
    api_simple.source_map MODEL_DATA = inject_Z <$> train_simple.source_map m ∧
    api_simple.dest_map MODEL_DATA = inject_Z <$> train_simple.dest_map m ∧
    api_simple.class_map MODEL_DATA = inject_Z <$> train_simple.class_map m ∧
    (∀ rows, mapM_r (api_simple.infer MODEL_DATA) rows
             = LinearRegression.predict model rows) ∧
    (∀ forest encoders mae' avg_price',
       subscript (simple_train.model_data forest encoders mae' avg_price') "trees_count"
         = Ok (JNum (len (SimpleRandomForest.trees forest))) ∧
       api_simple.load (simple_train.model_data forest encoders mae' avg_price')
         = Raise (KeyError "rmse")).
Proof.
  intros Hfit. destruct (fit_attributes _ _ _ _ _ _ Hfit) as (w & mx & sx & Hw & Hmx & Hsx).
  eexists. split; [apply (load_model_data model m mae rmse avg_price w mx sx Hw Hmx Hsx)|].
  simpl. repeat (split; [first [assumption|reflexivity]|]).
  split; [|intros; split; reflexivity].
  intros rows. unfold LinearRegression.predict. apply mapM_r_ext. intros row.
  now apply infer_predict_row.
Qed.

Lemma linear_artifact_round_trip_witness :
  ∃ MODEL_DATA,
    api_simple.load (train_simple.model_data example.fitted_linear
                       example.no_encoders 0 0 2) = Ok MODEL_DATA ∧
    LinearRegression.weights example.fitted_linear
      = Some (api_simple.weights MODEL_DATA) ∧
    LinearRegression.mean_x example.fitted_linear
      = Some (api_simple.mean_x MODEL_DATA) ∧
    LinearRegression.std_x example.fitted_linear
      = Some (api_simple.std_x MODEL_DATA) ∧
    LinearRegression.bias example.fitted_linear = api_simple.bias MODEL_DATA ∧
    api_simple.airline_map MODEL_DATA
      = inject_Z <$> train_simple.airline_map example.no_encoders ∧
    api_simple.source_map MODEL_DATA
      = inject_Z <$> train_simple.source_map example.no_encoders ∧
    api_simple.dest_map MODEL_DATA
      = inject_Z <$> train_simple.dest_map example.no_encoders ∧
    api_simple.class_map MODEL_DATA
      = inject_Z <$> train_simple.class_map example.no_encoders ∧
    (∀ rows, mapM_r (api_simple.infer MODEL_DATA) rows
             = LinearRegression.predict example.fitted_linear rows) ∧
    (∀ forest encoders mae' avg_price',
       subscript (simple_train.model_data forest encoders mae' avg_price') "trees_count"
         = Ok (JNum (len (SimpleRandomForest.trees forest))) ∧
       api_simple.load (simple_train.model_data forest encoders mae' avg_price')
         = Raise (KeyError "rmse")).
Proof.
  apply (@linear_artifact_round_trip decimal_builtins
           LinearRegression.__init__ example.fitted_linear
           [[0; 1]; [2; 1]]%Q [1; 3]%Q (1 # 100)%Q 1).
  vm_compute. reflexivity.
Defined.

(** Two runs of the forest trainer on the same records that differ in the
    draws of [random.randint] only: the documents written are the same, the
    forests predict different prices. *)
Lemma forest_artifacts_coincide :
  ∃ model1 model2 m mae avg_price p1 p2,
    simple_train.train example.raw_first example.forest_data
      = Ok (model1, m, mae, avg_price) ∧
    simple_train.train example.raw_second example.forest_data
      = Ok (model2, m, mae, avg_price) ∧
    SimpleRandomForest.predict model1 [[0; 0; 0; 10; 12; 0; 0; 150; 5]] = Ok [p1] ∧
    SimpleRandomForest.predict model2 [[0; 0; 0; 10; 12; 0; 0; 150; 5]] = Ok [p2] ∧
    (p1 == 1000)%Q ∧ (p2 == 3000)%Q.
Proof.
  do 7 eexists.
  split; [vm_compute; reflexivity|]. split; [vm_compute; reflexivity|].
  split; [vm_compute; reflexivity|]. split; [vm_compute; reflexivity|].
  split; reflexivity.
Qed.

(** C5 as stated fails on the forest: no way of reloading the document of
    [simple_train.py] gives back the predictions of the forest that was
    trained, since two forests with different predictions are written as
    the same document. *)
Lemma forest_artifact_does_not_round_trip :
  ¬ ∃ reload : json → list Z → result Q,
      ∀ raw data model m mae avg_price x,
        simple_train.train raw data = Ok (model, m, mae, avg_price) →
        reload (simple_train.model_data model m mae avg_price) x
        = (ps ← SimpleRandomForest.predict model [x]; getitem ps 0).
Proof.
  intros [reload Hreload].
  destruct forest_artifacts_coincide
    as (model1 & model2 & m & mae & avg_price & p1 & p2 & E1 & E2 & P1 & P2 & V1 & V2).
  pose proof (Hreload _ _ _ _ _ _ [0; 0; 0; 10; 12; 0; 0; 150; 5] E1) as R1.
  pose proof (Hreload _ _ _ _ _ _ [0; 0; 0; 10; 12; 0; 0; 150; 5] E2) as R2.
  rewrite P1 in R1. rewrite P2 in R2.
  assert (Hn : ∀ raw model, simple_train.train raw example.forest_data
                 = Ok (model, m, mae, avg_price) →
               length (SimpleRandomForest.trees model) = 10%nat).
  { intros raw model E. unfold simple_train.train in E.
    inv_bind E. destruct a as [[X y] m']. inv_bind E. inv_bind E. inv_bind E.
    inv_bind E. inv_bind E. inv_bind E. inv_bind E. injection E as <- _ _ _.
    unfold SimpleRandomForest.fit in Ha3.
    apply fit_loop_trees in Ha3. destruct Ha3 as (ts & -> & Hall).
    apply Forall2_length in Hall. simpl. rewrite <- Hall. reflexivity. }
  assert (Hdoc : simple_train.model_data model1 m mae avg_price
                 = simple_train.model_data model2 m mae avg_price).
  { unfold simple_train.model_data, len. now rewrite (Hn _ _ E1), (Hn _ _ E2). }
  rewrite Hdoc in R1. rewrite R1 in R2. simpl in R2. injection R2 as R2.
  rewrite R2 in V1. rewrite V1 in V2. discriminate.
Qed.

(** * Further properties *)

(** ** Category maps *)

Lemma encode_categorical_same :
  simple_train.encode_categorical = train_simple.encode_categorical.
Proof. reflexivity. Qed.

Lemma dense_empty : dense ∅.
Proof.
  split; [|split].
  - intros k c H. rewrite lookup_empty in H. discriminate.
  - intros k1 k2 c H. rewrite lookup_empty in H. discriminate.
  - intros c Hc. rewrite map_size_empty in Hc. lia.
Qed.

Lemma encode_categorical_spec (value : string) (categories : gmap string Z) :
  let '(code, categories') := train_simple.encode_categorical value categories in
  categories' !! value = Some code ∧
  categories ⊆ categories' ∧
  train_simple.encode_categorical value categories' = (code, categories') ∧
  simple_train.encode_categorical value categories = (code, categories').
Proof.
  unfold train_simple.encode_categorical, simple_train.encode_categorical.
  destruct (categories !! value) as [code|] eqn:E.
  - rewrite E. auto.
  - rewrite lookup_insert_eq. split; [reflexivity|]. split; [|split; reflexivity].
    now apply insert_subseteq.
Qed.

Lemma encode_categorical_dense (value : string) (categories : gmap string Z) :
  dense categories →
  dense (snd (train_simple.encode_categorical value categories)) ∧
  0 <= fst (train_simple.encode_categorical value categories)
    < Z.of_nat (size (snd (train_simple.encode_categorical value categories))).
Proof.
  intros (Hrange & Hinj & Hsurj). unfold train_simple.encode_categorical.
  destruct (categories !! value) as [code|] eqn:E; simpl.
  - split; [exact (conj Hrange (conj Hinj Hsurj))|]. eapply Hrange, E.
  - assert (Hsize : size (<[value := Z.of_nat (size categories)]> categories)
                    = S (size categories)) by now apply map_size_insert_None.
    split; [|rewrite Hsize; lia]. split; [|split].
    + intros k c Hk. rewrite Hsize. destruct (decide (k = value)) as [->|Hne].
      * rewrite lookup_insert_eq in Hk. injection Hk as <-. lia.
      * rewrite lookup_insert_ne in Hk by congruence. apply Hrange in Hk. lia.
    + intros k1 k2 c H1 H2.
      destruct (decide (k1 = value)) as [->|Hne1]; destruct (decide (k2 = value)) as [->|Hne2];
        try reflexivity.
      * rewrite lookup_insert_eq in H1. injection H1 as <-.
        rewrite lookup_insert_ne in H2 by congruence. apply Hrange in H2. lia.
      * rewrite lookup_insert_eq in H2. injection H2 as <-.
        rewrite lookup_insert_ne in H1 by congruence. apply Hrange in H1. lia.
      * rewrite lookup_insert_ne in H1, H2 by congruence. eapply Hinj; eassumption.
    + intros c Hc. rewrite Hsize in Hc.
      destruct (decide (c = Z.of_nat (size categories))) as [->|Hne].
      * exists value. apply lookup_insert_eq.
      * destruct (Hsurj c) as [k Hk]; [lia|]. exists k.
        rewrite lookup_insert_ne; [assumption|]. intros ->. congruence.
Qed.

(** X1. [encode_categorical] returns the code that the dict holds for the
    value after the call; it changes no entry that the dict had (a code is
    never reassigned); and a second call with the same value returns the
    same code and leaves the dict as it is. *)
Theorem encode_categorical_issues_once (value : string) (categories : gmap string Z) :
  let '(code, categories') := train_simple.encode_categorical value categories in
  categories' !! value = Some code ∧
  categories ⊆ categories' ∧
  train_simple.encode_categorical value categories' = (code, categories') ∧
  simple_train.encode_categorical value categories = (code, categories').
Proof. apply encode_categorical_spec. Qed.

(** X2. [encode_categorical] keeps a category map dense: starting from a
    map whose codes are exactly the integers from 0 below its size, one per
    value, the map after the call is again of that kind, and the code
    returned is below its size. *)
Theorem encode_categorical_keeps_dense (value : string) (categories : gmap string Z) :
  dense categories →
  dense (snd (train_simple.encode_categorical value categories)) ∧
  0 <= fst (train_simple.encode_categorical value categories)
    < Z.of_nat (size (snd (train_simple.encode_categorical value categories))).
Proof. apply encode_categorical_dense. Qed.

Lemma encode_categorical_keeps_dense_witness :
  dense (snd (train_simple.encode_categorical "IndiGo" ∅)) ∧
  0 <= fst (train_simple.encode_categorical "IndiGo" ∅)
    < Z.of_nat (size (snd (train_simple.encode_categorical "IndiGo" ∅))).
Proof. apply encode_categorical_keeps_dense. exact dense_empty. Defined.

(** ** The records of the training file *)

Ltac norm_maps :=
  cbn [train_simple.airline_map train_simple.source_map
       train_simple.dest_map train_simple.class_map] in *.

Ltac step_res a E :=
  norm_maps;
  match goal with
  | |- context [match ?x with Ok _ => _ | Raise _ => _ end] =>
      destruct x as [a|?] eqn:E; cbn beta iota
  end.

Ltac step_pair f am C :=
  norm_maps;
  match goal with
  | |- context [let '(_, _) := ?x in _] =>
      destruct x as [f am] eqn:C; cbn beta iota
  end.

Section records.

Context `{PyBuiltins}.

Lemma encode_record_preserves (Inv : train_simple.encoders → Prop)
    (r : record) (m : train_simple.encoders) :
  Inv m →
  (∀ m v, Inv m →
     Inv {| train_simple.airline_map :=
              snd (train_simple.encode_categorical v (train_simple.airline_map m));
            train_simple.source_map := train_simple.source_map m;
            train_simple.dest_map := train_simple.dest_map m;
            train_simple.class_map := train_simple.class_map m |}) →
  (∀ m v, Inv m →
     Inv {| train_simple.airline_map := train_simple.airline_map m;
            train_simple.source_map :=
              snd (train_simple.encode_categorical v (train_simple.source_map m));
            train_simple.dest_map := train_simple.dest_map m;
            train_simple.class_map := train_simple.class_map m |}) →
  (∀ m v, Inv m →
     Inv {| train_simple.airline_map := train_simple.airline_map m;
            train_simple.source_map := train_simple.source_map m;
            train_simple.dest_map :=
              snd (train_simple.encode_categorical v (train_simple.dest_map m));
            train_simple.class_map := train_simple.class_map m |}) →
  (∀ m v, Inv m →
     Inv {| train_simple.airline_map := train_simple.airline_map m;
            train_simple.source_map := train_simple.source_map m;
            train_simple.dest_map := train_simple.dest_map m;
            train_simple.class_map :=
              snd (train_simple.encode_categorical v (train_simple.class_map m)) |}) →
  Inv (fst (train_simple.encode_record r m)).
Proof.
  intros Hm Ha Hs Hd Hc. unfold train_simple.encode_record.
  step_res airline E0; [|exact Hm]. step_pair f0 am C0.
  pose proof (Ha m airline Hm) as H1. rewrite C0 in H1. norm_maps.
  step_res source E1; [|exact H1]. step_pair f1 sm C1.
  pose proof (Hs _ source H1) as H2. norm_maps. rewrite C1 in H2. norm_maps.
  step_res f2 E2; [|exact H2]. step_res f3 E3; [|exact H2].
  step_res f4 E4; [|exact H2].
  step_res dest E5; [|exact H2]. step_pair f5 dm C5.
  pose proof (Hd _ dest H2) as H3. norm_maps. rewrite C5 in H3. norm_maps.
  step_res class E6; [|exact H3]. step_pair f6 cm C6.
  pose proof (Hc _ class H3) as H4. norm_maps. rewrite C6 in H4. norm_maps.
  step_res f7 E7; [|exact H4]. step_res f8 E8; [|exact H4].
  step_res price E9; norm_maps; exact H4.
Qed.

Lemma field_inv (r : record) (k v : string) : field r k = Ok v → r !! k = Some v.
Proof. unfold field. destruct (r !! k); congruence. Qed.

(** What a record that [train_model] keeps holds, and what is stored for
    it. *)
Lemma encode_record_ok (r : record) (m m' : train_simple.encoders)
    (features : list Q) (price : Q) :
  train_simple.encode_record r m = (m', Ok (features, price)) →
  ∃ airline source stops dep arr dest class duration days f2 f7 f8,
    r !! "airline" = Some airline ∧ r !! "source_city" = Some source ∧
    r !! "stops" = Some stops ∧ r !! "departure_time" = Some dep ∧
    r !! "arrival_time" = Some arr ∧ r !! "destination_city" = Some dest ∧
    r !! "class" = Some class ∧ r !! "duration" = Some duration ∧
    r !! "days_left" = Some days ∧
    py_float stops = Ok f2 ∧ py_float duration = Ok f7 ∧ py_float days = Ok f8 ∧
    (∃ p, r !! "price" = Some p ∧ py_float p = Ok price) ∧
    m' = {| train_simple.airline_map :=
              snd (train_simple.encode_categorical airline (train_simple.airline_map m));
            train_simple.source_map :=
              snd (train_simple.encode_categorical source (train_simple.source_map m));
            train_simple.dest_map :=
              snd (train_simple.encode_categorical dest (train_simple.dest_map m));
            train_simple.class_map :=
              snd (train_simple.encode_categorical class (train_simple.class_map m)) |} ∧
    features =
      [inject_Z (fst (train_simple.encode_categorical airline (train_simple.airline_map m)));
       inject_Z (fst (train_simple.encode_categorical source (train_simple.source_map m)));
       f2;
       inject_Z (train_simple.extract_hour dep);
       inject_Z (train_simple.extract_hour arr);
       inject_Z (fst (train_simple.encode_categorical dest (train_simple.dest_map m)));
       inject_Z (fst (train_simple.encode_categorical class (train_simple.class_map m)));
       f7; f8].
Proof.
  unfold train_simple.encode_record.
  step_res airline E0; [|discriminate]. step_pair f0 am C0.
  step_res source E1; [|discriminate]. step_pair f1 sm C1.
  step_res f2 E2; [|discriminate]. step_res f3 E3; [|discriminate].
  step_res f4 E4; [|discriminate].
  step_res dest E5; [|discriminate]. step_pair f5 dm C5.
  step_res class E6; [|discriminate]. step_pair f6 cm C6.
  step_res f7 E7; [|discriminate]. step_res f8 E8; [|discriminate].
  step_res p E9; [|discriminate].
  intros [= <- <- <-].
  inv_bind E2. inv_bind E3. inv_bind E4. inv_bind E7. inv_bind E8. inv_bind E9.
  injection E3 as <-. injection E4 as <-.
  apply field_inv in E0, E1, E5, E6, Ha, Ha0, Ha1, Ha2, Ha3, Ha4.
  exists airline, source, a, a0, a1, dest, class, a2, a3, f2, f7, f8.
  rewrite C0, C1, C5, C6. simpl. eauto 20.
Qed.

End records.

Lemma encoders_le_refl (m : train_simple.encoders) : encoders_le m m.
Proof. repeat split; reflexivity. Qed.

Lemma encoders_le_trans (m1 m2 m3 : train_simple.encoders) :
  encoders_le m1 m2 → encoders_le m2 m3 → encoders_le m1 m3.
Proof.
  intros (A1 & S1 & D1 & C1) (A2 & S2 & D2 & C2).
  repeat split; etransitivity; eassumption.
Qed.

Lemma encode_categorical_subseteq (v : string) (m : gmap string Z) :
  m ⊆ snd (train_simple.encode_categorical v m).
Proof.
  pose proof (encode_categorical_spec v m) as H.
  destruct (train_simple.encode_categorical v m). simpl. tauto.
Qed.

Lemma encode_categorical_lookup (v : string) (m : gmap string Z) :
  snd (train_simple.encode_categorical v m) !! v
  = Some (fst (train_simple.encode_categorical v m)).
Proof.
  pose proof (encode_categorical_spec v m) as H.
  destruct (train_simple.encode_categorical v m). simpl. tauto.
Qed.

Section training_set.

Context `{PyBuiltins}.

Lemma encode_record_le (r : record) (m : train_simple.encoders) :
  encoders_le m (fst (train_simple.encode_record r m)).
Proof.
  apply (encode_record_preserves (fun m' => encoders_le m m'));
    [apply encoders_le_refl|..];
    intros m' v Hm'; (eapply encoders_le_trans; [exact Hm'|]);
    repeat split; simpl; try reflexivity; apply encode_categorical_subseteq.
Qed.

Lemma encode_record_dense (r : record) (m : train_simple.encoders) :
  dense_encoders m → dense_encoders (fst (train_simple.encode_record r m)).
Proof.
  intros Hm. apply (encode_record_preserves dense_encoders); [exact Hm|..];
    intros m' v (A & S & D & C); (split; [|split; [|split]]); simpl;
    try assumption; now apply encode_categorical_dense.
Qed.

(** What the loop [for record in data] of [train_model] keeps. *)
Lemma prepare_inv (data : list record) :
  ∀ (X : list (list Q)) (y : list Q) (m : train_simple.encoders) X' y' m',
    train_simple.prepare data X y m = Ok (X', y', m') →
    encoders_le m m' ∧
    (dense_encoders m → dense_encoders m') ∧
    (∃ Xn yn, X' = X ++ Xn ∧ y' = y ++ yn ∧ length Xn = length yn ∧
              (length Xn <= length data)%nat ∧
              Forall (fun row => length row = 9%nat) Xn) ∧
    (∀ r, In r data →
       ∃ ma mb res, train_simple.encode_record r ma = (mb, res) ∧
                    encoders_le m ma ∧ encoders_le mb m' ∧
                    ∀ features price, res = Ok (features, price) → In features X').
Proof.
  induction data as [|r data IH]; intros X y m X' y' m' Hprep; simpl in Hprep.
  - injection Hprep as <- <- <-. split; [apply encoders_le_refl|].
    split; [auto|]. split; [|intros r []].
    exists [], []. rewrite !app_nil_r. repeat split; auto.
  - pose proof (encode_record_le r m) as Hle.
    pose proof (encode_record_dense r m) as Hdense.
    destruct (train_simple.encode_record r m) as [m1 res] eqn:Hrec.
    simpl in Hle, Hdense.
    assert (Hskip : train_simple.prepare data X y m1 = Ok (X', y', m') →
              (∀ features price, res ≠ Ok (features, price)) →
              encoders_le m m' ∧ (dense_encoders m → dense_encoders m') ∧
              (∃ Xn yn, X' = X ++ Xn ∧ y' = y ++ yn ∧ length Xn = length yn ∧
                 (length Xn <= length (r :: data))%nat ∧
                 Forall (fun row => length row = 9%nat) Xn) ∧
              (∀ r0, In r0 (r :: data) →
                 ∃ ma mb res0, train_simple.encode_record r0 ma = (mb, res0) ∧
                    encoders_le m ma ∧ encoders_le mb m' ∧
                    ∀ features price, res0 = Ok (features, price) → In features X')).
    { intros Hrest Hbad. destruct (IH _ _ _ _ _ _ Hrest) as (L & D & (Xn & yn & P) & R).
      split; [eapply encoders_le_trans; eassumption|]. split; [auto|].
      split.
      - exists Xn, yn. simpl. intuition lia.
      - intros r0 [<-|Hin].
        + exists m, m1, res. split; [assumption|]. split; [apply encoders_le_refl|].
          split; [assumption|]. intros features price ->. exfalso. eapply Hbad. reflexivity.
        + destruct (R r0 Hin) as (ma & mb & res0 & E & L1 & L2 & K).
          exists ma, mb, res0. split; [assumption|].
          split; [eapply encoders_le_trans; eassumption|]. auto. }
    destruct res as [[features price]|e].
    + destruct (IH _ _ _ _ _ _ Hprep) as (L & D & (Xn & yn & -> & -> & Hl & Hn & Hrows) & R).
      destruct (encode_record_ok _ _ _ _ _ Hrec)
        as (? & ? & ? & ? & ? & ? & ? & ? & ? & ? & ? & ? & _ & _ & _ & _ & _ & _ & _ & _ & _
            & _ & _ & _ & _ & _ & Hf).
      split; [eapply encoders_le_trans; eassumption|]. split; [auto|].
      split.
      * exists (features :: Xn), (price :: yn). rewrite <- !app_assoc. simpl.
        repeat split; try lia. constructor; [now rewrite Hf | assumption].
      * intros r0 [<-|Hin].
        -- exists m, m1, (Ok (features, price)). split; [assumption|].
           split; [apply encoders_le_refl|]. split; [assumption|].
           intros f p [= <- <-]. rewrite <- app_assoc. apply in_or_app. right.
           apply in_or_app. left. now left.
        -- destruct (R r0 Hin) as (ma & mb & res0 & E & L1 & L2 & K).
           exists ma, mb, res0. split; [assumption|].
           split; [eapply encoders_le_trans; eassumption|]. auto.
    + destruct e; try discriminate; apply Hskip; try assumption; discriminate.
Qed.

End training_set.

Section agreement.

Context `{PyBuiltins}.

Lemma field_lookup (r : record) (k v : string) : r !! k = Some v → field r k = Ok v.
Proof. unfold field. now intros ->. Qed.

(** A record with the ten columns whose numbers parse is kept, whatever
    the state of the encoders. *)
Lemma encode_record_complete (r : record) (m : train_simple.encoders)
    (airline source stops dep arr dest class duration days p : string)
    (f2 f7 f8 price : Q) :
  r !! "airline" = Some airline → r !! "source_city" = Some source →
  r !! "stops" = Some stops → r !! "departure_time" = Some dep →
  r !! "arrival_time" = Some arr → r !! "destination_city" = Some dest →
  r !! "class" = Some class → r !! "duration" = Some duration →
  r !! "days_left" = Some days → r !! "price" = Some p →
  py_float stops = Ok f2 → py_float duration = Ok f7 → py_float days = Ok f8 →
  py_float p = Ok price →
  snd (train_simple.encode_record r m)
  = Ok ([inject_Z (fst (train_simple.encode_categorical airline (train_simple.airline_map m)));
         inject_Z (fst (train_simple.encode_categorical source (train_simple.source_map m)));
         f2;
         inject_Z (train_simple.extract_hour dep);
         inject_Z (train_simple.extract_hour arr);
         inject_Z (fst (train_simple.encode_categorical dest (train_simple.dest_map m)));
         inject_Z (fst (train_simple.encode_categorical class (train_simple.class_map m)));
         f7; f8], price).
Proof.
  intros R0 R1 R2 R3 R4 R5 R6 R7 R8 R9 P2 P7 P8 P9.
  apply field_lookup in R0, R1, R2, R3, R4, R5, R6, R7, R8, R9.
  unfold train_simple.encode_record.
  rewrite R0. step_pair f0 am C0. rewrite R1. step_pair f1 sm C1.
  rewrite R2, R3, R4, R5. cbn [mbind result_bind]. rewrite P2.
  step_pair f5 dm C5. rewrite R6. step_pair f6 cm C6.
  rewrite R7, R8, R9. cbn [mbind result_bind]. rewrite P7, P8, P9.
  reflexivity.
Qed.

Lemma known_code (v : string) (m1 m2 : gmap string Z) :
  snd (train_simple.encode_categorical v m1) ⊆ m2 →
  fst (train_simple.encode_categorical v m2)
  = fst (train_simple.encode_categorical v m1) ∧
  api_simple.encode_category v (inject_Z <$> m2)
  = inject_Z (fst (train_simple.encode_categorical v m1)).
Proof.
  intros Hsub.
  assert (Hv : m2 !! v = Some (fst (train_simple.encode_categorical v m1))).
  { eapply lookup_weaken; [apply encode_categorical_lookup | exact Hsub]. }
  split.
  - unfold train_simple.encode_categorical at 1. now rewrite Hv.
  - unfold api_simple.encode_category. now rewrite lookup_fmap, Hv.
Qed.

Lemma request_get (r flight_data : record) (k k' v dflt : string) :
  flight_data !! k = r !! k' → r !! k' = Some v →
  api_simple.get flight_data k dflt = v.
Proof. intros Hk Hv. unfold api_simple.get. now rewrite Hk, Hv. Qed.

Lemma request_get_float (r flight_data : record) (k k' v : string) (q : Q) :
  flight_data !! k = r !! k' → r !! k' = Some v → py_float v = Ok q →
  api_simple.get_float flight_data k = Ok q.
Proof. intros Hk Hv Hq. unfold api_simple.get_float. now rewrite Hk, Hv. Qed.

(** A record kept at training time, sent as a request, is encoded by the
    serving module to the row that was stored for it. *)
Lemma serving_reencodes (r : record) (ma mb mf : train_simple.encoders)
    (features : list Q) (price : Q)
    (MODEL_DATA : api_simple.model) (flight_data : record) :
  train_simple.encode_record r ma = (mb, Ok (features, price)) →
  encoders_le mb mf →
  serves MODEL_DATA mf →
  as_request r flight_data →
  api_simple.encode MODEL_DATA flight_data = Ok features ∧
  snd (train_simple.encode_record r mf) = Ok (features, price).
Proof.
  intros Hrec (LA & LS & LD & LC) (SA & SS & SD & SC)
    (Q0 & Q1 & Q2 & Q3 & Q4 & Q5 & Q6 & Q7 & Q8).
  destruct (encode_record_ok _ _ _ _ _ Hrec)
    as (airline & source & stops & dep & arr & dest & class & duration & days
        & f2 & f7 & f8 & R0 & R1 & R2 & R3 & R4 & R5 & R6 & R7 & R8
        & P2 & P7 & P8 & (p & R9 & P9) & -> & ->).
  simpl in LA, LS, LD, LC.
  destruct (known_code _ _ _ LA) as [A1 A2], (known_code _ _ _ LS) as [S1 S2],
    (known_code _ _ _ LD) as [D1 D2], (known_code _ _ _ LC) as [C1 C2].
  split.
  - unfold api_simple.encode.
    rewrite (request_get r flight_data "airline" "airline" airline "" Q0 R0),
      (request_get r flight_data "source_city" "source_city" source "" Q1 R1),
      (request_get r flight_data "departure_time" "departure_time" dep "" Q3 R3),
      (request_get r flight_data "arrival_time" "arrival_time" arr "" Q4 R4),
      (request_get r flight_data "destinatin" "destination_city" dest "" Q5 R5),
      (request_get r flight_data "class" "class" class "Economy" Q6 R6),
      (request_get_float r flight_data "stops" "stops" stops f2 Q2 R2 P2),
      (request_get_float r flight_data "duratin" "duration" duration f7 Q7 R7 P7),
      (request_get_float r flight_data "days_left" "days_left" days f8 Q8 R8 P8).
    rewrite SA, SS, SD, SC, A2, S2, D2, C2. reflexivity.
  - rewrite (encode_record_complete r mf airline source stops dep arr dest class
               duration days p f2 f7 f8 price) by assumption.
    now rewrite A1, S1, D1, C1.
Qed.

End agreement.

Lemma dense_encoders_empty :
  dense_encoders {| train_simple.airline_map := ∅; train_simple.source_map := ∅;
                    train_simple.dest_map := ∅; train_simple.class_map := ∅ |}.
Proof. split; [|split; [|split]]; apply dense_empty. Qed.

(** X3. The loop of [train_model] of [train_simple.py] leaves a training
    set that [fit] accepts: as many targets as rows, no more rows than
    records, nine entries in every row, and four dense category maps
    (codes from 0 below the number of values, one per value). *)
Theorem training_set_is_well_formed `{PyBuiltins}
    (data : list record) (X : list (list Q)) (y : list Q)
    (m : train_simple.encoders) :
  train_simple.prepare data [] []
    {| train_simple.airline_map := ∅; train_simple.source_map := ∅;
       train_simple.dest_map := ∅; train_simple.class_map := ∅ |}
  = Ok (X, y, m) →
  length X = length y ∧ (length X <= length data)%nat ∧
  Forall (fun row => length row = 9%nat) X ∧ dense_encoders m.
Proof.
  intros Hprep.
  destruct (prepare_inv _ _ _ _ _ _ _ Hprep) as (_ & D & (Xn & yn & -> & -> & P) & _).
  simpl. split; [tauto|]. split; [tauto|]. split; [tauto|].
  apply D, dense_encoders_empty.
Qed.

Lemma training_set_is_well_formed_witness :
  length [sample.row] = length [9000%Q] ∧
  (length [sample.row] <= length sample.data)%nat ∧
  Forall (fun row => length row = 9%nat) [sample.row] ∧
  dense_encoders sample.encoders.
Proof.
  apply (@training_set_is_well_formed decimal_builtins sample.data).
  vm_compute. reflexivity.
Defined.

Lemma dense_sentinel (m : gmap string Z) (v : string) :
  dense m →
  ((api_simple.encode_category v (inject_Z <$> m) == -1)%Q ↔ m !! v = None).
Proof.
  intros (Hrange & _). unfold api_simple.encode_category. rewrite lookup_fmap.
  destruct (m !! v) as [c|] eqn:E; simpl.
  - split; [|discriminate]. intros Hc. apply Hrange in E.
    unfold Qeq in Hc. simpl in Hc. lia.
  - split; reflexivity.
Qed.

(** X4. Against an artifact that holds the category maps of a training run,
    [encode_category] returns the sentinel -1 for exactly the values that
    the training run never saw: no code issued at training time equals the
    sentinel. *)
Theorem sentinel_marks_exactly_unseen_values `{PyBuiltins}
    (data : list record) (X : list (list Q)) (y : list Q)
    (m : train_simple.encoders) (MODEL_DATA : api_simple.model) (value : string) :
  train_simple.prepare data [] []
    {| train_simple.airline_map := ∅; train_simple.source_map := ∅;
       train_simple.dest_map := ∅; train_simple.class_map := ∅ |}
  = Ok (X, y, m) →
  serves MODEL_DATA m →
  ((api_simple.encode_category value (api_simple.airline_map MODEL_DATA) == -1)%Q
     ↔ train_simple.airline_map m !! value = None) ∧
  ((api_simple.encode_category value (api_simple.source_map MODEL_DATA) == -1)%Q
     ↔ train_simple.source_map m !! value = None) ∧
  ((api_simple.encode_category value (api_simple.dest_map MODEL_DATA) == -1)%Q
     ↔ train_simple.dest_map m !! value = None) ∧
  ((api_simple.encode_category value (api_simple.class_map MODEL_DATA) == -1)%Q
     ↔ train_simple.class_map m !! value = None).
Proof.
  intros Hprep (-> & -> & -> & ->).
  destruct (prepare_inv _ _ _ _ _ _ _ Hprep) as (_ & D & _).
  destruct D as (DA & DS & DD & DC); [apply dense_encoders_empty|].
  split; [|split; [|split]]; now apply dense_sentinel.
Qed.

Lemma sentinel_marks_exactly_unseen_values_witness :
  ((api_simple.encode_category "SpiceJet" (api_simple.airline_map sample.model) == -1)%Q
     ↔ train_simple.airline_map sample.encoders !! "SpiceJet" = None) ∧
  ((api_simple.encode_category "SpiceJet" (api_simple.source_map sample.model) == -1)%Q
     ↔ train_simple.source_map sample.encoders !! "SpiceJet" = None) ∧
  ((api_simple.encode_category "SpiceJet" (api_simple.dest_map sample.model) == -1)%Q
     ↔ train_simple.dest_map sample.encoders !! "SpiceJet" = None) ∧
  ((api_simple.encode_category "SpiceJet" (api_simple.class_map sample.model) == -1)%Q
     ↔ train_simple.class_map sample.encoders !! "SpiceJet" = None).
Proof.
  apply (@sentinel_marks_exactly_unseen_values decimal_builtins sample.data
           [sample.row] [9000%Q]).
  - vm_compute. reflexivity.
  - repeat split; vm_compute; reflexivity.
Defined.

(** A record kept by the training run is encoded by the serving module to
    the row stored for it. *)
Lemma kept_record_reencodes `{PyBuiltins}
    (data : list record) (X : list (list Q)) (y : list Q)
    (m : train_simple.encoders) (MODEL_DATA : api_simple.model)
    (r flight_data : record) (features : list Q) (price : Q) :
  train_simple.prepare data [] []
    {| train_simple.airline_map := ∅; train_simple.source_map := ∅;
       train_simple.dest_map := ∅; train_simple.class_map := ∅ |}
  = Ok (X, y, m) →
  serves MODEL_DATA m →
  In r data →
  snd (train_simple.encode_record r m) = Ok (features, price) →
  as_request r flight_data →
  api_simple.encode MODEL_DATA flight_data = Ok features ∧ In features X.
Proof.
  intros Hprep Hserves Hin Hvalid Hreq.
  destruct (prepare_inv _ _ _ _ _ _ _ Hprep) as (_ & _ & _ & R).
  destruct (R r Hin) as (ma & mb & res & Hrec & _ & Hle & Hstored).
  destruct (train_simple.encode_record r m) as [mm res_m] eqn:Hm. simpl in Hvalid.
  subst res_m.
  destruct (encode_record_ok _ _ _ _ _ Hm)
    as (airline & source & stops & dep & arr & dest & class & duration & days
        & f2 & f7 & f8 & R0 & R1 & R2 & R3 & R4 & R5 & R6 & R7 & R8
        & P2 & P7 & P8 & (p & R9 & P9) & _ & _).
  pose proof (encode_record_complete r ma airline source stops dep arr dest class
                duration days p f2 f7 f8 price R0 R1 R2 R3 R4 R5 R6 R7 R8 R9
                P2 P7 P8 P9) as Hok.
  rewrite Hrec in Hok. simpl in Hok. subst res.
  destruct (serving_reencodes _ _ _ _ _ _ _ _ Hrec Hle Hserves Hreq) as [Henc Hagain].
  rewrite Hm in Hagain. simpl in Hagain. injection Hagain as Hf.
  rewrite Hf. split; [assumption|]. eapply Hstored. reflexivity.
Qed.

(** X5. A record that the training run kept, sent as a request under the
    keys that [predict_price] reads, is encoded by the serving module to
    the nine numbers, in the same order, of the row that the training run
    stored for it. *)
Theorem serving_reencodes_training_records `{PyBuiltins}
    (data : list record) (X : list (list Q)) (y : list Q)
    (m : train_simple.encoders) (MODEL_DATA : api_simple.model)
    (r flight_data : record) (features : list Q) (price : Q) :
  train_simple.prepare data [] []
    {| train_simple.airline_map := ∅; train_simple.source_map := ∅;
       train_simple.dest_map := ∅; train_simple.class_map := ∅ |}
  = Ok (X, y, m) →
  serves MODEL_DATA m →
  In r data →
  snd (train_simple.encode_record r m) = Ok (features, price) →
  as_request r flight_data →
  api_simple.encode MODEL_DATA flight_data = Ok features ∧ In features X.
Proof. intros. eapply kept_record_reencodes; eassumption. Qed.

Lemma serving_reencodes_training_records_witness :
  api_simple.encode sample.model example.request_misspelled = Ok sample.row ∧
  In sample.row [sample.row].
Proof.
  apply (@serving_reencodes_training_records decimal_builtins sample.data
           [sample.row] [9000%Q] sample.encoders sample.model
           example.csv_record example.request_misspelled sample.row 9000%Q).
  - vm_compute. reflexivity.
  - repeat split; vm_compute; reflexivity.
  - left. reflexivity.
  - vm_compute. reflexivity.
  - repeat split; vm_compute; reflexivity.
Defined.

(** ** The shape of a fitted tree *)

Lemma build_height (mss : Z) (rem : nat) :
  ∀ X y t, SimpleDecisionTree._build_tree_at rem mss X y = Ok t →
           (height t <= rem)%nat.
Proof.
  induction rem as [|rem IH]; intros X y t Ht; simpl in Ht.
  - unfold SimpleDecisionTree.mean_leaf in Ht. inv_bind Ht. injection Ht as <-.
    simpl. lia.
  - assert (Hleaf : SimpleDecisionTree.mean_leaf y = Ok t → (height t <= S rem)%nat).
    { unfold SimpleDecisionTree.mean_leaf. intros Hl. inv_bind Hl.
      injection Hl as <-. simpl. lia. }
    destruct (Z.of_nat (length y) <? mss); [now apply Hleaf|].
    inv_bind Ht. inv_bind Ht. destruct (snd a0) as [[bf bs]|]; [|now apply Hleaf].
    inv_bind Ht. inv_bind Ht. inv_bind Ht. inv_bind Ht. inv_bind Ht. inv_bind Ht.
    inv_bind Ht. inv_bind Ht. injection Ht as <-.
    apply IH in Ha7, Ha8. simpl. lia.
Qed.

(** X6. A tree returned by [SimpleDecisionTree.fit] has no path with more
    than [max_depth] tests (none at all when [max_depth] is zero or
    negative), whatever the training set. *)
Theorem fitted_tree_depth_is_bounded
    (self fitted : SimpleDecisionTree.t) (root : node)
    (X : list (list Z)) (y : list Q) :
  SimpleDecisionTree.fit self X y = Ok fitted →
  SimpleDecisionTree.tree fitted = Some root →
  Z.of_nat (height root) <= Z.max 0 (SimpleDecisionTree.max_depth self).
Proof.
  unfold SimpleDecisionTree.fit, SimpleDecisionTree._build_tree. intros Hfit Hroot.
  inv_bind Hfit. injection Hfit as <-. simpl in Hroot. injection Hroot as ->.
  apply build_height in Ha. lia.
Qed.

Lemma fitted_tree_depth_is_bounded_witness :
  Z.of_nat (height (Split 0 1 (Split 0 0 (Leaf 1) (Leaf 2))
                             (Split 0 2 (Leaf 10) (Leaf 12))))
  <= Z.max 0 (SimpleDecisionTree.max_depth (SimpleDecisionTree.__init__ 10 2)).
Proof.
  apply (fitted_tree_depth_is_bounded (SimpleDecisionTree.__init__ 10 2)
           example.tree _ example.X example.y).
  - vm_compute. reflexivity.
  - reflexivity.
Defined.



(** ** Fitting a forest *)

Lemma fit64_keeps_parameters (raw : nat → Z) (X : list (list Z)) (y : list float)
    (l : list nat) :
  ∀ self forest,
    foldM_r (binary64.SimpleRandomForest.fit_one raw X y) self l = Ok forest →
    binary64.SimpleRandomForest.n_trees forest
      = binary64.SimpleRandomForest.n_trees self ∧
    binary64.SimpleRandomForest.max_depth forest
      = binary64.SimpleRandomForest.max_depth self.
Proof.
  induction l as [|tree_no l IH]; intros self forest H; simpl in H.
  - injection H as <-. auto.
  - inv_bind H. apply IH in H. unfold binary64.SimpleRandomForest.fit_one in Ha.
    inv_bind Ha. inv_bind Ha. inv_bind Ha. inv_bind Ha. injection Ha as <-.
    exact H.
Qed.

(** X8. Whenever [SimpleRandomForest.fit] returns, it has appended
    [n_trees] fitted trees to the trees that the forest held before the
    call, so that a second call to [fit] keeps the trees of the first, and
    it has left [n_trees] and [max_depth] as they were. *)
Theorem forest_fit_appends_trees
    (raw : nat → Z) (self forest : binary64.SimpleRandomForest.t)
    (X : list (list Z)) (y : list float) :
  binary64.SimpleRandomForest.fit raw self X y = Ok forest →
  ∃ ts,
    binary64.SimpleRandomForest.trees forest
      = binary64.SimpleRandomForest.trees self ++ ts ∧
    length ts = Z.to_nat (binary64.SimpleRandomForest.n_trees self) ∧
    Forall (fun tree => is_Some (binary64.SimpleDecisionTree.tree tree)) ts ∧
    binary64.SimpleRandomForest.n_trees forest
      = binary64.SimpleRandomForest.n_trees self ∧
    binary64.SimpleRandomForest.max_depth forest
      = binary64.SimpleRandomForest.max_depth self.
Proof.
  unfold binary64.SimpleRandomForest.fit. intros Hfit.
  destruct (fit64_loop_trees raw X y _ _ _ Hfit) as (ts & Hts & Hl & Hall).
  destruct (fit64_keeps_parameters raw X y _ _ _ Hfit) as [Hn Hd].
  exists ts. split; [assumption|].
  split; [unfold range in Hl; now rewrite length_seq in Hl|].
  split; [|split; assumption].
  eapply Forall_impl; [exact Hall|]. intros tree (Xs & ys & _ & Htree).
  destruct (fit64_root _ _ _ _ Htree) as (root & -> & _). eauto.
Qed.

Lemma forest_fit_appends_trees_witness :
  ∃ ts,
    binary64.SimpleRandomForest.trees example64.forest
      = binary64.SimpleRandomForest.trees (binary64.SimpleRandomForest.__init__ 3 8)
        ++ ts ∧
    length ts
      = Z.to_nat (binary64.SimpleRandomForest.n_trees
                    (binary64.SimpleRandomForest.__init__ 3 8)) ∧
    Forall (fun tree => is_Some (binary64.SimpleDecisionTree.tree tree)) ts ∧
    binary64.SimpleRandomForest.n_trees example64.forest
      = binary64.SimpleRandomForest.n_trees (binary64.SimpleRandomForest.__init__ 3 8) ∧
    binary64.SimpleRandomForest.max_depth example64.forest
      = binary64.SimpleRandomForest.max_depth (binary64.SimpleRandomForest.__init__ 3 8).
Proof.
  apply (forest_fit_appends_trees example.raw
           (binary64.SimpleRandomForest.__init__ 3 8) example64.forest
           example.X example64.y).
  vm_compute. reflexivity.
Defined.

(** X9. A forest that holds no tree, as every forest does before [fit],
    raises [ZeroDivisionError] at [predict] for every non-empty list of
    rows and returns the empty list for the empty list; and [fit] of a
    forest with [n_trees] zero or negative returns the forest as it is, so
    that it still holds no tree. *)
Theorem forest_without_trees_cannot_predict
    (self : SimpleRandomForest.t) (X : list (list Z)) :
  SimpleRandomForest.trees self = [] →
  X ≠ [] →
  SimpleRandomForest.predict self X = Raise ZeroDivisionError ∧
  SimpleRandomForest.predict self [] = Ok [] ∧
  (SimpleRandomForest.n_trees self <= 0 →
   ∀ raw X_train y_train,
     SimpleRandomForest.fit raw self X_train y_train = Ok self).
Proof.
  intros Htrees HX. split; [|split].
  - unfold SimpleRandomForest.predict, SimpleRandomForest.tree_predictions.
    rewrite Htrees. simpl.
    assert (Hrows : mapM_r (fun _ : list Z => Ok ([] : list Q)) X
                    = Ok (map (fun _ => []) X)).
    { apply mapM_r_map. apply List.Forall_forall. reflexivity. }
    rewrite Hrows, bind_Ok. destruct X as [|x X']; [contradiction|]. reflexivity.
  - reflexivity.
  - intros Hn raw X_train y_train. unfold SimpleRandomForest.fit, range.
    replace (Z.to_nat (SimpleRandomForest.n_trees self)) with 0%nat by lia.
    reflexivity.
Qed.

(** The forest [SimpleRandomForest()] with its default parameters, before
    [fit], and a forest with [n_trees = 0]. *)
Lemma forest_without_trees_cannot_predict_witness :
  (SimpleRandomForest.predict (SimpleRandomForest.__init__ 10 10) [[3; 7]]
     = Raise ZeroDivisionError ∧
   SimpleRandomForest.predict (SimpleRandomForest.__init__ 10 10) [] = Ok []) ∧
  (SimpleRandomForest.predict (SimpleRandomForest.__init__ 0 8) [[3; 7]]
     = Raise ZeroDivisionError ∧
   SimpleRandomForest.predict (SimpleRandomForest.__init__ 0 8) [] = Ok [] ∧
   SimpleRandomForest.fit example.raw (SimpleRandomForest.__init__ 0 8)
     example.X example.y = Ok (SimpleRandomForest.__init__ 0 8)).
Proof.
  split.
  - destruct (forest_without_trees_cannot_predict (SimpleRandomForest.__init__ 10 10)
                [[3; 7]]) as (H1 & H2 & _); [reflexivity|discriminate|].
    split; [exact H1|exact H2].
  - destruct (forest_without_trees_cannot_predict (SimpleRandomForest.__init__ 0 8)
                [[3; 7]]) as (H1 & H2 & H3); [reflexivity|discriminate|].
    split; [exact H1|]. split; [exact H2|]. apply H3. simpl. lia.
Defined.

(** ** The shape of a fitted linear model *)

Lemma foldM_r_inv {A B} (f : B → A → result B) (I : B → Prop) (l : list A) (b b' : B) :
  I b → (∀ b a b', I b → f b a = Ok b' → I b') →
  foldM_r f b l = Ok b' → I b'.
Proof.
  intros Hb Hf. revert b Hb. induction l as [|a l IH]; simpl; intros b Hb H.
  - now injection H as <-.
  - inv_bind H. eapply IH; [|exact H]. eapply Hf; eassumption.
Qed.

(** The first exception of a list comprehension is the exception of the
    comprehension. *)
Lemma mapM_r_first_raise {A B} (f : A → result B) (l1 l2 : list A) (a : A) (e : exn) :
  (∀ x, In x l1 → ∃ b, f x = Ok b) → f a = Raise e →
  mapM_r f (l1 ++ a :: l2) = Raise e.
Proof.
  intros Hok Ha. induction l1 as [|x l1 IH]; simpl.
  - now rewrite Ha.
  - destruct (Hok x) as [b ->]; [now left|].
    rewrite bind_Ok, IH; [reflexivity|]. intros x' Hx'. apply Hok. now right.
Qed.

Lemma seq_split_at (k n : nat) :
  (k < n)%nat → seq 0 n = seq 0 k ++ k :: seq (S k) (n - S k).
Proof.
  intros Hk. replace n with (k + S (n - S k))%nat at 1 by lia.
  now rewrite seq_app.
Qed.

Section linear_shape.

Context `{PyBuiltins}.

Lemma descent_step_length (X_norm : list (list Q)) (y : list Q) (learning_rate : Q)
    (nf : nat) (wb wb' : list Q * Q) (iteration : nat) :
  LinearRegression.descent_step X_norm y learning_rate nf wb iteration = Ok wb' →
  length (fst wb') = nf.
Proof.
  destruct wb as [weights bias]. unfold LinearRegression.descent_step. intros Hs.
  inv_bind Hs. inv_bind Hs. inv_bind Hs. inv_bind Hs. injection Hs as <-. simpl.
  apply mapM_r_length in Ha1. now rewrite length_seq in Ha1.
Qed.

Lemma fit_std_nonzero (X : list (list Q)) (mean_x std_x : list Q) (nf : nat) :
  sqrt_positive →
  LinearRegression.fit_std X mean_x nf = Ok std_x →
  length std_x = nf ∧ Forall (fun s => ¬ (s == 0)%Q) std_x.
Proof.
  intros Hsqrt Hstd. unfold LinearRegression.fit_std in Hstd. split.
  - apply mapM_r_length in Hstd. now rewrite length_seq in Hstd.
  - apply mapM_r_inv in Hstd.
    induction Hstd as [|j s js ss Hs _ IH]; constructor; [|assumption].
    inv_bind Hs. inv_bind Hs. inv_bind Hs.
    destruct (Qlt_bool 0 a1) eqn:E.
    + apply Qlt_bool_iff in E. destruct (Hsqrt a1 E) as (s' & Hs' & Hnz). congruence.
    + injection Hs as <-. intros H1. discriminate.
Qed.

(** What [fit] leaves in the attributes of the model. *)
Lemma fit_shape (self model : LinearRegression.t) (X : list (list Q)) (y : list Q)
    (learning_rate : Q) (iterations : Z) :
  sqrt_positive →
  LinearRegression.fit self X y learning_rate iterations = Ok model →
  ∃ x0 w mx sx,
    X !! 0%nat = Some x0 ∧
    LinearRegression.weights model = Some w ∧
    LinearRegression.mean_x model = Some mx ∧
    LinearRegression.std_x model = Some sx ∧
    length w = length x0 ∧ length mx = length x0 ∧ length sx = length x0 ∧
    Forall (fun s => ¬ (s == 0)%Q) sx.
Proof.
  intros Hsqrt Hfit. unfold LinearRegression.fit in Hfit.
  inv_bind Hfit. inv_bind Hfit. inv_bind Hfit. inv_bind Hfit. inv_bind Hfit.
  destruct a3 as [weights bias]. injection Hfit as <-. simpl.
  destruct (fit_std_nonzero _ _ _ _ Hsqrt Ha1) as [Hls Hnz].
  exists a, weights, a0, a1.
  split; [now apply getitem_inv|]. do 3 (split; [reflexivity|]).
  split; [|split; [|split; assumption]].
  - apply (foldM_r_inv _ (fun wb => length (fst wb) = length a)) in Ha3;
      [exact Ha3 | simpl; apply length_replicate |].
    intros wb it wb' _ Hstep. eapply descent_step_length, Hstep.
  - apply mapM_r_length in Ha0. now rewrite length_seq in Ha0.
Qed.

(** [predict] on one row of a model with [nf] means, deviations and
    weights. *)
Lemma predict_row_short (model : LinearRegression.t) (w mx sx row : list Q) :
  LinearRegression.weights model = Some w →
  LinearRegression.mean_x model = Some mx →
  LinearRegression.std_x model = Some sx →
  Forall (fun s => ¬ (s == 0)%Q) sx →
  (length row <= length mx)%nat → (length row <= length sx)%nat →
  (length row <= length w)%nat →
  ∃ p, LinearRegression.predict_row model row = Ok p ∧ (0 <= p)%Q.
Proof.
  intros Hw Hm Hs Hnz Hlm Hls Hlw. unfold LinearRegression.predict_row.
  rewrite Hw, Hm, Hs. simpl.
  destruct (mapM_r_range
    (fun j => v ← getitem row j; m ← getitem mx j; s ← getitem sx j;
              truediv (v - m)%Q s) (fun _ => True) (length row))
    as (normalized & Hn & Hln & _).
  { intros j Hj.
    destruct (getitem_lt row j Hj) as (v & -> & _).
    destruct (getitem_lt mx j) as (m & -> & _); [lia|].
    destruct (getitem_lt sx j) as (s & -> & Hin); [lia|].
    rewrite !bind_Ok. rewrite List.Forall_forall in Hnz.
    rewrite truediv_nonzero by now apply Hnz. eauto. }
  rewrite Hn, bind_Ok.
  destruct (mapM_r_range
    (fun j => w0 ← getitem w j; v ← getitem normalized j; Ok (w0 * v)%Q)
    (fun _ => True) (length normalized)) as (terms & Ht & _).
  { intros j Hj.
    destruct (getitem_lt w j) as (w0 & -> & _); [lia|].
    destruct (getitem_lt normalized j Hj) as (v & -> & _).
    rewrite !bind_Ok. eauto. }
  rewrite Ht, bind_Ok. eexists. split; [reflexivity|apply max0_nonneg].
Qed.

Lemma predict_row_long (model : LinearRegression.t) (w mx sx row : list Q) :
  LinearRegression.weights model = Some w →
  LinearRegression.mean_x model = Some mx →
  LinearRegression.std_x model = Some sx →
  Forall (fun s => ¬ (s == 0)%Q) sx →
  length sx = length mx →
  (length mx < length row)%nat →
  LinearRegression.predict_row model row = Raise IndexError.
Proof.
  intros Hw Hm Hs Hnz Hlen Hlong. unfold LinearRegression.predict_row.
  rewrite Hm, Hs. simpl.
  rewrite (seq_split_at (length mx) (length row) Hlong).
  rewrite (mapM_r_first_raise _ _ _ _ IndexError); [reflexivity| |].
  - intros j Hj. apply in_seq in Hj.
    destruct (getitem_lt row j) as (v & -> & _); [lia|].
    destruct (getitem_lt mx j) as (m & -> & _); [lia|].
    destruct (getitem_lt sx j) as (s & -> & Hin); [lia|].
    rewrite !bind_Ok. rewrite List.Forall_forall in Hnz.
    rewrite truediv_nonzero by now apply Hnz. eauto.
  - destruct (getitem_lt row (length mx) Hlong) as (v & -> & _). rewrite bind_Ok.
    unfold getitem. now rewrite (lookup_ge_None_2 mx) by lia.
Qed.

End linear_shape.

(** X10. [predict] of a fitted linear model checks the width of a row in
    one direction only: a row with at most as many entries as the rows of
    the training set is accepted and priced, at zero or above, from the
    entries it has; a row with more entries raises [IndexError]. *)
Theorem linear_predict_checks_row_width_one_way `{PyBuiltins}
    (self model : LinearRegression.t) (X : list (list Q)) (y : list Q)
    (learning_rate : Q) (iterations : Z) (x0 short long : list Q) :
  sqrt_positive →
  LinearRegression.fit self X y learning_rate iterations = Ok model →
  X !! 0%nat = Some x0 →
  (length short <= length x0)%nat →
  (length x0 < length long)%nat →
  (∃ p, LinearRegression.predict model [short] = Ok [p] ∧ (0 <= p)%Q) ∧
  LinearRegression.predict model [long] = Raise IndexError.
Proof.
  intros Hsqrt Hfit Hx0 Hshort Hlong.
  destruct (fit_shape _ _ _ _ _ _ Hsqrt Hfit)
    as (x0' & w & mx & sx & Hx0' & Hw & Hm & Hs & Hlw & Hlm & Hls & Hnz).
  assert (x0' = x0) by congruence. subst x0'.
  unfold LinearRegression.predict. simpl. split.
  - destruct (predict_row_short model w mx sx short Hw Hm Hs Hnz) as (p & -> & Hp);
      [lia..|]. exists p. auto.
  - rewrite (predict_row_long model w mx sx long Hw Hm Hs Hnz); [reflexivity|lia..].
Qed.

Lemma linear_predict_checks_row_width_one_way_witness :
  (∃ p, LinearRegression.predict example.fitted_linear [[5%Q]] = Ok [p] ∧ (0 <= p)%Q) ∧
  LinearRegression.predict example.fitted_linear [[1; 2; 3]%Q] = Raise IndexError.
Proof.
  apply (@linear_predict_checks_row_width_one_way decimal_builtins
           LinearRegression.__init__ example.fitted_linear
           [[0; 1]; [2; 1]]%Q [1; 3]%Q (1 # 100)%Q 1 [0; 1]%Q).
  - exact floor_sqrt_positive.
  - vm_compute. reflexivity.
  - reflexivity.
  - simpl. lia.
  - simpl. lia.
Defined.

(** ** The linear trainer from the records to the served price *)



(** ** The query string *)

Lemma split_on_nonempty (c : ascii) (s : string) : split_on c s ≠ [].
Proof.
  destruct s as [|a s]; simpl; [discriminate|].
  destruct (Ascii.eqb a c); [discriminate|].
  destruct (split_on c s); discriminate.
Qed.

Lemma split_on_app (c : ascii) (s1 s2 : string) :
  split_on c (s1 ++ String c s2)%string = split_on c s1 ++ split_on c s2.
Proof.
  induction s1 as [|a s1 IH]; simpl.
  - now rewrite Ascii.eqb_refl.
  - destruct (Ascii.eqb a c); [now rewrite IH|].
    rewrite IH. pose proof (split_on_nonempty c s1) as Hne.
    destruct (split_on c s1); [contradiction|reflexivity].
Qed.

Lemma split_on_none (c : ascii) (s : string) :
  contains_char c s = false → split_on c s = [s].
Proof.
  induction s as [|a s IH]; simpl; [reflexivity|].
  intros Hc. apply orb_false_iff in Hc. destruct Hc as [-> Hc].
  now rewrite (IH Hc).
Qed.

Lemma contains_char_app (c : ascii) (s1 s2 : string) :
  contains_char c (s1 ++ s2)%string = contains_char c s1 || contains_char c s2.
Proof.
  induction s1 as [|a s1 IH]; simpl; [reflexivity|].
  now rewrite IH, orb_assoc.
Qed.

Lemma split_first_two (c : ascii) (s : string) :
  contains_char c s = true →
  ∃ k v, split_first c s = [k; v] ∧ s = (k ++ String c v)%string.
Proof.
  induction s as [|a s IH]; simpl; [discriminate|].
  destruct (Ascii.eqb a c) eqn:E; simpl.
  - intros _. apply Ascii.eqb_eq in E. subst a. exists EmptyString, s. auto.
  - intros Hc. destruct (IH Hc) as (k & v & -> & ->).
    exists (String a k), v. auto.
Qed.

Lemma split_first_app (c : ascii) (k v : string) :
  contains_char c k = false → split_first c (k ++ String c v)%string = [k; v].
Proof.
  induction k as [|a k IH]; simpl.
  - intros _. now rewrite Ascii.eqb_refl.
  - intros Hc. apply orb_false_iff in Hc. destruct Hc as [-> Hc].
    now rewrite (IH Hc).
Qed.

(** One pair adds at most one entry, whatever the dict holds. *)
Lemma parse_pair_union (pair : string) :
  ∃ dp : record, ∀ params, parse_pair params pair = Ok (dp ∪ params).
Proof.
  unfold parse_pair. destruct (contains_char "=" pair) eqn:E.
  - destruct (split_first_two _ _ E) as (k & v & -> & _).
    eexists. intros params. now rewrite insert_union_singleton_l.
  - exists ∅. intros params. now rewrite (left_id_L ∅ (∪)).
Qed.

Lemma foldM_r_app {A B} (f : B → A → result B) (l1 l2 : list A) (b : B) :
  foldM_r f b (l1 ++ l2) = (b' ← foldM_r f b l1; foldM_r f b' l2).
Proof.
  revert b. induction l1 as [|a l1 IH]; intros b; simpl; [reflexivity|].
  destruct (f b a) as [b'|e]; simpl; [apply IH|reflexivity].
Qed.

Lemma parse_fold_union (pairs : list string) :
  ∃ d : record, ∀ params, foldM_r parse_pair params pairs = Ok (d ∪ params).
Proof.
  induction pairs as [|pair pairs (d & IH)].
  - exists ∅. intros params. simpl. now rewrite (left_id_L ∅ (∪)).
  - destruct (parse_pair_union pair) as [dp Hdp].
    exists (d ∪ dp). intros params. simpl.
    now rewrite Hdp, bind_Ok, IH, (assoc_L (∪)).
Qed.

Lemma parse_query_fold (query_string : string) :
  parse_query query_string = foldM_r parse_pair ∅ (split_on "&" query_string).
Proof.
  unfold parse_query. destruct (String.eqb query_string "") eqn:E; [|reflexivity].
  apply String.eqb_eq in E. now subst.
Qed.

Lemma parse_query_app (q1 q2 : string) :
  ∃ p1 p2 : record,
    parse_query q1 = Ok p1 ∧ parse_query q2 = Ok p2 ∧
    parse_query (q1 ++ "&" ++ q2)%string = Ok (p2 ∪ p1).
Proof.
  rewrite !parse_query_fold.
  destruct (parse_fold_union (split_on "&" q1)) as [d1 H1].
  destruct (parse_fold_union (split_on "&" q2)) as [d2 H2].
  exists (d1 ∪ ∅), (d2 ∪ ∅). split; [apply H1|]. split; [apply H2|].
  change (q1 ++ "&" ++ q2)%string with (q1 ++ String "&" q2)%string.
  now rewrite split_on_app, foldM_r_app, H1, bind_Ok, H2, !(right_id_L ∅ (∪)).
Qed.

(** *** Percent-decoding what [quote] wrote *)

Lemma decode_space (v : string) :
  contains_char "%" v = false →
  replace "%20" " " (quote v) = replace_char "," "%2C" v.
Proof.
  unfold replace, quote. induction v as [|a v IH]; [reflexivity|].
  cbn [contains_char]. intros Hc. apply orb_false_iff in Hc. destruct Hc as [Ha Hc].
  specialize (IH Hc). cbn [replace_char].
  destruct (Ascii.eqb a " ") eqn:E1.
  - apply Ascii.eqb_eq in E1. subst a.
    change (String " " (replace_from 0 "%20" " "
                          (replace_char "," "%2C" (replace_char " " "%20" v)))
            = String " " (replace_char "," "%2C" v)).
    now rewrite IH.
  - cbn [replace_char]. destruct (Ascii.eqb a ",") eqn:E2.
    + apply Ascii.eqb_eq in E2. subst a.
      change (("%2C" ++ replace_from 0 "%20" " "
                          (replace_char "," "%2C" (replace_char " " "%20" v)))%string
              = ("%2C" ++ replace_char "," "%2C" v)%string).
      now rewrite IH.
    + cbn [replace_from startswith]. rewrite Ha. cbn [andb]. now rewrite IH.
Qed.

Lemma decode_comma (v : string) :
  contains_char "%" v = false →
  replace "%2C" "," (replace_char "," "%2C" v) = v.
Proof.
  unfold replace. induction v as [|a v IH]; [reflexivity|].
  cbn [contains_char]. intros Hc. apply orb_false_iff in Hc. destruct Hc as [Ha Hc].
  specialize (IH Hc). cbn [replace_char].
  destruct (Ascii.eqb a ",") eqn:E2.
  - apply Ascii.eqb_eq in E2. subst a.
    change (String "," (replace_from 0 "%2C" "," (replace_char "," "%2C" v))
            = String "," v).
    now rewrite IH.
  - cbn [replace_from startswith]. rewrite Ha. cbn [andb]. now rewrite IH.
Qed.

Lemma replace_char_keeps_out (c d : ascii) (by_ s : string) :
  contains_char c by_ = false → contains_char c s = false →
  contains_char c (replace_char d by_ s) = false.
Proof.
  intros Hby. induction s as [|a s IH]; simpl; [reflexivity|].
  intros Hc. apply orb_false_iff in Hc. destruct Hc as [Ha Hc].
  destruct (Ascii.eqb a d).
  - now rewrite contains_char_app, Hby, IH.
  - simpl. now rewrite Ha, IH.
Qed.

Lemma quote_keeps_out_amp (v : string) :
  contains_char "&" v = false → contains_char "&" (quote v) = false.
Proof.
  intros Hv. unfold quote. now repeat apply replace_char_keeps_out.
Qed.

(** The pairs that [query_of] writes without ambiguity: no ['&'] and no
    ['='] in the key, no ['&'] and no ['%'] in the value. *)
Lemma parse_query_one (key value : string) :
  contains_char "&" key = false → contains_char "=" key = false →
  contains_char "&" value = false → contains_char "%" value = false →
  parse_query (key ++ "=" ++ quote value)%string = Ok {[ key := value ]}.
Proof.
  intros K1 K2 V1 V2. rewrite parse_query_fold.
  change (key ++ "=" ++ quote value)%string with (key ++ String "=" (quote value))%string.
  rewrite split_on_none.
  - simpl. unfold parse_pair.
    rewrite contains_char_app. simpl. rewrite orb_true_r.
    rewrite split_first_app by assumption.
    rewrite decode_space, decode_comma by assumption.
    now rewrite insert_empty.
  - rewrite contains_char_app. simpl. now rewrite K1, quote_keeps_out_amp.
Qed.

Lemma parse_query_of (l : list (string * string)) :
  Forall (fun kv => contains_char "&" (fst kv) = false ∧
                    contains_char "=" (fst kv) = false ∧
                    contains_char "&" (snd kv) = false ∧
                    contains_char "%" (snd kv) = false) l →
  parse_query (query_of l) = Ok (list_to_map (reverse l)).
Proof.
  induction 1 as [|[key value] rest (K1 & K2 & V1 & V2) Hrest IH]; [reflexivity|].
  simpl in K1, K2, V1, V2.
  rewrite reverse_cons, list_to_map_app. simpl list_to_map. rewrite insert_empty.
  destruct rest as [|kv rest].
  - simpl. rewrite (left_id_L ∅ (∪)). now apply parse_query_one.
  - change (query_of ((key, value) :: kv :: rest))
      with ((key ++ "=" ++ quote value) ++ "&" ++ query_of (kv :: rest))%string.
    destruct (parse_query_app (key ++ "=" ++ quote value) (query_of (kv :: rest)))
      as (p1 & p2 & H1 & H2 & ->).
    rewrite parse_query_one in H1 by assumption. rewrite IH in H2.
    now injection H1 as <-; injection H2 as <-.
Qed.

(** X14. [parse_query] raises on no string, and reads a query string piece
    by piece: the dict of [q1&q2] holds the entries of the dict of [q2] and,
    for the other keys, those of the dict of [q1], so that of two values of
    one key the later one is kept. *)
Theorem parse_query_joins_later_wins (q1 q2 : string) :
  ∃ p1 p2 : record,
    parse_query q1 = Ok p1 ∧ parse_query q2 = Ok p2 ∧
    parse_query (q1 ++ "&" ++ q2)%string = Ok (p2 ∪ p1).
Proof. apply parse_query_app. Qed.

(** X15. [parse_query] reads back the keys and values written as
    [k1=v1&k2=v2&...] with spaces as [%20] and commas as [%2C], for keys
    without ['&'] and ['='] and values without ['&'] and ['%']: a value may
    hold ['='], and of two values of one key the last one is returned. *)
Theorem parse_query_reads_back_quoted_pairs (l : list (string * string)) :
  Forall (fun kv => contains_char "&" (fst kv) = false ∧
                    contains_char "=" (fst kv) = false ∧
                    contains_char "&" (snd kv) = false ∧
                    contains_char "%" (snd kv) = false) l →
  parse_query (query_of l) = Ok (list_to_map (reverse l)).
Proof. apply parse_query_of. Qed.

Lemma parse_query_reads_back_quoted_pairs_witness :
  parse_query (query_of [("airline", "Air India"); ("route", "Mumbai,Delhi");
                         ("filter", "stops=0"); ("airline", "IndiGo")])
  = Ok (list_to_map (reverse [("airline", "Air India"); ("route", "Mumbai,Delhi");
                              ("filter", "stops=0"); ("airline", "IndiGo")])).
Proof.
  apply (parse_query_reads_back_quoted_pairs
           [("airline", "Air India"); ("route", "Mumbai,Delhi");
            ("filter", "stops=0"); ("airline", "IndiGo")]).
  repeat constructor.
Defined.

(** X16. A piece of the query string without ['='] is dropped without an
    error: the key it names is absent from the dict unless another piece
    sets it. *)
Theorem parse_query_drops_piece_without_equals (q piece : string) :
  contains_char "=" piece = false → contains_char "&" piece = false →
  parse_query (q ++ "&" ++ piece)%string = parse_query q ∧
  parse_query (piece ++ "&" ++ q)%string = parse_query q.
Proof.
  intros Heq Hamp.
  assert (Hpiece : parse_query piece = Ok ∅).
  { rewrite parse_query_fold, split_on_none by assumption. simpl.
    unfold parse_pair. now rewrite Heq. }
  split.
  - destruct (parse_query_app q piece) as (p1 & p2 & H1 & H2 & ->).
    rewrite Hpiece in H2. injection H2 as <-. now rewrite H1, (left_id_L ∅ (∪)).
  - destruct (parse_query_app piece q) as (p1 & p2 & H1 & H2 & ->).
    rewrite Hpiece in H1. injection H1 as <-. now rewrite H2, (right_id_L ∅ (∪)).
Qed.

Lemma parse_query_drops_piece_without_equals_witness :
  parse_query ("airline=IndiGo" ++ "&" ++ "class")%string
    = parse_query "airline=IndiGo" ∧
  parse_query ("class" ++ "&" ++ "airline=IndiGo")%string
    = parse_query "airline=IndiGo".
Proof.
  apply (parse_query_drops_piece_without_equals "airline=IndiGo" "class");
    reflexivity.
Defined.

(** ** Requests with absent fields *)

Lemma encode_default `{PyBuiltins} (MODEL_DATA : api_simple.model)
    (flight_data : record) (key dflt : string) :
  flight_data !! key = None →
  In (key, dflt) text_defaults ∨ (In key numeric_keys ∧ py_float dflt = Ok 0%Q) →
  api_simple.encode MODEL_DATA (<[key := dflt]> flight_data)
  = api_simple.encode MODEL_DATA flight_data.
Proof.
  intros Hnone Hkey.
  assert (Hk : ∀ k, key ≠ k →
            (<[key := dflt]> flight_data : record) !! k = flight_data !! k).
  { intros k Hne. now apply lookup_insert_ne. }
  assert (He : (<[key := dflt]> flight_data : record) !! key = Some dflt).
  { apply lookup_insert_eq. }
  unfold api_simple.encode, api_simple.get, api_simple.get_float.
  destruct Hkey as [Htext | [Hnum Hzero]].
  - simpl in Htext.
    repeat (destruct Htext as [[= <- <-] | Htext];
            [rewrite He, Hnone, !Hk by discriminate; reflexivity|]).
    contradiction.
  - simpl in Hnum.
    repeat (destruct Hnum as [<- | Hnum];
            [rewrite He, Hnone, !Hk by discriminate; cbn [default];
             rewrite Hzero; reflexivity|]).
    contradiction.
Qed.

(** X17. A field that a request lacks is served as its default: the price
    and the error are those of the request with the empty text under
    [airline], [source_city], [departure_time], [arrival_time] or
    [destinatin], with [Economy] under [class], and with a text that
    [float] reads as 0 under [stops], [duratin] or [days_left]. *)
Theorem absent_field_is_served_as_its_default `{PyBuiltins}
    (MODEL_DATA : api_simple.model) (flight_data : record) (key dflt : string) :
  flight_data !! key = None →
  In (key, dflt) text_defaults ∨ (In key numeric_keys ∧ py_float dflt = Ok 0%Q) →
  api_simple.predict_price MODEL_DATA (<[key := dflt]> flight_data)
  = api_simple.predict_price MODEL_DATA flight_data.
Proof.
  intros Hnone Hkey. unfold api_simple.predict_price.
  now rewrite encode_default.
Qed.

Lemma absent_field_is_served_as_its_default_witness :
  api_simple.predict_price example.model
    (<["class" := "Economy"]> (delete "class" example.request_misspelled))
  = api_simple.predict_price example.model
      (delete "class" example.request_misspelled) ∧
  api_simple.predict_price example.model
    (<["stops" := "0"]> (delete "stops" example.request_misspelled))
  = api_simple.predict_price example.model
      (delete "stops" example.request_misspelled).
Proof.
  split.
  - apply (@absent_field_is_served_as_its_default decimal_builtins example.model
             (delete "class" example.request_misspelled) "class" "Economy").
    + vm_compute. reflexivity.
    + left. simpl. tauto.
  - apply (@absent_field_is_served_as_its_default decimal_builtins example.model
             (delete "stops" example.request_misspelled) "stops" "0").
    + vm_compute. reflexivity.
    + right. split; [simpl; tauto|reflexivity].
Defined.

(** ** [LinearRegression.fit] on rows and targets of unequal numbers *)

Section unequal_lengths.

Context `{PyBuiltins}.

Variables (X_norm : list (list Q)) (y : list Q) (nf : nat).
Hypothesis Hrows : Forall (fun row => length row = nf) X_norm.
Hypothesis Hnf : (0 < nf)%nat.
Hypothesis Hneq : length X_norm ≠ length y.

Lemma descent_step_unequal (learning_rate : Q) (weights : list Q) (bias : Q)
    (iteration : nat) :
  length weights = nf →
  LinearRegression.descent_step X_norm y learning_rate nf (weights, bias) iteration
  = Raise IndexError.
Proof.
  intros Hw. unfold LinearRegression.descent_step.
  destruct (mapM_r_range
    (fun i => row ← getitem X_norm i;
              LinearRegression.linear weights bias row (seq 0 nf))
    (fun _ => True) (length X_norm)) as (preds & -> & Hlp & _).
  { intros i Hi. destruct (getitem_lt X_norm i Hi) as (row & -> & Hin).
    rewrite bind_Ok. pose proof Hrows as Hr. rewrite List.Forall_forall in Hr.
    destruct (linear_ok nf weights row bias Hw (Hr row Hin)) as [p ->].
    eauto. }
  rewrite bind_Ok.
  destruct (Nat.lt_ge_cases (length X_norm) (length y)) as [Hmore | Hfewer].
  - (* more targets than rows: [predictions[i]] is out of range *)
    rewrite (seq_split_at (length X_norm) (length y) Hmore).
    rewrite (mapM_r_first_raise _ _ _ _ IndexError); [reflexivity| |].
    + intros i Hi. apply in_seq in Hi.
      destruct (getitem_lt y i) as (t & -> & _); [lia|].
      destruct (getitem_lt preds i) as (p & -> & _); [lia|].
      rewrite !bind_Ok. eauto.
    + destruct (getitem_lt y (length X_norm) Hmore) as (t & -> & _). rewrite bind_Ok.
      unfold getitem. now rewrite (lookup_ge_None_2 preds) by lia.
  - (* fewer targets than rows: [errors[i]] is out of range *)
    assert (Hlt : (length y < length X_norm)%nat) by lia.
    destruct (mapM_r_range
      (fun i => t ← getitem y i; p ← getitem preds i; Ok (t - p)%Q)
      (fun _ => True) (length y)) as (errors & -> & Hle & _).
    { intros i Hi. destruct (getitem_lt y i Hi) as (t & -> & _).
      destruct (getitem_lt preds i) as (p & -> & _); [lia|].
      rewrite !bind_Ok. eauto. }
    rewrite bind_Ok.
    assert (Hterms : mapM_r (fun i => e ← getitem errors i; row ← getitem X_norm i;
                                      v ← getitem row 0; Ok (e * v)%Q)
                            (seq 0 (length X_norm)) = Raise IndexError).
    { rewrite (seq_split_at (length y) (length X_norm) Hlt).
      apply mapM_r_first_raise.
      - intros i Hi. apply in_seq in Hi.
        destruct (getitem_lt errors i) as (e & -> & _); [lia|].
        destruct (entry_ok nf X_norm i 0 Hrows)
          as (row & v & Hrow & Hv); [lia..|].
        rewrite bind_Ok, Hrow, bind_Ok, Hv, bind_Ok. eauto.
      - unfold getitem. now rewrite (lookup_ge_None_2 errors) by lia. }
    destruct nf as [|nf']; [lia|].
    cbn [seq mapM_r]. now rewrite Hterms.
Qed.

End unequal_lengths.

(** X19. [LinearRegression.fit] does not compare the number of rows with
    the number of targets, and returns no model when they differ: on rows
    of one positive length, with at least one iteration, it raises an
    exception (the first iteration reads [predictions[i]] or [errors[i]]
    past the end of the list, when nothing was raised before). *)
Theorem linear_fit_rejects_unequal_lengths `{PyBuiltins}
    (self : LinearRegression.t) (X : list (list Q)) (y : list Q) (nf : nat)
    (learning_rate : Q) (iterations : Z) :
  Forall (fun row => length row = nf) X → (0 < nf)%nat →
  length X ≠ length y → 0 < iterations →
  ∃ e, LinearRegression.fit self X y learning_rate iterations = Raise e.
Proof.
  intros Hrect Hnf Hneq Hit.
  destruct (LinearRegression.fit self X y learning_rate iterations)
    as [model|e] eqn:Hfit; [exfalso|eauto].
  unfold LinearRegression.fit in Hfit.
  inv_bind Hfit. inv_bind Hfit. inv_bind Hfit. inv_bind Hfit. inv_bind Hfit.
  assert (Hx : length a = nf).
  { rewrite List.Forall_forall in Hrect. apply Hrect.
    apply getitem_inv in Ha. apply list_elem_of_In. eapply list_elem_of_lookup_2, Ha. }
  rewrite Hx in *.
  assert (HlX : length a2 = length X).
  { apply mapM_r_length in Ha2. now rewrite length_seq in Ha2. }
  assert (Hrows : Forall (fun row => length row = nf) a2).
  { apply mapM_r_inv in Ha2. clear -Ha2.
    induction Ha2 as [|i r idxs rows Hr _ IH]; constructor; [|assumption].
    inv_bind Hr. unfold LinearRegression.normalize_row in Hr.
    apply mapM_r_length in Hr. now rewrite length_seq in Hr. }
  unfold range in Ha3. destruct (Z.to_nat iterations) as [|k] eqn:E; [lia|].
  cbn [seq foldM_r] in Ha3.
  rewrite (descent_step_unequal a2 y nf Hrows Hnf) in Ha3;
    [discriminate | congruence | apply length_replicate].
Qed.

Lemma linear_fit_rejects_unequal_lengths_witness :
  (∃ e, LinearRegression.fit LinearRegression.__init__ [[0; 1]; [2; 1]]%Q [1%Q]
          (1 # 100)%Q 100 = Raise e) ∧
  (∃ e, LinearRegression.fit LinearRegression.__init__ [[0; 1]; [2; 1]]%Q [1; 3; 5]%Q
          (1 # 100)%Q 100 = Raise e).
Proof.
  split.
  - apply (@linear_fit_rejects_unequal_lengths decimal_builtins
             LinearRegression.__init__ [[0; 1]; [2; 1]]%Q [1%Q] 2).
    + repeat constructor.
    + lia.
    + simpl. lia.
    + lia.
  - apply (@linear_fit_rejects_unequal_lengths decimal_builtins
             LinearRegression.__init__ [[0; 1]; [2; 1]]%Q [1; 3; 5]%Q 2).
    + repeat constructor.
    + lia.
    + simpl. lia.
    + lia.
Defined.

(** ** Categories of skipped records *)

Lemma encode_record_airline `{PyBuiltins} (r : record) (m : train_simple.encoders)
    (airline : string) :
  r !! "airline" = Some airline →
  train_simple.airline_map (fst (train_simple.encode_record r m))
  = snd (train_simple.encode_categorical airline (train_simple.airline_map m)).
Proof.
  intros Ha. unfold train_simple.encode_record, field at 1. rewrite Ha.
  destruct (train_simple.encode_categorical airline (train_simple.airline_map m))
    as [f0 am].
  repeat case_match; reflexivity.
Qed.

(** X20. The airline of every record of the training file that has one is
    in the airline map that [train_model] of [train_simple.py] writes,
    whether the record was kept or skipped for a later field: the dict is
    updated before the rest of the record is read.  The serving module then
    takes such an airline as known, with the code issued for it. *)
Theorem skipped_record_still_registers_airline `{PyBuiltins}
    (data : list record) (X : list (list Q)) (y : list Q)
    (m : train_simple.encoders) (r : record) (airline : string) :
  train_simple.prepare data [] []
    {| train_simple.airline_map := ∅; train_simple.source_map := ∅;
       train_simple.dest_map := ∅; train_simple.class_map := ∅ |}
  = Ok (X, y, m) →
  In r data → r !! "airline" = Some airline →
  ∃ code,
    train_simple.airline_map m !! airline = Some code ∧
    0 <= code < Z.of_nat (size (train_simple.airline_map m)) ∧
    ∀ MODEL_DATA, serves MODEL_DATA m →
      api_simple.encode_category airline (api_simple.airline_map MODEL_DATA)
      = inject_Z code.
Proof.
  intros Hprep Hin Ha.
  destruct (prepare_inv _ _ _ _ _ _ _ Hprep) as (_ & D & _ & R).
  destruct (D dense_encoders_empty) as ((Hrange & _) & _).
  destruct (R r Hin) as (ma & mb & res & Hrec & _ & (Hle & _) & _).
  pose proof (encode_record_airline r ma airline Ha) as Hmb.
  rewrite Hrec in Hmb. simpl in Hmb.
  assert (Hcode : train_simple.airline_map m !! airline
                  = Some (fst (train_simple.encode_categorical airline
                                 (train_simple.airline_map ma)))).
  { eapply lookup_weaken; [|exact Hle]. rewrite Hmb. apply encode_categorical_lookup. }
  eexists. split; [exact Hcode|]. split; [eapply Hrange, Hcode|].
  intros MODEL_DATA (-> & _). unfold api_simple.encode_category.
  now rewrite lookup_fmap, Hcode.
Qed.

Lemma skipped_record_still_registers_airline_witness :
  ∃ code,
    train_simple.airline_map sample.encoders_with_skipped !! "Vistara" = Some code ∧
    0 <= code < Z.of_nat (size (train_simple.airline_map sample.encoders_with_skipped)) ∧
    ∀ MODEL_DATA, serves MODEL_DATA sample.encoders_with_skipped →
      api_simple.encode_category "Vistara" (api_simple.airline_map MODEL_DATA)
      = inject_Z code.
Proof.
  apply (@skipped_record_still_registers_airline decimal_builtins
           sample.data_with_skipped [sample.row] [9000%Q]
           sample.encoders_with_skipped sample.skipped "Vistara").
  - vm_compute. reflexivity.
  - right. left. reflexivity.
  - reflexivity.
Defined.
